(** * Anomaly-detector: the z-score route and the data manager

    A shallow embedding of two parts of the repository:

    - the route [/api/network-data] (its [POST] handler and the function
      [detectAnomalies]), in module [Detector];
    - the class [DataManager] of [src/lib/data-manager.ts], together with the
      life cycle of the producers it drives, in module [Coordinator].

    JavaScript numbers are idealised as real numbers: sums, products and
    square roots are exact.  The one operation of the route whose divisor is
    not guarded, the division by the window mean, is given its JavaScript
    result outside the reals as well (module [JS]). *)

From Stdlib Require Import Reals Lra Lia String ZArith Bool Arith List.
Import ListNotations.

Open Scope R_scope.

(** ** JavaScript arithmetic where it leaves the reals *)

Module JS.

Inductive number : Type :=
| Fin (r : R)
| PosInf
| NegInf
| NaN.

(** [a / b] for finite operands. *)
Definition div (a b : R) : number :=
  if Req_dec_T b 0 then
    if Rlt_dec 0 a then PosInf
    else if Rlt_dec a 0 then NegInf
    else NaN
  else Fin (a / b).

(** [x * k] for a finite right operand. *)
Definition mul (x : number) (k : R) : number :=
  match x with
  | Fin r => Fin (r * k)
  | PosInf => if Rlt_dec 0 k then PosInf else if Rlt_dec k 0 then NegInf else NaN
  | NegInf => if Rlt_dec 0 k then NegInf else if Rlt_dec k 0 then PosInf else NaN
  | NaN => NaN
  end.

(** [Math.round] on a real: the nearest integer, ties towards +infinity. *)
Definition Math_round (x : R) : R := IZR (Zfloor (x + 1 / 2)).

Definition round (x : number) : number :=
  match x with
  | Fin r => Fin (Math_round r)
  | other => other
  end.

Definition abs (x : number) : number :=
  match x with
  | Fin r => Fin (Rabs r)
  | PosInf | NegInf => PosInf
  | NaN => NaN
  end.

(** [x.toFixed(2)] read back as a number: nearest hundredth, ties away
    from zero. *)
Definition toFixed2 (x : R) : R :=
  if Rlt_dec x 0
  then - (IZR (Zfloor (- x * 100 + 1 / 2)) / 100)
  else IZR (Zfloor (x * 100 + 1 / 2)) / 100.

(** [arr.slice(-n)]: the last [n] elements, all of them when there are
    fewer. *)
Definition slice_last {A : Type} (n : nat) (l : list A) : list A :=
  skipn (length l - n) l.

End JS.

(** ** The route /api/network-data *)

Module Detector.

(** *** Request bodies and the zod schema *)

#[warnings="-register-all"]
Inductive json : Type :=
| JNull
| JBool (b : bool)
| JNumber (r : R)
| JString (s : string)
| JArray (items : list json)
| JObject (fields : list (string * json)).

(** A key of a parsed object: the last occurrence wins. *)
Fixpoint json_get (key : string) (fields : list (string * json)) : option json :=
  match fields with
  | [] => None
  | (k, v) :: rest =>
      match json_get key rest with
      | Some later => Some later
      | None => if String.eqb k key then Some v else None
      end
  end.

Record NetworkData : Type := mkNetworkData {
  timestamp : R;
  packetsPerSecond : R;
  bandwidth : R;
  activeConnections : R;
  errorRate : R
}.

Definition z_number (v : option json) : option R :=
  match v with
  | Some (JNumber r) => Some r
  | _ => None
  end.

(** [NetworkDataSchema.parse]; [None] stands for the thrown ZodError. *)
Definition NetworkDataSchema_parse (body : json) : option NetworkData :=
  match body with
  | JObject fields =>
      match z_number (json_get "timestamp" fields),
            z_number (json_get "packetsPerSecond" fields),
            z_number (json_get "bandwidth" fields),
            z_number (json_get "activeConnections" fields),
            z_number (json_get "errorRate" fields) with
      | Some t, Some p, Some b, Some c, Some e => Some (mkNetworkData t p b c e)
      | _, _, _, _, _ => None
      end
  | _ => None
  end.

(** The body a well-formed client sends for a sample. *)
Definition to_json (d : NetworkData) : json :=
  JObject [ ("timestamp"%string, JNumber (timestamp d));
            ("packetsPerSecond"%string, JNumber (packetsPerSecond d));
            ("bandwidth"%string, JNumber (bandwidth d));
            ("activeConnections"%string, JNumber (activeConnections d));
            ("errorRate"%string, JNumber (errorRate d)) ].

(** *** Anomalies *)

Inductive Severity : Type := info | warning | critical.

Inductive Metric : Type :=
| m_packetsPerSecond
| m_bandwidth
| m_activeConnections
| m_errorRate.

Definition metrics : list Metric :=
  [m_packetsPerSecond; m_bandwidth; m_activeConnections; m_errorRate].

(** [data[metric]] *)
Definition get (metric : Metric) (data : NetworkData) : R :=
  match metric with
  | m_packetsPerSecond => packetsPerSecond data
  | m_bandwidth => bandwidth data
  | m_activeConnections => activeConnections data
  | m_errorRate => errorRate data
  end.

Record AnomalyMetrics : Type := mkAnomalyMetrics {
  threshold : R;
  actualValue : R;
  deviation : JS.number
}.

(** The description is a template literal; it is kept as the template
    together with the two numbers spliced into it. *)
Inductive Description : Type :=
| UnusualPacketRate (current normal : R)
| UnusualBandwidth (current normal : R)
| UnusualConnections (current normal : R)
| UnusualErrorRate (current normal : R).

Record Anomaly : Type := mkAnomaly {
  a_timestamp : R;
  a_type : string;
  a_severity : Severity;
  a_source : string;
  a_description : Description;
  a_metrics : option AnomalyMetrics
}.

Definition ZSCORE_THRESHOLD : R := 3.

Definition typeOf (metric : Metric) : string :=
  match metric with
  | m_packetsPerSecond => "traffic_spike"
  | m_bandwidth => "bandwidth_anomaly"
  | m_activeConnections => "connection_flood"
  | m_errorRate => "packet_drop"
  end.

Definition describe (metric : Metric) (current mean : R) : Description :=
  match metric with
  | m_packetsPerSecond => UnusualPacketRate current (JS.Math_round mean)
  | m_bandwidth => UnusualBandwidth current (JS.Math_round mean)
  | m_activeConnections => UnusualConnections current (JS.Math_round mean)
  | m_errorRate => UnusualErrorRate current (JS.toFixed2 mean)
  end.

(** *** Window statistics *)

(** [values.reduce((sum, val) => sum + val, 0) / values.length] *)
Definition mean (values : list R) : R :=
  fold_left (fun sum val => sum + val) values 0 / INR (length values).

(** [Math.sqrt(values.reduce((sum, val) => sum + Math.pow(val - mean, 2), 0)
    / values.length)] *)
Definition stdDev (values : list R) : R :=
  sqrt (fold_left (fun sum val => sum + (val - mean values) ^ 2) values 0
        / INR (length values)).

(** [networkDataHistory.slice(-30).map((data) => data[metric])] *)
Definition window (networkDataHistory : list NetworkData) (metric : Metric) : list R :=
  map (get metric) (JS.slice_last 30 networkDataHistory).

Definition zScore (mean stdDev value : R) : R :=
  Rabs ((value - mean) / stdDev).

Definition severityOf (zScore : R) : Severity :=
  if Rlt_dec (ZSCORE_THRESHOLD * 2) zScore then critical
  else if Rlt_dec (ZSCORE_THRESHOLD * (3 / 2)) zScore then warning
  else info.

(** The event pushed for one metric that fired. *)
Definition event (currentData : NetworkData) (metric : Metric)
                 (mean zScore : R) : Anomaly :=
  let deviation :=
    JS.round (JS.mul (JS.div (get metric currentData - mean) mean) 100) in
  {| a_timestamp := timestamp currentData;
     a_type := typeOf metric;
     a_severity := severityOf zScore;
     a_source := "Anomaly Detection Engine";
     a_description := describe metric (get metric currentData) mean;
     a_metrics := Some {| threshold := JS.Math_round mean;
                          actualValue := get metric currentData;
                          deviation := JS.abs deviation |} |}.

(** One turn of the loop [for (const metric of metrics)]. *)
Definition detectMetric (networkDataHistory : list NetworkData)
                        (currentData : NetworkData)
                        (anomalies : list Anomaly) (metric : Metric) : list Anomaly :=
  let values := window networkDataHistory metric in
  let mean := mean values in
  let stdDev := stdDev values in
  if Rlt_dec stdDev (1 / 10) then anomalies
  else
    let zScore := zScore mean stdDev (get metric currentData) in
    if Rlt_dec ZSCORE_THRESHOLD zScore
    then anomalies ++ [event currentData metric mean zScore]
    else anomalies.

(** [detectAnomalies]; the module-level array it reads is a parameter. *)
Definition detectAnomalies (networkDataHistory : list NetworkData)
                           (currentData : NetworkData) : list Anomaly :=
  if (length networkDataHistory <? 10)%nat then []
  else fold_left (detectMetric networkDataHistory currentData) metrics [].

(** *** The handler *)

Record State : Type := mkState {
  networkDataHistory : list NetworkData;
  detectedAnomalies : list Anomaly
}.

Definition initial : State := mkState [] [].

Inductive Response : Type :=
| Success (anomaliesDetected : nat)
| BadRequest (error : string).

(** [if (arr.length > limit) arr = arr.slice(-limit)] *)
Definition keep_last {A : Type} (limit : nat) (l : list A) : list A :=
  if (limit <? length l)%nat then JS.slice_last limit l else l.

(** [POST]; [None] is a body that is not JSON. *)
Definition POST (st : State) (body : option json) : State * Response :=
  match option_map NetworkDataSchema_parse body with
  | Some (Some validatedData) =>
      let history := keep_last 1000 (networkDataHistory st ++ [validatedData]) in
      let anomalies := detectAnomalies history validatedData in
      let detected :=
        if (0 <? length anomalies)%nat
        then keep_last 100 (detectedAnomalies st ++ anomalies)
        else detectedAnomalies st in
      (mkState history detected, Success (length anomalies))
  | _ => (st, BadRequest "Invalid network data format")
  end.

(** Feeding a sequence of samples, one request each. *)
Fixpoint feed (st : State) (samples : list NetworkData) : State * list Response :=
  match samples with
  | [] => (st, [])
  | d :: rest =>
      let (st1, r) := POST st (Some (to_json d)) in
      let (st2, rs) := feed st1 rest in
      (st2, r :: rs)
  end.

(** *** Proof-side views of the two [reduce] calls *)

(** The sum of [f] over a list, used to reason about the two [reduce]
    calls. *)
Fixpoint sumf (f : R -> R) (l : list R) : R :=
  match l with
  | [] => 0
  | v :: rest => f v + sumf f rest
  end.

(** The quantity under the square root. *)
Definition variance (l : list R) : R :=
  sumf (fun v => (v - mean l) ^ 2) l / INR (length l).

(** The condition under which the loop pushes an event for [metric], and
    the event it pushes. *)
Definition fires (history : list NetworkData) (currentData : NetworkData)
                 (metric : Metric) : Prop :=
  1 / 10 <= stdDev (window history metric) /\
  ZSCORE_THRESHOLD < zScore (mean (window history metric))
                            (stdDev (window history metric))
                            (get metric currentData).

Definition eventFor (history : list NetworkData) (currentData : NetworkData)
                    (metric : Metric) : Anomaly :=
  event currentData metric (mean (window history metric))
        (zScore (mean (window history metric)) (stdDev (window history metric))
                (get metric currentData)).

(** The array [detectAnomalies] reads while a request for [currentData] is
    served: the stored history with the new sample already pushed. *)
Definition historyAtDetection (st : State) (currentData : NetworkData) : list NetworkData :=
  keep_last 1000 (networkDataHistory st ++ [currentData]).

(** The window as the specification words it: the last thirty samples stored
    before the new one arrives. *)
Definition precedingWindow (st : State) (metric : Metric) : list R :=
  window (networkDataHistory st) metric.

(** *** A sample run *)

Definition sample (t pps : R) : NetworkData := mkNetworkData t pps 50 100 1.

(** Ten stored samples around 100 packets per second. *)
Definition quiet_history : list NetworkData :=
  [sample 1 90; sample 2 90; sample 3 90; sample 4 90; sample 5 90;
   sample 6 110; sample 7 110; sample 8 110; sample 9 110; sample 10 110].

Definition quiet_state : State := mkState quiet_history [].

Definition burst : NetworkData := sample 11 1200.

Definition burst_event : Anomaly :=
  {| a_timestamp := 11;
     a_type := "traffic_spike";
     a_severity := info;
     a_source := "Anomaly Detection Engine";
     a_description := UnusualPacketRate 1200 200;
     a_metrics := Some {| threshold := 200; actualValue := 1200;
                          deviation := JS.Fin 500 |} |}.

(** *** The end-to-end scenario *)

(** Thirty samples at 500 packets per second, then one at 2000. *)
Definition steady : list NetworkData := repeat (mkNetworkData 0 500 50 100 1) 30.

Definition spike : NetworkData := mkNetworkData 1 2000 50 100 1.

(** What the scenario asks of the thirty samples that come first. *)
Definition steady_like (b c e : R) (s : NetworkData) : Prop :=
  495 <= packetsPerSecond s <= 505 /\
  bandwidth s = b /\ activeConnections s = c /\ errorRate s = e.

(** *** Arbitrary request bodies *)

(** Serving a sequence of requests, whatever their bodies. *)
Fixpoint serve (st : State) (bodies : list (option json)) : State :=
  match bodies with
  | [] => st
  | body :: rest => serve (fst (POST st body)) rest
  end.

(** The five keys the schema asks for. *)
Definition requiredKeys : list string :=
  ["timestamp"; "packetsPerSecond"; "bandwidth"; "activeConnections"; "errorRate"]%string.

(** A stream that sums to zero: ten samples at -1 packets per second, then
    one at 10. *)
Definition balanced_history : list NetworkData :=
  repeat (mkNetworkData 0 (-1) 50 100 1) 10.

Definition balanced_sample : NetworkData := mkNetworkData 1 10 50 100 1.

(** Whether the loop pushes an event for [metric], as a boolean. *)
Definition fired (history : list NetworkData) (currentData : NetworkData)
                 (metric : Metric) : bool :=
  if Rlt_dec (stdDev (window history metric)) (1 / 10) then false
  else if Rlt_dec ZSCORE_THRESHOLD
                  (zScore (mean (window history metric))
                          (stdDev (window history metric))
                          (get metric currentData))
       then true else false.

End Detector.

(** ** The data manager (src/lib/data-manager.ts)

    Every method of [DataManager] is a transition on the record below.  The
    subscribers registered with [onData], [onAnomaly], [onStatus] and
    [onError] are opaque functions that neither throw nor call the data
    manager: a subscriber is kept as an identifier and each invocation is
    appended to the log [calls], in the order of the [forEach] that makes
    it.  The [await]s inside one method are not interleaved with other calls,
    except for the one that waits for [initialize], which splits
    [addDataSource] in two phases. *)

Module Coordinator.

(** *** The types of src/lib/index.ts *)

Inductive DataSourceType : Type := pcap | snmp | netflow | syslog | simulated.

Inductive StatusKind : Type :=
| st_initializing
| st_running
| st_stopped
| st_error.

(** [DataSourceStatus]; the time stamp and the counters are left out. *)
Record DataSourceStatus : Type := mkStatus {
  status : StatusKind;
  message : option string
}.

Record NetworkDataPoint : Type := mkPoint {
  timestamp : R;
  packetsPerSecond : R;
  bandwidth : R;
  activeConnections : R;
  errorRate : R;
  source : option string
}.

Record AnomalyEvent : Type := mkEvent {
  id : string;
  anomaly_timestamp : R;
  type : string;
  severity : Detector.Severity;
  anomaly_source : string;
  description : string;
  recommendedAction : string
}.

(** The errors the data manager throws itself, and those of producers. *)
Inductive JsError : Type :=
| AlreadyExists (id : string)
| FailedToInitialize (id : string)
| DoesNotExist (id : string)
| UnsupportedType (type : string)
| ProducerError (message : string).

(** *** Producers *)

(** A producer object: its class and its [running] field. *)
Record NetworkDataSource : Type := mkSource {
  kind : DataSourceType;
  running : bool
}.

Definition isRunning (p : NetworkDataSource) : bool := running p.

(** [createDataSource]; [None] is the error thrown by the default case. *)
Definition createDataSource (type : string) : option NetworkDataSource :=
  if String.eqb type "pcap" then Some (mkSource pcap false)
  else if String.eqb type "snmp" then Some (mkSource snmp false)
  else if String.eqb type "netflow" then Some (mkSource netflow false)
  else if String.eqb type "syslog" then Some (mkSource syslog false)
  else if String.eqb type "simulated" then Some (mkSource simulated false)
  else None.

(** Of a configuration only one thing decides a branch: whether the
    list-valued settings a producer joins while it logs are still lists. *)
Record Config : Type := mkConfig { lists_joinable : bool }.

(** The value [initialize(config)] resolves to.  The NetFlow and syslog
    producers call [join] on settings of the merged configuration inside
    their [try]; the others cannot fail. *)
Definition initialize (k : DataSourceType) (config : option Config) : bool :=
  match k, config with
  | (netflow | syslog), Some c => lists_joinable c
  | _, _ => true
  end.

(** The calls of [updateStatus] made by [start] and by [stop]. *)
Definition startStatuses (k : DataSourceType) : list DataSourceStatus :=
  match k with
  | simulated => [mkStatus st_running None]
  | pcap => [mkStatus st_initializing (Some "Starting pcap capture...");
             mkStatus st_running (Some "Pcap capture running")]
  | snmp => [mkStatus st_initializing (Some "Starting SNMP monitoring...");
             mkStatus st_running (Some "SNMP monitoring running")]
  | netflow => [mkStatus st_initializing (Some "Starting NetFlow collector...");
                mkStatus st_running (Some "NetFlow collector running")]
  | syslog => [mkStatus st_initializing (Some "Starting syslog collector...");
               mkStatus st_running (Some "Syslog collector running")]
  end%string.

Definition stopStatuses (k : DataSourceType) : list DataSourceStatus :=
  match k with
  | simulated => [mkStatus st_stopped None]
  | pcap => [mkStatus st_stopped (Some "Pcap capture stopped")]
  | snmp => [mkStatus st_stopped (Some "SNMP monitoring stopped")]
  | netflow => [mkStatus st_stopped (Some "NetFlow collector stopped")]
  | syslog => [mkStatus st_stopped (Some "Syslog collector stopped")]
  end%string.

(** *** The JavaScript [Map], in insertion order *)

Definition JsMap (V : Type) : Type := list (string * V).

Fixpoint Map_get {V : Type} (key : string) (m : JsMap V) : option V :=
  match m with
  | [] => None
  | (k, v) :: rest => if String.eqb k key then Some v else Map_get key rest
  end.

Definition Map_has {V : Type} (key : string) (m : JsMap V) : bool :=
  match Map_get key m with Some _ => true | None => false end.

(** [set] keeps the position of a key that is present and appends a new
    one. *)
Fixpoint Map_set {V : Type} (key : string) (value : V) (m : JsMap V) : JsMap V :=
  match m with
  | [] => [(key, value)]
  | (k, v) :: rest =>
      if String.eqb k key then (k, value) :: rest
      else (k, v) :: Map_set key value rest
  end.

Fixpoint Map_delete {V : Type} (key : string) (m : JsMap V) : JsMap V :=
  match m with
  | [] => []
  | (k, v) :: rest =>
      if String.eqb k key then rest else (k, v) :: Map_delete key rest
  end.

Definition Map_keys {V : Type} (m : JsMap V) : list string := map fst m.

Definition Map_size {V : Type} (m : JsMap V) : nat := length m.

(** *** The state of a [DataManager] *)

Definition Callback : Type := nat.

Inductive Call : Type :=
| DataCall (callback : Callback) (data : NetworkDataPoint)
| AnomalyCall (callback : Callback) (anomaly : AnomalyEvent)
| StatusCall (callback : Callback) (sourceId : string) (status : DataSourceStatus)
| ErrorCall (callback : Callback) (sourceId : string) (error : JsError).

Record DataManager : Type := mkDataManager {
  dataSources : JsMap NetworkDataSource;
  activeSource : option string;
  dataCallbacks : list Callback;
  anomalyCallbacks : list Callback;
  statusCallbacks : list Callback;
  errorCallbacks : list Callback;
  dataHistory : list NetworkDataPoint;
  anomalyHistory : list AnomalyEvent;
  calls : list Call
}.

Definition maxDataHistorySize : nat := 3600.
Definition maxAnomalyHistorySize : nat := 1000.

(** The field initialisers. *)
Definition blank : DataManager :=
  mkDataManager [] None [] [] [] [] [] [] [].

Definition with_dataSources (this : DataManager) (v : JsMap NetworkDataSource) :=
  mkDataManager v (activeSource this) (dataCallbacks this) (anomalyCallbacks this)
    (statusCallbacks this) (errorCallbacks this) (dataHistory this)
    (anomalyHistory this) (calls this).

Definition with_activeSource (this : DataManager) (v : option string) :=
  mkDataManager (dataSources this) v (dataCallbacks this) (anomalyCallbacks this)
    (statusCallbacks this) (errorCallbacks this) (dataHistory this)
    (anomalyHistory this) (calls this).

Definition with_dataHistory (this : DataManager) (v : list NetworkDataPoint) :=
  mkDataManager (dataSources this) (activeSource this) (dataCallbacks this)
    (anomalyCallbacks this) (statusCallbacks this) (errorCallbacks this) v
    (anomalyHistory this) (calls this).

Definition with_anomalyHistory (this : DataManager) (v : list AnomalyEvent) :=
  mkDataManager (dataSources this) (activeSource this) (dataCallbacks this)
    (anomalyCallbacks this) (statusCallbacks this) (errorCallbacks this)
    (dataHistory this) v (calls this).

Definition with_calls (this : DataManager) (v : list Call) :=
  mkDataManager (dataSources this) (activeSource this) (dataCallbacks this)
    (anomalyCallbacks this) (statusCallbacks this) (errorCallbacks this)
    (dataHistory this) (anomalyHistory this) v.

(** [sourceId === this.activeSource] *)
Definition isActive (this : DataManager) (sourceId : string) : bool :=
  match activeSource this with
  | Some active => String.eqb sourceId active
  | None => false
  end.

(** [push] followed by the [shift] that limits the size. *)
Definition pushLimited {A : Type} (limit : nat) (history : list A) (item : A) : list A :=
  let pushed := history ++ [item] in
  if (limit <? length pushed)%nat then tl pushed else pushed.

(** *** The four private handlers *)

Definition handleData (this : DataManager) (sourceId : string)
                      (data : NetworkDataPoint) : DataManager :=
  if isActive this sourceId then
    let this1 :=
      with_dataHistory this (pushLimited maxDataHistorySize (dataHistory this) data) in
    with_calls this1
      (calls this1 ++ map (fun callback => DataCall callback data) (dataCallbacks this1))
  else this.

Definition handleAnomaly (this : DataManager) (sourceId : string)
                         (anomaly : AnomalyEvent) : DataManager :=
  if isActive this sourceId then
    let this1 :=
      with_anomalyHistory this
        (pushLimited maxAnomalyHistorySize (anomalyHistory this) anomaly) in
    with_calls this1
      (calls this1
       ++ map (fun callback => AnomalyCall callback anomaly) (anomalyCallbacks this1))
  else this.

Definition handleStatusChange (this : DataManager) (sourceId : string)
                              (status : DataSourceStatus) : DataManager :=
  with_calls this
    (calls this
     ++ map (fun callback => StatusCall callback sourceId status) (statusCallbacks this)).

Definition handleError (this : DataManager) (sourceId : string)
                       (error : JsError) : DataManager :=
  with_calls this
    (calls this
     ++ map (fun callback => ErrorCall callback sourceId error) (errorCallbacks this)).

(** *** Starting and stopping a registered producer *)

(** [start()] of the producer stored under [id].  The producer was wired to
    the data manager when it was registered, so each [updateStatus] it makes
    arrives at [handleStatusChange] with that id. *)
Definition start (this : DataManager) (id : string) (p : NetworkDataSource) : DataManager :=
  if running p then this
  else
    fold_left (fun this' st => handleStatusChange this' id st)
      (startStatuses (kind p))
      (with_dataSources this (Map_set id (mkSource (kind p) true) (dataSources this))).

Definition stop (this : DataManager) (id : string) (p : NetworkDataSource) : DataManager :=
  if running p then
    fold_left (fun this' st => handleStatusChange this' id st)
      (stopStatuses (kind p))
      (with_dataSources this (Map_set id (mkSource (kind p) false) (dataSources this)))
  else this.

(** [updateConfiguration]: a running producer is stopped and started again
    around the merge. *)
Definition updateConfiguration (this : DataManager) (id : string)
                               (p : NetworkDataSource) : DataManager :=
  if running p then start (stop this id p) id (mkSource (kind p) false) else this.

(** *** The public methods *)

(** [addDataSource] up to [await dataSource.initialize(config)]: [None] is
    the path through [catch], which returns [false]. *)
Definition addDataSource_begin (this : DataManager) (id type : string)
  : DataManager * option NetworkDataSource :=
  if Map_has id (dataSources this) then (handleError this id (AlreadyExists id), None)
  else
    match createDataSource type with
    | None => (handleError this id (UnsupportedType type), None)
    | Some dataSource => (this, Some dataSource)
    end.

(** [addDataSource] from the point where [initialize] has resolved. *)
Definition addDataSource_resume (this : DataManager) (id : string)
                                (dataSource : NetworkDataSource) (initialized : bool)
  : DataManager * bool :=
  if negb initialized then (handleError this id (FailedToInitialize id), false)
  else
    let this1 := with_dataSources this (Map_set id dataSource (dataSources this)) in
    let this2 :=
      if (Map_size (dataSources this1) =? 1)%nat
      then with_activeSource this1 (Some id)
      else this1 in
    (this2, true).

(** The two phases with nothing in between. *)
Definition addDataSource (this : DataManager) (id type : string)
                         (config : option Config) : DataManager * bool :=
  match addDataSource_begin this id type with
  | (this1, None) => (this1, false)
  | (this1, Some dataSource) =>
      addDataSource_resume this1 id dataSource (initialize (kind dataSource) config)
  end.

Definition removeDataSource (this : DataManager) (id : string) : DataManager * bool :=
  match Map_get id (dataSources this) with
  | None => (this, false)
  | Some dataSource =>
      let this1 := if isRunning dataSource then stop this id dataSource else this in
      let this2 := with_dataSources this1 (Map_delete id (dataSources this1)) in
      let this3 :=
        if isActive this2 id then
          with_activeSource this2
            (if (0 <? Map_size (dataSources this2))%nat
             then hd_error (Map_keys (dataSources this2))
             else None)
        else this2 in
      (this3, true)
  end.

Record SourceEntry : Type := mkEntry {
  entry_id : string;
  entry_source : NetworkDataSource;
  active : bool
}.

Definition getDataSources (this : DataManager) : list SourceEntry :=
  map (fun entry => mkEntry (fst entry) (snd entry) (isActive this (fst entry)))
      (dataSources this).

(** [if (this.activeSource)]: neither [null] nor the empty string. *)
Definition truthy (s : option string) : bool :=
  match s with
  | Some s => negb (String.eqb s "")
  | None => false
  end.

Definition setActiveDataSource (this : DataManager) (id : string) : DataManager * bool :=
  if negb (Map_has id (dataSources this))
  then (handleError this id (DoesNotExist id), false)
  else
    let this1 :=
      if truthy (activeSource this) then
        match activeSource this with
        | Some current =>
            match Map_get current (dataSources this) with
            | Some currentActive =>
                if isRunning currentActive then stop this current currentActive else this
            | None => this
            end
        | None => this
        end
      else this in
    let this2 := with_activeSource this1 (Some id) in
    let this3 :=
      match Map_get id (dataSources this2) with
      | Some newActive =>
          if negb (isRunning newActive) then start this2 id newActive else this2
      | None => this2
      end in
    (this3, true).

Definition startDataSource (this : DataManager) (id : string) : DataManager * bool :=
  match Map_get id (dataSources this) with
  | None => (handleError this id (DoesNotExist id), false)
  | Some dataSource =>
      ((if negb (isRunning dataSource) then start this id dataSource else this), true)
  end.

Definition stopDataSource (this : DataManager) (id : string) : DataManager * bool :=
  match Map_get id (dataSources this) with
  | None => (handleError this id (DoesNotExist id), false)
  | Some dataSource =>
      ((if isRunning dataSource then stop this id dataSource else this), true)
  end.

Definition updateDataSourceConfig (this : DataManager) (id : string) : DataManager * bool :=
  match Map_get id (dataSources this) with
  | None => (handleError this id (DoesNotExist id), false)
  | Some dataSource => (updateConfiguration this id dataSource, true)
  end.

Definition onData (this : DataManager) (callback : Callback) : DataManager :=
  mkDataManager (dataSources this) (activeSource this) (dataCallbacks this ++ [callback])
    (anomalyCallbacks this) (statusCallbacks this) (errorCallbacks this)
    (dataHistory this) (anomalyHistory this) (calls this).

Definition onAnomaly (this : DataManager) (callback : Callback) : DataManager :=
  mkDataManager (dataSources this) (activeSource this) (dataCallbacks this)
    (anomalyCallbacks this ++ [callback]) (statusCallbacks this) (errorCallbacks this)
    (dataHistory this) (anomalyHistory this) (calls this).

Definition onStatus (this : DataManager) (callback : Callback) : DataManager :=
  mkDataManager (dataSources this) (activeSource this) (dataCallbacks this)
    (anomalyCallbacks this) (statusCallbacks this ++ [callback]) (errorCallbacks this)
    (dataHistory this) (anomalyHistory this) (calls this).

Definition onError (this : DataManager) (callback : Callback) : DataManager :=
  mkDataManager (dataSources this) (activeSource this) (dataCallbacks this)
    (anomalyCallbacks this) (statusCallbacks this) (errorCallbacks this ++ [callback])
    (dataHistory this) (anomalyHistory this) (calls this).

(** *** Runs of a data manager *)

(** What can happen to a data manager: a call of a public method, or an event
    that a producer wired under [sourceId] delivers to one of the handlers. *)
Inductive Op : Type :=
| AddDataSource (id type : string) (config : option Config)
| RemoveDataSource (id : string)
| SetActiveDataSource (id : string)
| StartDataSource (id : string)
| StopDataSource (id : string)
| UpdateDataSourceConfig (id : string)
| OnData (callback : Callback)
| OnAnomaly (callback : Callback)
| OnStatus (callback : Callback)
| OnError (callback : Callback)
| EmitData (sourceId : string) (data : NetworkDataPoint)
| EmitAnomaly (sourceId : string) (anomaly : AnomalyEvent)
| EmitStatus (sourceId : string) (status : DataSourceStatus)
| EmitError (sourceId : string) (error : JsError).

(** One operation and the boolean a public method resolves to. *)
Definition step (this : DataManager) (op : Op) : DataManager * bool :=
  match op with
  | AddDataSource id type config => addDataSource this id type config
  | RemoveDataSource id => removeDataSource this id
  | SetActiveDataSource id => setActiveDataSource this id
  | StartDataSource id => startDataSource this id
  | StopDataSource id => stopDataSource this id
  | UpdateDataSourceConfig id => updateDataSourceConfig this id
  | OnData callback => (onData this callback, true)
  | OnAnomaly callback => (onAnomaly this callback, true)
  | OnStatus callback => (onStatus this callback, true)
  | OnError callback => (onError this callback, true)
  | EmitData sourceId data => (handleData this sourceId data, true)
  | EmitAnomaly sourceId anomaly => (handleAnomaly this sourceId anomaly, true)
  | EmitStatus sourceId status => (handleStatusChange this sourceId status, true)
  | EmitError sourceId error => (handleError this sourceId error, true)
  end.

Definition run (this : DataManager) (ops : list Op) : DataManager :=
  fold_left (fun this' op => fst (step this' op)) ops this.

(** The constructor starts the registration of the built-in source; the
    state once that registration has completed. *)
Definition constructed : DataManager :=
  fst (addDataSource blank "simulated" "simulated" None).

(** The states a data manager can be in: those reached from its field
    initialisers. *)
Definition reachable (this : DataManager) : Prop :=
  exists ops, this = run blank ops.

(** The number of registrations that succeeded in a run. *)
Fixpoint registrations (this : DataManager) (ops : list Op) : nat :=
  match ops with
  | [] => 0
  | op :: rest =>
      let (this1, ok) := step this op in
      match op with
      | AddDataSource _ _ _ => (if ok then 1 else 0) + registrations this1 rest
      | _ => registrations this1 rest
      end
  end.

(** The sentence of the specification on which source a registration makes
    active: only the first one ever registered with this data manager. *)
Definition activates_only_first_ever : Prop :=
  forall ops id type config after,
    step (run blank ops) (AddDataSource id type config) = (after, true) ->
    activeSource after = Some id ->
    registrations blank ops = 0%nat.

(** What every reachable state satisfies. *)
Definition invariant (this : DataManager) : Prop :=
  NoDup (Map_keys (dataSources this)) /\
  (forall a, activeSource this = Some a -> In a (Map_keys (dataSources this))) /\
  (length (dataHistory this) <= maxDataHistorySize)%nat /\
  (length (anomalyHistory this) <= maxAnomalyHistorySize)%nat.

(** As long as a source is registered, one of them is the active one. *)
Definition some_active (this : DataManager) : Prop :=
  dataSources this <> [] -> activeSource this <> None.

(** Two states that differ at most in the producers and in the log. *)
Definition frame (this this' : DataManager) : Prop :=
  activeSource this' = activeSource this /\
  dataHistory this' = dataHistory this /\
  anomalyHistory this' = anomalyHistory this /\
  dataCallbacks this' = dataCallbacks this /\
  anomalyCallbacks this' = anomalyCallbacks this /\
  statusCallbacks this' = statusCallbacks this /\
  errorCallbacks this' = errorCallbacks this.

(** *** Sample states *)

(** A data manager whose built-in source is registered, with one subscriber
    on each channel. *)
Definition subscribed : DataManager :=
  run blank [AddDataSource "simulated" "simulated" None;
             OnData 1%nat; OnAnomaly 2%nat; OnStatus 3%nat; OnError 4%nat].

Definition point : NetworkDataPoint := mkPoint 0 500 50 100 1 None.

(** A life of a data manager in which a source is registered under the empty
    string and made active. *)
Definition empty_id_run : list Op :=
  [AddDataSource "simulated" "simulated" None;
   AddDataSource "" "pcap" None;
   SetActiveDataSource ""].

(** Delivering a sequence of samples, or of anomalies, under one id. *)
Definition deliverData (this : DataManager) (sourceId : string)
                       (items : list NetworkDataPoint) : DataManager :=
  fold_left (fun this' data => handleData this' sourceId data) items this.

Definition deliverAnomalies (this : DataManager) (sourceId : string)
                            (items : list AnomalyEvent) : DataManager :=
  fold_left (fun this' anomaly => handleAnomaly this' sourceId anomaly) items this.

Definition alert : AnomalyEvent :=
  mkEvent "anomaly-1" 0 "traffic_spike" Detector.warning "10.0.0.25"
          "Sudden increase in network traffic detected." "Monitor traffic patterns.".

(** *** The catalogue of source types *)

(** The [name] field of each producer class. *)
Definition sourceName (k : DataSourceType) : string :=
  match k with
  | pcap => "Packet Capture"
  | snmp => "SNMP Monitoring"
  | netflow => "NetFlow/IPFIX"
  | syslog => "System Logs"
  | simulated => "Simulated Data"
  end.

Record AvailableSource : Type := mkAvailable {
  available_type : string;
  available_name : string;
  available_description : string
}.

Definition getAvailableDataSources : list AvailableSource :=
  [ mkAvailable "pcap" "Packet Capture"
      "Capture and analyze network packets directly from network interfaces";
    mkAvailable "snmp" "SNMP Monitoring"
      "Collect network statistics via SNMP from routers, switches, and other devices";
    mkAvailable "netflow" "NetFlow/IPFIX"
      "Process NetFlow or IPFIX data from network devices";
    mkAvailable "syslog" "System Logs"
      "Analyze network-related system logs from servers and devices";
    mkAvailable "simulated" "Simulated Data"
      "Generate simulated network data for testing and development" ].

(** [getDataSource]: the producer, or [null]. *)
Definition getDataSource (this : DataManager) (id : string) : option NetworkDataSource :=
  Map_get id (dataSources this).

(** *** Views of a run *)

(** The calls that a sequence of [updateStatus] makes on the status
    subscribers. *)
Definition statusCalls (this : DataManager) (id : string)
                       (statuses : list DataSourceStatus) : list Call :=
  flat_map (fun st => map (fun callback => StatusCall callback id st)
                          (statusCallbacks this))
           statuses.

(** The samples, and the anomalies, that a run delivers under the id that is
    active at that moment. *)
Fixpoint acceptedData (this : DataManager) (ops : list Op) : list NetworkDataPoint :=
  match ops with
  | [] => []
  | op :: rest =>
      match op with
      | EmitData sourceId data => if isActive this sourceId then [data] else []
      | _ => []
      end ++ acceptedData (fst (step this op)) rest
  end.

Fixpoint acceptedAnomalies (this : DataManager) (ops : list Op) : list AnomalyEvent :=
  match ops with
  | [] => []
  | op :: rest =>
      match op with
      | EmitAnomaly sourceId anomaly => if isActive this sourceId then [anomaly] else []
      | _ => []
      end ++ acceptedAnomalies (fst (step this op)) rest
  end.

(** The runs in which every registration carries a non-empty id.  The
    callers of [addDataSource] pass no other: the constructor and the hook
    pass ["simulated"], the route answers 400 on [!id] before it calls, and
    the form replaces a blank id by a generated one. *)
Definition registers_nonempty_ids (ops : list Op) : bool :=
  forallb (fun op =>
             match op with
             | AddDataSource id _ _ => negb (String.eqb id "")
             | _ => true
             end)
          ops.

(** The calls that a switch to [id] makes on the status subscribers: those
    of the [stop()] of the producer that was active, if it was running, then
    those of the [start()] of the producer under [id], if it is not running
    at that point. *)
Definition switchCalls (this : DataManager) (id : string) : list Call :=
  match activeSource this with
  | Some previous =>
      match Map_get previous (dataSources this) with
      | Some q =>
          if running q then statusCalls this previous (stopStatuses (kind q)) else []
      | None => []
      end
  | None => []
  end
  ++ match Map_get id (dataSources this) with
     | Some p =>
         if running p && negb (isActive this id) then []
         else statusCalls this id (startStatuses (kind p))
     | None => []
     end.

(** The producers of a state after a switch to [id]: the one under [id]
    runs, the one that was active is stopped, the others are as they were. *)
Definition switched (this : DataManager) (id key : string) : option NetworkDataSource :=
  match Map_get key (dataSources this) with
  | Some p =>
      Some (mkSource (kind p)
              (if String.eqb key id then true
               else if isActive this key then false
               else running p))
  | None => None
  end.

End Coordinator.

(** ** The hook that connects the user interface (src/hooks/use-websocket.tsx)

    Only the calls on the data manager are kept; the React state that the
    hook updates beside them is left out. *)

Module Hook.
Import Coordinator.

(** [connect(sourceId)] *)
Definition connect (this : DataManager) (sourceId : option string) : DataManager :=
  let sources := getDataSources this in
  let this1 :=
    if (length sources =? 0)%nat
    then fst (addDataSource this "simulated" "simulated" None)
    else this in
  let this2 :=
    if truthy sourceId then
      match sourceId with
      | Some given => fst (setActiveDataSource this1 given)
      | None => this1
      end
    else
      match hd_error (getDataSources this1) with
      | Some firstSource => fst (setActiveDataSource this1 (entry_id firstSource))
      | None => this1
      end in
  match filter active (getDataSources this2) with
  | first :: _ => fst (startDataSource this2 (entry_id first))
  | [] => this2
  end.

(** [disconnect()]: the loop over the listed sources; [isRunning] is asked of
    the producer as it is when its turn comes. *)
Definition disconnect (this : DataManager) : DataManager :=
  fold_left
    (fun this' source =>
       match Map_get (entry_id source) (dataSources this') with
       | Some producer =>
           if isRunning producer
           then fst (stopDataSource this' (entry_id source))
           else this'
       | None => this'
       end)
    (getDataSources this) this.

End Hook.

(** ** The HTTP handlers that read or change the data manager *)

Module Routes.
Import Coordinator.

(** The body of the answer of [GET /api/network-data]. *)
Record NetworkDataView : Type := mkView {
  current : option NetworkDataPoint;
  history : list NetworkDataPoint;
  anomalies : list AnomalyEvent
}.

(** [GET] of the network-data route. *)
Definition GET (dataManager : DataManager) : NetworkDataView :=
  let dataHistory := dataHistory dataManager in
  let anomalyHistory := anomalyHistory dataManager in
  {| current :=
       if (0 <? length dataHistory)%nat
       then nth_error dataHistory (length dataHistory - 1)
       else None;
     history := JS.slice_last 60 dataHistory;
     anomalies := anomalyHistory |}.

Inductive HttpResponse : Type :=
| Ok
| Failure (status : nat) (error : string).

(** [DELETE /api/data-sources?id=...]; the argument is what
    [url.searchParams.get("id")] returns. *)
Definition DELETE (dataManager : DataManager) (id : option string)
  : DataManager * HttpResponse :=
  if negb (truthy id) then (dataManager, Failure 400 "Missing data source ID")
  else
    match id with
    | Some id =>
        let (after, result) := removeDataSource dataManager id in
        (after, if result then Ok else Failure 500 "Failed to remove data source")
    | None => (dataManager, Failure 400 "Missing data source ID")
    end.

End Routes.

(** ** The route /api/simulate

    [Math.random()] is an input: each call is one field of [Randoms], in the
    order in which the handler makes the calls. *)

Module Simulate.

Definition BASE_PACKETS_PER_SECOND : R := 500.
Definition BASE_BANDWIDTH : R := 50.
Definition BASE_ACTIVE_CONNECTIONS : R := 100.
Definition BASE_ERROR_RATE : R := 1.

Definition PACKETS_VARIANCE : R := 2 / 10.
Definition BANDWIDTH_VARIANCE : R := 2 / 10.
Definition CONNECTIONS_VARIANCE : R := 3 / 10.
Definition ERROR_RATE_VARIANCE : R := 5 / 10.

Definition ANOMALY_PROBABILITY : R := 5 / 100.

(** [Number(x.toFixed(decimals))]: the nearest multiple of 10^-decimals,
    ties away from zero. *)
Definition toFixed (decimals : nat) (x : R) : R :=
  if Rlt_dec x 0
  then - (IZR (Zfloor (- x * 10 ^ decimals + 1 / 2)) / 10 ^ decimals)
  else IZR (Zfloor (x * 10 ^ decimals + 1 / 2)) / 10 ^ decimals.

Definition generateValue (baseValue varianceFactor : R) (decimals : nat)
                         (random : R) : R :=
  let randomFactor := 1 - varianceFactor + random * varianceFactor * 2 in
  let value := baseValue * randomFactor in
  toFixed decimals value.

Record Randoms : Type := mkRandoms {
  r_packets : R;
  r_bandwidth : R;
  r_connections : R;
  r_errorRate : R;
  r_inject : R;
  r_metric : R;
  r_factor : R
}.

(** The draws [Math.random()] can give: each lies in [0, 1). *)
Definition drawn (r : Randoms) : Prop :=
  0 <= r_packets r < 1 /\ 0 <= r_bandwidth r < 1 /\ 0 <= r_connections r < 1 /\
  0 <= r_errorRate r < 1 /\ 0 <= r_inject r < 1 /\ 0 <= r_metric r < 1 /\
  0 <= r_factor r < 1.

(** [GET]: the sample and the flag [anomaly] of the answer. *)
Definition GET (timestamp : R) (r : Randoms) : Detector.NetworkData * bool :=
  let normalData :=
    Detector.mkNetworkData timestamp
      (generateValue BASE_PACKETS_PER_SECOND PACKETS_VARIANCE 0 (r_packets r))
      (generateValue BASE_BANDWIDTH BANDWIDTH_VARIANCE 0 (r_bandwidth r))
      (generateValue BASE_ACTIVE_CONNECTIONS CONNECTIONS_VARIANCE 0 (r_connections r))
      (generateValue BASE_ERROR_RATE ERROR_RATE_VARIANCE 2 (r_errorRate r)) in
  if Rlt_dec (r_inject r) ANOMALY_PROBABILITY then
    let anomalousMetric := Zfloor (r_metric r * 4) in
    let anomalyFactor := 2 + r_factor r * 3 in
    let scaled :=
      match anomalousMetric with
      | 0%Z => Detector.mkNetworkData (Detector.timestamp normalData)
                 (Detector.packetsPerSecond normalData * anomalyFactor)
                 (Detector.bandwidth normalData)
                 (Detector.activeConnections normalData)
                 (Detector.errorRate normalData)
      | 1%Z => Detector.mkNetworkData (Detector.timestamp normalData)
                 (Detector.packetsPerSecond normalData)
                 (Detector.bandwidth normalData * anomalyFactor)
                 (Detector.activeConnections normalData)
                 (Detector.errorRate normalData)
      | 2%Z => Detector.mkNetworkData (Detector.timestamp normalData)
                 (Detector.packetsPerSecond normalData)
                 (Detector.bandwidth normalData)
                 (Detector.activeConnections normalData * anomalyFactor)
                 (Detector.errorRate normalData)
      | 3%Z => Detector.mkNetworkData (Detector.timestamp normalData)
                 (Detector.packetsPerSecond normalData)
                 (Detector.bandwidth normalData)
                 (Detector.activeConnections normalData)
                 (Detector.errorRate normalData * anomalyFactor)
      | _ => normalData
      end in
    let capped :=
      if Z.eqb anomalousMetric 3 then
        if Rlt_dec 100 (Detector.errorRate scaled)
        then Detector.mkNetworkData (Detector.timestamp scaled)
               (Detector.packetsPerSecond scaled) (Detector.bandwidth scaled)
               (Detector.activeConnections scaled) 100
        else scaled
      else scaled in
    (capped, true)
  else (normalData, false).

End Simulate.


(** ** Facts about the route *)

Module DetectorFacts.
Import Detector.

Lemma reduce_sumf (f : R -> R) (l : list R) (acc : R) :
  fold_left (fun sum val => sum + f val) l acc = acc + sumf f l.
Proof.
  revert acc; induction l as [|v l IH]; intros acc; simpl.
  - lra.
  - rewrite IH. lra.
Qed.

Lemma mean_sumf (l : list R) :
  mean l = sumf (fun v => v) l / INR (length l).
Proof.
  unfold mean. now rewrite (reduce_sumf (fun v => v)), Rplus_0_l.
Qed.

Lemma stdDev_variance (l : list R) : stdDev l = sqrt (variance l).
Proof.
  unfold stdDev, variance.
  now rewrite (reduce_sumf (fun v => (v - mean l) ^ 2)), Rplus_0_l.
Qed.

Lemma sumf_app (f : R -> R) (l1 l2 : list R) :
  sumf f (l1 ++ l2) = sumf f l1 + sumf f l2.
Proof. induction l1 as [|v l1 IH]; simpl; lra. Qed.

Lemma sumf_nonneg (f : R -> R) (l : list R) :
  (forall v, 0 <= f v) -> 0 <= sumf f l.
Proof.
  intros Hf. induction l as [|v l IH]; simpl; [lra|].
  specialize (Hf v). lra.
Qed.

Lemma sumf_In_le (f : R -> R) (l : list R) (x : R) :
  (forall v, 0 <= f v) -> In x l -> f x <= sumf f l.
Proof.
  intros Hf. induction l as [|v l IH]; simpl; [tauto|].
  intros [-> | Hin].
  - pose proof (sumf_nonneg f l Hf). lra.
  - specialize (IH Hin). specialize (Hf v). lra.
Qed.

Lemma sumf_bounds (f : R -> R) (lo hi : R) (l : list R) :
  Forall (fun v => lo <= f v <= hi) l ->
  INR (length l) * lo <= sumf f l <= INR (length l) * hi.
Proof.
  induction 1 as [|v l Hv _ IH].
  - simpl. lra.
  - change (length (v :: l)) with (S (length l)). rewrite S_INR. simpl. lra.
Qed.

Lemma sumf_ext_in (f g : R -> R) (l : list R) :
  (forall v, In v l -> f v = g v) -> sumf f l = sumf g l.
Proof.
  induction l as [|v l IH]; simpl; intros H; [reflexivity|].
  rewrite (H v), IH by auto. reflexivity.
Qed.

Lemma INR_length_pos {A : Type} (l : list A) : l <> [] -> 0 < INR (length l).
Proof.
  destruct l as [|a l]; [congruence|]. intros _.
  change (length (a :: l)) with (S (length l)). rewrite S_INR.
  pose proof (pos_INR (length l)). lra.
Qed.

Lemma variance_nonneg (l : list R) : 0 <= variance l.
Proof.
  unfold variance. destruct l as [|a l].
  - simpl. unfold Rdiv. rewrite Rinv_0. lra.
  - apply Rmult_le_pos.
    + apply sumf_nonneg. intros v. apply pow2_ge_0.
    + left. apply Rinv_0_lt_compat. apply INR_length_pos. discriminate.
Qed.

(** A window of equal values has mean that value and deviation zero. *)
Lemma mean_constant (c : R) (l : list R) :
  l <> [] -> Forall (fun v => v = c) l -> mean l = c.
Proof.
  intros Hne Hall. rewrite mean_sumf.
  assert (Hs : sumf (fun v => v) l = INR (length l) * c).
  { pose proof (sumf_bounds (fun v => v) c c l) as Hb.
    assert (Forall (fun v => c <= v <= c) l)
      by (eapply Forall_impl; [|exact Hall]; simpl; intros; lra).
    specialize (Hb H). lra. }
  rewrite Hs. pose proof (INR_length_pos l Hne). field. lra.
Qed.

Lemma stdDev_constant (c : R) (l : list R) :
  l <> [] -> Forall (fun v => v = c) l -> stdDev l = 0.
Proof.
  intros Hne Hall. rewrite stdDev_variance. unfold variance.
  rewrite (mean_constant c l Hne Hall).
  rewrite (sumf_ext_in _ (fun _ => 0)).
  - assert (Hz : sumf (fun _ => 0) l = 0).
    { clear. induction l; simpl; lra. }
    rewrite Hz. unfold Rdiv. rewrite Rmult_0_l. apply sqrt_0.
  - intros v Hv. rewrite Forall_forall in Hall. rewrite (Hall v Hv). ring.
Qed.

(** *** Which events the loop pushes *)

Lemma detectMetric_In h d acc m a :
  In a (detectMetric h d acc m) <->
  In a acc \/ (fires h d m /\ a = eventFor h d m).
Proof.
  unfold detectMetric, fires, eventFor.
  destruct (Rlt_dec (stdDev (window h m)) (1 / 10)) as [Hs|Hs].
  - split; [auto|]. intros [H|[[H _] _]]; [exact H|lra].
  - destruct (Rlt_dec ZSCORE_THRESHOLD _) as [Hz|Hz].
    + rewrite in_app_iff. simpl. split.
      * intros [H|[H|[]]]; [auto|]. right. split; [split; [lra|exact Hz]|auto].
      * intros [H|[_ H]]; auto.
    + split; [auto|]. intros [H|[[_ H] _]]; [exact H|contradiction].
Qed.

Lemma loop_In h d ms : forall acc a,
  In a (fold_left (detectMetric h d) ms acc) <->
  In a acc \/ exists m, In m ms /\ fires h d m /\ a = eventFor h d m.
Proof.
  induction ms as [|m ms IH]; intros acc a; simpl.
  - split; [auto|]. intros [H|[m [[] _]]]; exact H.
  - rewrite IH, detectMetric_In. split.
    + intros [[H|[Hf He]]|[m' [Hin H]]]; eauto 6.
    + intros [H|[m' [[<-|Hin] [Hf He]]]]; eauto 6.
Qed.

Lemma metrics_complete m : In m metrics.
Proof. destruct m; simpl; auto. Qed.

Lemma detectAnomalies_In h d a :
  In a (detectAnomalies h d) <->
  (10 <= length h)%nat /\ exists m, fires h d m /\ a = eventFor h d m.
Proof.
  unfold detectAnomalies. destruct (Nat.ltb_spec (length h) 10) as [Hl|Hl].
  - simpl. split; [tauto|]. intros [H _]. lia.
  - rewrite loop_In. simpl. split.
    + intros [[]|[m [_ H]]]. split; [exact Hl|eauto].
    + intros [_ [m H]]. right. exists m. split; [apply metrics_complete|exact H].
Qed.

Lemma severityOf_thresholds z :
  severityOf z =
  if Rlt_dec 6 z then critical else if Rlt_dec (9 / 2) z then warning else info.
Proof.
  unfold severityOf, ZSCORE_THRESHOLD.
  destruct (Rlt_dec (3 * 2) z), (Rlt_dec 6 z); try lra;
  destruct (Rlt_dec (3 * (3 / 2)) z), (Rlt_dec (9 / 2) z); try lra; reflexivity.
Qed.

(** *** The handler on a valid sample *)

Lemma parse_to_json d : NetworkDataSchema_parse (to_json d) = Some d.
Proof. destruct d; reflexivity. Qed.

Lemma keep_last_short {A : Type} (limit : nat) (l : list A) :
  (length l <= limit)%nat -> keep_last limit l = l.
Proof.
  intros H. unfold keep_last.
  destruct (Nat.ltb_spec limit (length l)); [lia|reflexivity].
Qed.

Lemma POST_valid st d :
  POST st (Some (to_json d)) =
  (mkState (historyAtDetection st d)
           (if (0 <? length (detectAnomalies (historyAtDetection st d) d))%nat
            then keep_last 100 (detectedAnomalies st
                                ++ detectAnomalies (historyAtDetection st d) d)
            else detectedAnomalies st),
   Success (length (detectAnomalies (historyAtDetection st d) d))).
Proof. unfold POST, option_map. rewrite parse_to_json. reflexivity. Qed.

Lemma feed_short : forall samples st,
  (length (networkDataHistory st) + length samples < 10)%nat ->
  Forall (fun r => r = Success 0) (snd (feed st samples)) /\
  detectedAnomalies (fst (feed st samples)) = detectedAnomalies st.
Proof.
  induction samples as [|d rest IH]; intros st Hlen.
  - split; [constructor|reflexivity].
  - cbn [feed]. rewrite POST_valid. simpl in Hlen.
    assert (Hh : historyAtDetection st d = networkDataHistory st ++ [d]).
    { unfold historyAtDetection. apply keep_last_short.
      rewrite length_app. simpl in *. lia. }
    assert (Hd : detectAnomalies (historyAtDetection st d) d = []).
    { unfold detectAnomalies. rewrite Hh.
      destruct (Nat.ltb_spec (length (networkDataHistory st ++ [d])) 10) as [_|Hge];
        [reflexivity|].
      rewrite length_app in Hge. simpl in *. lia. }
    rewrite Hd, Hh. simpl length at 1 2. simpl Nat.ltb.
    specialize (IH (mkState (networkDataHistory st ++ [d]) (detectedAnomalies st))).
    destruct (feed _ rest) as [st2 rs]. simpl in *.
    rewrite length_app in IH. simpl in IH.
    destruct IH as [IH1 IH2]; [lia|]. split; [constructor; auto|exact IH2].
Qed.

(** *** Comparing a z-score with a bound *)

Lemma zScore_times mu s v : 0 < s -> zScore mu s v * s = Rabs (v - mu).
Proof.
  intros Hs. unfold zScore, Rdiv.
  rewrite Rabs_mult, Rabs_inv, (Rabs_pos_eq s) by lra. field. lra.
Qed.

Lemma zScore_gt_iff mu var v t :
  0 < var -> 0 <= t ->
  (t < zScore mu (sqrt var) v <-> t ^ 2 * var < (v - mu) ^ 2).
Proof.
  intros Hvar Ht.
  pose proof (sqrt_lt_R0 var Hvar) as Hs.
  pose proof (sqrt_sqrt var (Rlt_le _ _ Hvar)) as Hss.
  pose proof (zScore_times mu (sqrt var) v Hs) as Hq.
  pose proof (Rabs_pos (v - mu)) as HA.
  pose proof (pow2_abs (v - mu)) as HA2.
  rewrite <- HA2. clear HA2.
  revert Hs Hss Hq. generalize (zScore mu (sqrt var) v) as q.
  generalize (sqrt var) as s. intros s q Hs Hss Hq.
  revert HA Hq. generalize (Rabs (v - mu)) as A. intros A HA Hq.
  rewrite <- Hss. split; intros H.
  - assert (t * s < A) by nra. assert (0 <= t * s) by nra.
    assert ((t * s) * (t * s) < A * A) by (apply Rmult_le_0_lt_compat; lra).
    nra.
  - destruct (Rlt_dec t q) as [Hl|Hl]; [exact Hl|].
    assert (A <= t * s) by nra.
    assert (A * A <= (t * s) * (t * s)) by (apply Rmult_le_compat; lra).
    nra.
Qed.

Lemma sqrt_lt_tenth var : 0 <= var -> (sqrt var < 1 / 10 <-> var < 1 / 100).
Proof.
  intros Hvar. pose proof (sqrt_pos var) as Hs.
  pose proof (sqrt_sqrt var Hvar) as Hss. split; intros H; nra.
Qed.

Lemma variance_pos_of_stdDev l : 1 / 10 <= stdDev l -> 1 / 100 <= variance l.
Proof.
  rewrite stdDev_variance. intros H.
  destruct (Rlt_dec (variance l) (1 / 100)) as [Hlt|Hge]; [|lra].
  apply (sqrt_lt_tenth _ (variance_nonneg l)) in Hlt. lra.
Qed.

(** *** Monotonicity of the score and of the severity *)

Lemma zScore_monotone mu sigma v1 v2 :
  0 < sigma -> Rabs (v1 - mu) <= Rabs (v2 - mu) ->
  zScore mu sigma v1 <= zScore mu sigma v2.
Proof.
  intros Hs Hle.
  pose proof (zScore_times mu sigma v1 Hs). pose proof (zScore_times mu sigma v2 Hs).
  nra.
Qed.

Lemma severityOf_monotone z1 z2 :
  z1 <= z2 ->
  (severityOf z1 = critical -> severityOf z2 = critical) /\
  (severityOf z1 = warning -> severityOf z2 = warning \/ severityOf z2 = critical).
Proof.
  intros Hle. rewrite !severityOf_thresholds.
  destruct (Rlt_dec 6 z1), (Rlt_dec 6 z2), (Rlt_dec (9 / 2) z1), (Rlt_dec (9 / 2) z2);
    try lra; split; intros; auto; try discriminate.
Qed.

(** *** The new sample is part of its own window *)

Lemma slice_last_snoc {A : Type} (n : nat) (l : list A) (x : A) :
  (1 <= n)%nat ->
  JS.slice_last n (l ++ [x]) = skipn (length l + 1 - n) l ++ [x].
Proof.
  intros Hn. unfold JS.slice_last. rewrite length_app. simpl length.
  rewrite skipn_app.
  replace (length l + 1 - n - length l)%nat with 0%nat by lia. reflexivity.
Qed.

Lemma length_slice_last {A : Type} (n : nat) (l : list A) :
  (length (JS.slice_last n l) <= n)%nat.
Proof. unfold JS.slice_last. rewrite length_skipn. lia. Qed.

Lemma historyAtDetection_snoc st d :
  exists earlier, historyAtDetection st d = earlier ++ [d].
Proof.
  unfold historyAtDetection, keep_last.
  destruct (Nat.ltb 1000 _).
  - rewrite slice_last_snoc by lia. eauto.
  - eauto.
Qed.

Lemma current_in_window st d m :
  In (get m d) (window (historyAtDetection st d) m).
Proof.
  destruct (historyAtDetection_snoc st d) as [earlier ->].
  unfold window. rewrite slice_last_snoc by lia.
  rewrite map_app, in_app_iff. right. simpl. auto.
Qed.

Lemma window_length h m : (length (window h m) <= 30)%nat.
Proof. unfold window. rewrite length_map. apply length_slice_last. Qed.

Lemma variance_times_length l :
  l <> [] -> variance l * INR (length l) = sumf (fun v => (v - mean l) ^ 2) l.
Proof.
  intros Hne. pose proof (INR_length_pos l Hne). unfold variance. field. lra.
Qed.

(** A value of the window it is scored against cannot score above the
    square root of the window length, hence never above 6. *)
Lemma zScore_in_window_le l x :
  In x l -> (length l <= 30)%nat -> 1 / 10 <= stdDev l ->
  zScore (mean l) (stdDev l) x <= 6.
Proof.
  intros Hin Hlen Hsd.
  pose proof (variance_pos_of_stdDev l Hsd) as Hvar.
  destruct (Rlt_dec 6 (zScore (mean l) (stdDev l) x)) as [Hz|Hz]; [exfalso|lra].
  rewrite stdDev_variance in Hz. apply zScore_gt_iff in Hz; [|lra|lra].
  assert (Hne : l <> []) by (intros ->; contradiction).
  pose proof (sumf_In_le (fun v => (v - mean l) ^ 2) l x
                (fun v => pow2_ge_0 (v - mean l)) Hin) as Hle.
  cbv beta in Hle. rewrite <- (variance_times_length l Hne) in Hle.
  apply le_INR in Hlen. change (INR 30) with 30 in Hlen || simpl in Hlen.
  nra.
Qed.

Lemma never_critical st d a :
  In a (detectAnomalies (historyAtDetection st d) d) -> a_severity a <> critical.
Proof.
  rewrite detectAnomalies_In. intros [_ [m [[Hsd Hz] ->]]].
  unfold eventFor, event. simpl. rewrite severityOf_thresholds.
  pose proof (zScore_in_window_le _ _ (current_in_window st d m)
                (window_length _ m) Hsd) as Hle.
  destruct (Rlt_dec 6 _); [lra|]. destruct (Rlt_dec (9 / 2) _); discriminate.
Qed.

(** *** Evaluating the loop *)

Lemma detectMetric_skip h d acc m :
  stdDev (window h m) < 1 / 10 -> detectMetric h d acc m = acc.
Proof.
  intros H. unfold detectMetric.
  destruct (Rlt_dec (stdDev (window h m)) (1 / 10)); [reflexivity|contradiction].
Qed.

Lemma detectMetric_push h d acc m :
  fires h d m -> detectMetric h d acc m = acc ++ [eventFor h d m].
Proof.
  intros [Hsd Hz]. unfold detectMetric, eventFor.
  destruct (Rlt_dec (stdDev (window h m)) (1 / 10)); [lra|].
  destruct (Rlt_dec ZSCORE_THRESHOLD _); [reflexivity|contradiction].
Qed.

Lemma detectAnomalies_loop h d :
  (10 <= length h)%nat ->
  detectAnomalies h d = fold_left (detectMetric h d) metrics [].
Proof.
  intros H. unfold detectAnomalies.
  destruct (Nat.ltb_spec (length h) 10); [lia|reflexivity].
Qed.

Lemma Math_round_integer (z : Z) (x : R) :
  IZR z - 1 / 2 <= x < IZR z + 1 / 2 -> JS.Math_round x = IZR z.
Proof.
  intros H. unfold JS.Math_round. f_equal. apply Zfloor_eq. lra.
Qed.

(** *** The sample run *)

Lemma burst_history :
  historyAtDetection quiet_state burst = quiet_history ++ [burst].
Proof.
  unfold historyAtDetection. apply keep_last_short. simpl. lia.
Qed.

Lemma burst_window :
  window (quiet_history ++ [burst]) m_packetsPerSecond =
  [90; 90; 90; 90; 90; 110; 110; 110; 110; 110; 1200].
Proof. reflexivity. Qed.

Lemma burst_mean :
  mean (window (quiet_history ++ [burst]) m_packetsPerSecond) = 200.
Proof. rewrite burst_window, mean_sumf. simpl. lra. Qed.

Lemma burst_variance :
  variance (window (quiet_history ++ [burst]) m_packetsPerSecond) = 1101000 / 11.
Proof.
  unfold variance. rewrite burst_mean, burst_window. simpl. lra.
Qed.

Lemma burst_zScore_range :
  let z := zScore (mean (window (quiet_history ++ [burst]) m_packetsPerSecond))
                  (stdDev (window (quiet_history ++ [burst]) m_packetsPerSecond))
                  (get m_packetsPerSecond burst) in
  3 < z <= 9 / 2.
Proof.
  cbv zeta. rewrite stdDev_variance, burst_mean, burst_variance. simpl get.
  split.
  - apply zScore_gt_iff; lra.
  - destruct (Rlt_dec (9 / 2) (zScore 200 (sqrt (1101000 / 11)) 1200)) as [H|H]; [|lra].
    apply zScore_gt_iff in H; lra.
Qed.

Lemma burst_fires : fires (quiet_history ++ [burst]) burst m_packetsPerSecond.
Proof.
  split.
  - rewrite stdDev_variance, burst_variance.
    destruct (Rlt_dec (sqrt (1101000 / 11)) (1 / 10)) as [H|H]; [|lra].
    apply sqrt_lt_tenth in H; lra.
  - unfold ZSCORE_THRESHOLD. apply burst_zScore_range.
Qed.

Lemma burst_eventFor :
  eventFor (quiet_history ++ [burst]) burst m_packetsPerSecond = burst_event.
Proof.
  unfold eventFor, event, burst_event.
  pose proof burst_zScore_range as Hz. cbv zeta in Hz.
  rewrite severityOf_thresholds.
  destruct (Rlt_dec 6 _); [lra|]. destruct (Rlt_dec (9 / 2) _); [lra|].
  rewrite burst_mean. simpl get. simpl timestamp. simpl describe. simpl typeOf.
  assert (Hr : JS.Math_round 200 = 200) by (apply (Math_round_integer 200); lra).
  rewrite Hr.
  assert (Hd : JS.abs (JS.round (JS.mul (JS.div (1200 - 200) 200) 100)) = JS.Fin 500).
  { unfold JS.div. destruct (Req_dec_T 200 0); [lra|]. simpl.
    replace ((1200 - 200) / 200 * 100) with 500 by lra.
    rewrite (Math_round_integer 500) by lra. rewrite Rabs_pos_eq by lra. reflexivity. }
  rewrite Hd. reflexivity.
Qed.

Lemma quiet_metric_constant m :
  m <> m_packetsPerSecond ->
  stdDev (window (quiet_history ++ [burst]) m) < 1 / 10.
Proof.
  intros Hm.
  assert (H : exists c, Forall (fun v => v = c) (window (quiet_history ++ [burst]) m)).
  { destruct m; [congruence| exists 50 | exists 100 | exists 1];
      repeat constructor. }
  destruct H as [c H]. rewrite (stdDev_constant c); [lra| |exact H].
  destruct m; discriminate.
Qed.

Lemma burst_detection :
  detectAnomalies (historyAtDetection quiet_state burst) burst = [burst_event].
Proof.
  rewrite burst_history, detectAnomalies_loop by (simpl; lia).
  unfold metrics. cbn [fold_left].
  rewrite (detectMetric_push _ _ _ m_packetsPerSecond burst_fires).
  rewrite !detectMetric_skip by (apply quiet_metric_constant; discriminate).
  rewrite burst_eventFor. reflexivity.
Qed.

(** *** One outlier after a steady stream *)

Lemma feed_history : forall samples st,
  (length (networkDataHistory st) + length samples <= 1000)%nat ->
  networkDataHistory (fst (feed st samples)) = networkDataHistory st ++ samples.
Proof.
  induction samples as [|d rest IH]; intros st Hlen.
  - simpl. now rewrite app_nil_r.
  - cbn [feed]. rewrite POST_valid. simpl in Hlen.
    match goal with |- context [feed ?s rest] =>
      specialize (IH s); destruct (feed s rest) as [st2 rs] end.
    simpl in *. unfold historyAtDetection in IH.
    rewrite keep_last_short in IH by (rewrite length_app; simpl; lia).
    rewrite IH by (rewrite length_app; simpl; lia).
    now rewrite <- app_assoc.
Qed.

Lemma spike_stats (vs : list R) :
  length vs = 29%nat -> Forall (fun v => 495 <= v <= 505) vs ->
  1 / 10 <= stdDev (vs ++ [2000]) /\
  9 / 2 < zScore (mean (vs ++ [2000])) (stdDev (vs ++ [2000])) 2000.
Proof.
  intros Hlen Hall.
  assert (Hn : INR (length (vs ++ [2000])) = 30).
  { rewrite length_app, Hlen. simpl. lra. }
  assert (H29 : INR (length vs) = 29) by (rewrite Hlen; simpl; lra).
  pose proof (sumf_bounds (fun v => v) 495 505 vs Hall) as Hsum.
  rewrite H29 in Hsum.
  assert (Hmu : mean (vs ++ [2000]) = (sumf (fun v => v) vs + 2000) / 30).
  { rewrite mean_sumf, Hn, sumf_app. simpl. f_equal. lra. }
  set (mu := mean (vs ++ [2000])) in *.
  assert (Hmu1 : 545 <= mu <= 555) by lra.
  assert (Hsq : Forall (fun v => 0 <= (v - mu) ^ 2 <= 3600) vs).
  { eapply Forall_impl; [|exact Hall]. cbv beta. intros v Hv. split; nra. }
  pose proof (sumf_bounds (fun v => (v - mu) ^ 2) 0 3600 vs Hsq) as Hq.
  rewrite H29 in Hq.
  assert (Hvar : variance (vs ++ [2000])
                 = (sumf (fun v => (v - mu) ^ 2) vs + (2000 - mu) ^ 2) / 30).
  { unfold variance. fold mu. rewrite Hn, sumf_app. simpl. f_equal. lra. }
  assert (HD : 1445 ^ 2 <= (2000 - mu) ^ 2) by nra.
  rewrite stdDev_variance, Hvar.
  set (Q := sumf (fun v => (v - mu) ^ 2) vs) in *.
  set (D := (2000 - mu) ^ 2) in *.
  assert (Hpos : 1 / 100 <= (Q + D) / 30) by lra.
  split.
  - destruct (Rlt_dec (sqrt ((Q + D) / 30)) (1 / 10)) as [H|H]; [|lra].
    apply sqrt_lt_tenth in H; lra.
  - apply zScore_gt_iff; [lra|lra|]. fold D. lra.
Qed.

Lemma spike_window samples final m :
  length samples = 30%nat ->
  window (samples ++ [final]) m
  = map (get m) (skipn 1 samples) ++ [get m final].
Proof.
  intros Hlen. unfold window. rewrite slice_last_snoc by lia.
  rewrite Hlen. change (30 + 1 - 30)%nat with 1%nat.
  now rewrite map_app.
Qed.

Lemma Forall_skipn {A : Type} (P : A -> Prop) (n : nat) (l : list A) :
  Forall P l -> Forall P (skipn n l).
Proof.
  intros H. rewrite Forall_forall in *. intros x Hx.
  apply H. rewrite <- (firstn_skipn n l). apply in_or_app. now right.
Qed.

(** Whatever thirty samples the scenario starts with, the sample at 2000 is
    reported once, as a traffic spike of severity [warning]. *)
Lemma spike_scenario (samples : list NetworkData) (t b c e : R) :
  length samples = 30%nat ->
  Forall (steady_like b c e) samples ->
  let final := mkNetworkData t 2000 b c e in
  let st := fst (feed initial samples) in
  exists a,
    detectAnomalies (historyAtDetection st final) final = [a] /\
    a_type a = "traffic_spike"%string /\ a_severity a = warning.
Proof.
  intros Hlen Hall final st.
  assert (Hh : historyAtDetection st final = samples ++ [final]).
  { unfold historyAtDetection, st.
    rewrite feed_history by (simpl; lia). simpl app at 2.
    apply keep_last_short. rewrite length_app, Hlen. simpl. lia. }
  rewrite Hh, detectAnomalies_loop by (rewrite length_app; lia).
  assert (Hskip : forall m c',
            get m final = c' ->
            Forall (fun s => get m s = c') samples ->
            stdDev (window (samples ++ [final]) m) < 1 / 10).
  { intros m c' Hf Hs. rewrite (stdDev_constant c'); [lra| |].
    - rewrite spike_window by exact Hlen. now destruct (map _ _).
    - rewrite spike_window by exact Hlen. apply Forall_app. split.
      + apply Forall_map, Forall_skipn, Hs.
      + constructor; [exact Hf|constructor]. }
  assert (Hpps : Forall (fun v => 495 <= v <= 505)
                   (map packetsPerSecond (skipn 1 samples))).
  { apply Forall_map, Forall_skipn. eapply Forall_impl; [|exact Hall].
    intros s Hs. apply Hs. }
  assert (Hl29 : length (map packetsPerSecond (skipn 1 samples)) = 29%nat).
  { rewrite length_map, length_skipn, Hlen. reflexivity. }
  destruct (spike_stats _ Hl29 Hpps) as [Hsd Hz].
  assert (Hw : window (samples ++ [final]) m_packetsPerSecond
               = map packetsPerSecond (skipn 1 samples) ++ [2000]).
  { now rewrite spike_window. }
  assert (Hfire : fires (samples ++ [final]) final m_packetsPerSecond).
  { unfold fires, ZSCORE_THRESHOLD. rewrite Hw. simpl get. split; lra. }
  unfold metrics. cbn [fold_left].
  rewrite (detectMetric_push _ _ _ _ Hfire).
  rewrite (detectMetric_skip _ _ _ m_bandwidth),
          (detectMetric_skip _ _ _ m_activeConnections),
          (detectMetric_skip _ _ _ m_errorRate).
  - eexists. split; [reflexivity|]. split; [reflexivity|].
    unfold eventFor, event. simpl a_severity. rewrite severityOf_thresholds.
    assert (Hle : zScore (mean (window (samples ++ [final]) m_packetsPerSecond))
                         (stdDev (window (samples ++ [final]) m_packetsPerSecond))
                         (get m_packetsPerSecond final) <= 6).
    { apply zScore_in_window_le.
      - rewrite Hw. apply in_or_app. right. simpl. auto.
      - apply window_length.
      - rewrite Hw. exact Hsd. }
    simpl get in Hle. destruct (Rlt_dec 6 _); [lra|].
    destruct (Rlt_dec (9 / 2) _) as [_|Hn]; [reflexivity|].
    exfalso. apply Hn. rewrite Hw. exact Hz.
  - apply (Hskip _ e); [reflexivity|].
    eapply Forall_impl; [|exact Hall]. intros s Hs. apply Hs.
  - apply (Hskip _ c); [reflexivity|].
    eapply Forall_impl; [|exact Hall]. intros s Hs. apply Hs.
  - apply (Hskip _ b); [reflexivity|].
    eapply Forall_impl; [|exact Hall]. intros s Hs. apply Hs.
Qed.

(** *** The stored samples of the sample run are reached by requests *)

Lemma detectMetric_below h d acc m :
  ~ ZSCORE_THRESHOLD < zScore (mean (window h m)) (stdDev (window h m)) (get m d) ->
  detectMetric h d acc m = acc.
Proof.
  intros H. unfold detectMetric.
  destruct (Rlt_dec (stdDev (window h m)) (1 / 10)); [reflexivity|].
  destruct (Rlt_dec ZSCORE_THRESHOLD _); [contradiction|reflexivity].
Qed.

Lemma feed_app : forall samples1 samples2 st,
  feed st (samples1 ++ samples2)
  = (fst (feed (fst (feed st samples1)) samples2),
     snd (feed st samples1) ++ snd (feed (fst (feed st samples1)) samples2)).
Proof.
  induction samples1 as [|d rest IH]; intros samples2 st.
  - simpl. now destruct (feed st samples2).
  - cbn [feed app]. destruct (POST st (Some (to_json d))) as [st1 r].
    rewrite IH. destruct (feed st1 rest) as [st2 rs]. reflexivity.
Qed.

Lemma quiet_tenth_sample :
  detectAnomalies quiet_history (sample 10 110) = [].
Proof.
  rewrite detectAnomalies_loop by (simpl; lia).
  unfold metrics. cbn [fold_left].
  assert (Hw : window quiet_history m_packetsPerSecond
               = [90; 90; 90; 90; 90; 110; 110; 110; 110; 110]) by reflexivity.
  assert (Hm : mean (window quiet_history m_packetsPerSecond) = 100)
    by (rewrite Hw, mean_sumf; simpl; lra).
  assert (Hv : variance (window quiet_history m_packetsPerSecond) = 100)
    by (unfold variance; rewrite Hm, Hw; simpl; lra).
  rewrite (detectMetric_below _ _ _ m_packetsPerSecond).
  - rewrite !detectMetric_skip; [reflexivity| | |].
    all: match goal with |- stdDev (window _ ?m) < _ =>
           let c := constr:(get m (sample 10 110)) in
           rewrite (stdDev_constant c);
             [lra|discriminate|repeat constructor] end.
  - rewrite stdDev_variance, Hm, Hv. simpl get. unfold ZSCORE_THRESHOLD.
    intros H. apply zScore_gt_iff in H; lra.
Qed.

Lemma quiet_state_reached : fst (feed initial quiet_history) = quiet_state.
Proof.
  change quiet_history with
    ([sample 1 90; sample 2 90; sample 3 90; sample 4 90; sample 5 90;
      sample 6 110; sample 7 110; sample 8 110; sample 9 110] ++ [sample 10 110]).
  rewrite feed_app. cbn [fst].
  match goal with |- context [feed initial ?l] =>
    pose proof (feed_history l initial) as Hh;
    pose proof (feed_short l initial) as Hs;
    destruct (feed initial l) as [st9 rs] end.
  simpl in Hh, Hs. specialize (Hh ltac:(lia)). destruct Hs as [_ Hd]; [lia|].
  destruct st9 as [h9 d9]. simpl in Hh, Hd. subst h9 d9.
  cbn [feed]. rewrite POST_valid. cbn [fst].
  unfold historyAtDetection. cbn [networkDataHistory detectedAnomalies].
  rewrite keep_last_short by (simpl; lia). cbn [app].
  fold quiet_history. rewrite quiet_tenth_sample. reflexivity.
Qed.

(** *** The claims about the route *)

Lemma typeOf_injective m1 m2 : typeOf m1 = typeOf m2 -> m1 = m2.
Proof. destruct m1, m2; simpl; intros H; try reflexivity; discriminate. Qed.

Lemma POST_burst :
  POST quiet_state (Some (to_json burst))
  = (mkState (quiet_history ++ [burst]) [burst_event], Success 1).
Proof.
  rewrite POST_valid, burst_detection, burst_history. reflexivity.
Qed.

(** C1.  The statistics of a request are taken over the last thirty entries
    of the stored array (all of them when there are fewer), with the mean and
    the population deviation of [mean] and [stdDev]; but the new sample is
    pushed before [detectAnomalies] runs, so the window always contains it.
    On ten stored samples around 100 and a new sample at 1200 the handler reports
    the event [burst_event], whose threshold 200 is the rounded mean of the
    eleven values, whereas the ten samples that precede the new one have
    mean 100. *)
Theorem C1_window_contains_new_sample :
  fst (feed initial quiet_history) = quiet_state /\
  POST quiet_state (Some (to_json burst))
  = (mkState (quiet_history ++ [burst]) [burst_event], Success 1) /\
  mean (window (historyAtDetection quiet_state burst) m_packetsPerSecond) = 200 /\
  mean (precedingWindow quiet_state m_packetsPerSecond) = 100 /\
  (forall st d m, In (get m d) (window (historyAtDetection st d) m)).
Proof.
  split; [exact quiet_state_reached|]. split; [exact POST_burst|]. split; [|split].
  - rewrite burst_history. exact burst_mean.
  - unfold precedingWindow. rewrite mean_sumf. simpl. lra.
  - exact current_in_window.
Qed.

(** C2.  An event is pushed for a metric only when the array read by
    [detectAnomalies] holds at least ten samples and the deviation of that
    metric's window is at least 0.1; feeding fewer than ten samples from the
    empty state answers every request with success and zero anomalies and
    stores none; and a valid sample is always answered with success and the
    number of events found, never with an error. *)
Theorem C2_cold_start_and_deviation_guards :
  (forall h d a,
      In a (detectAnomalies h d) ->
      (10 <= length h)%nat /\
      forall m, a_type a = typeOf m -> 1 / 10 <= stdDev (window h m)) /\
  (forall samples,
      (length samples < 10)%nat ->
      Forall (fun r => r = Success 0) (snd (feed initial samples)) /\
      detectedAnomalies (fst (feed initial samples)) = []) /\
  (forall st d,
      snd (POST st (Some (to_json d)))
      = Success (length (detectAnomalies (historyAtDetection st d) d))).
Proof.
  split; [|split].
  - intros h d a Ha. apply detectAnomalies_In in Ha.
    destruct Ha as [Hlen [m' [[Hsd _] ->]]]. split; [exact Hlen|].
    intros m Hm. simpl in Hm. apply typeOf_injective in Hm. now subst m'.
  - intros samples Hlen. apply (feed_short samples initial). simpl. lia.
  - intros st d. now rewrite POST_valid.
Qed.

Lemma C2_cold_start_and_deviation_guards_witness :
  In burst_event (detectAnomalies (quiet_history ++ [burst]) burst) /\
  ((10 <= length (quiet_history ++ [burst]))%nat /\
   forall m, a_type burst_event = typeOf m ->
             1 / 10 <= stdDev (window (quiet_history ++ [burst]) m)).
Proof.
  assert (H : In burst_event (detectAnomalies (quiet_history ++ [burst]) burst)).
  { rewrite <- burst_history, burst_detection. left. reflexivity. }
  split; [exact H|].
  exact (proj1 C2_cold_start_and_deviation_guards _ _ _ H).
Defined.

(** C3.  Every event pushed by [detectAnomalies] belongs to a metric whose
    window has mean mu and deviation sigma >= 0.1 and whose new value v has
    z = |(v - mu) / sigma| > 3; its severity is critical when z > 6, warning
    when z > 4.5 and info otherwise; its metrics are threshold = round(mu),
    actualValue = v and deviation = |round(((v - mu) / mu) * 100)|; its
    timestamp is the sample's and its source is the detection engine. *)
Theorem C3_event_fields h d a :
  In a (detectAnomalies h d) ->
  exists m,
    let mu := mean (window h m) in
    let sigma := stdDev (window h m) in
    let v := get m d in
    let z := Rabs ((v - mu) / sigma) in
    1 / 10 <= sigma /\ 3 < z /\
    a_type a = typeOf m /\
    a_severity a = (if Rlt_dec 6 z then critical
                    else if Rlt_dec (9 / 2) z then warning else info) /\
    a_metrics a = Some {| threshold := JS.Math_round mu;
                          actualValue := v;
                          deviation :=
                            JS.abs (JS.round (JS.mul (JS.div (v - mu) mu) 100)) |} /\
    a_timestamp a = timestamp d /\
    a_source a = "Anomaly Detection Engine"%string.
Proof.
  intros Ha. apply detectAnomalies_In in Ha.
  destruct Ha as [_ [m [[Hsd Hz] ->]]]. exists m. cbv zeta.
  unfold eventFor, event. simpl.
  rewrite severityOf_thresholds. unfold zScore, ZSCORE_THRESHOLD in *.
  repeat split; auto.
Qed.

Lemma C3_event_fields_witness :
  In burst_event (detectAnomalies (quiet_history ++ [burst]) burst) /\
  exists m,
    a_type burst_event = typeOf m /\
    a_timestamp burst_event = timestamp burst /\
    a_metrics burst_event
    = Some {| threshold := JS.Math_round (mean (window (quiet_history ++ [burst]) m));
              actualValue := get m burst;
              deviation :=
                JS.abs (JS.round (JS.mul
                  (JS.div (get m burst - mean (window (quiet_history ++ [burst]) m))
                          (mean (window (quiet_history ++ [burst]) m))) 100)) |}.
Proof.
  assert (H : In burst_event (detectAnomalies (quiet_history ++ [burst]) burst)).
  { rewrite <- burst_history, burst_detection. left. reflexivity. }
  split; [exact H|].
  destruct (C3_event_fields _ _ _ H) as [m Hm]. cbv zeta in Hm.
  exists m. tauto.
Defined.

(** C4.  For a fixed window mean and a deviation of at least 0.1, a value
    that lies at least as far from the mean gets a z-score at least as large,
    and the severity is not demoted: critical stays critical, warning stays
    warning or becomes critical, and a score above the threshold stays above
    it. *)
Theorem C4_zscore_monotone mu sigma v1 v2 :
  1 / 10 <= sigma ->
  Rabs (v1 - mu) <= Rabs (v2 - mu) ->
  zScore mu sigma v1 <= zScore mu sigma v2 /\
  (severityOf (zScore mu sigma v1) = critical ->
   severityOf (zScore mu sigma v2) = critical) /\
  (severityOf (zScore mu sigma v1) = warning ->
   severityOf (zScore mu sigma v2) = warning \/
   severityOf (zScore mu sigma v2) = critical) /\
  (ZSCORE_THRESHOLD < zScore mu sigma v1 -> ZSCORE_THRESHOLD < zScore mu sigma v2).
Proof.
  intros Hs Hle.
  assert (Hz : zScore mu sigma v1 <= zScore mu sigma v2)
    by (apply zScore_monotone; lra).
  destruct (severityOf_monotone _ _ Hz) as [Hc Hw].
  repeat split; auto. lra.
Qed.

Lemma C4_zscore_monotone_witness :
  zScore 100 10 150 <= zScore 100 10 170 /\
  (severityOf (zScore 100 10 150) = critical ->
   severityOf (zScore 100 10 170) = critical).
Proof.
  assert (H1 : 1 / 10 <= 10) by lra.
  assert (H2 : Rabs (150 - 100) <= Rabs (170 - 100))
    by (rewrite !Rabs_pos_eq; lra).
  destruct (C4_zscore_monotone 100 10 150 170 H1 H2) as [Ha [Hb _]].
  split; assumption.
Defined.

(** C5.  Thirty samples at 500 packets per second with the other metrics
    constant, then one sample at 2000: the request for the last sample
    reports exactly one event, of type traffic_spike, and its severity is
    warning, not critical (the sample is part of the window it is scored
    against, so its score stays below 6). *)
Theorem C5_spike_reported_as_warning :
  let st := fst (feed initial steady) in
  snd (POST st (Some (to_json spike))) = Success 1 /\
  exists a,
    detectAnomalies (historyAtDetection st spike) spike = [a] /\
    a_type a = "traffic_spike"%string /\
    a_severity a = warning /\ a_severity a <> critical.
Proof.
  cbv zeta.
  assert (Hlen : length steady = 30%nat) by reflexivity.
  assert (Hall : Forall (steady_like 50 100 1) steady).
  { unfold steady. apply Forall_forall. intros s Hs.
    apply repeat_spec in Hs. subst s. unfold steady_like. simpl.
    repeat split; lra. }
  destruct (spike_scenario steady 1 50 100 1 Hlen Hall) as [a [Ha [Ht Hs]]].
  fold spike in Ha. split.
  - rewrite POST_valid. cbn [snd]. rewrite Ha. reflexivity.
  - exists a. repeat split; auto. rewrite Hs. discriminate.
Qed.

(** *** Further facts about the route *)

Lemma POST_parsed st body d :
  NetworkDataSchema_parse body = Some d ->
  POST st (Some body) = POST st (Some (to_json d)).
Proof.
  intros H. unfold POST, option_map. now rewrite H, parse_to_json.
Qed.

Lemma POST_rejected st body :
  match body with
  | Some b => NetworkDataSchema_parse b = None
  | None => True
  end ->
  POST st body = (st, BadRequest "Invalid network data format").
Proof.
  unfold POST, option_map. destruct body as [b|]; [intros ->|]; reflexivity.
Qed.

(** X1.  Validation of a request body.  An object in which the last
    occurrence of each of the five keys is a number is served exactly like
    the plain sample with those five numbers, whatever other keys it has; an
    object in which one of the five keys is missing or not a number, and a
    body that is not JSON, is answered with the error and leaves both stores
    as they were. *)
Theorem X1_body_validation (st : State) (fields : list (string * json)) :
  (forall t p b c e,
      json_get "timestamp" fields = Some (JNumber t) ->
      json_get "packetsPerSecond" fields = Some (JNumber p) ->
      json_get "bandwidth" fields = Some (JNumber b) ->
      json_get "activeConnections" fields = Some (JNumber c) ->
      json_get "errorRate" fields = Some (JNumber e) ->
      POST st (Some (JObject fields))
      = POST st (Some (to_json (mkNetworkData t p b c e)))) /\
  (forall key,
      In key requiredKeys ->
      z_number (json_get key fields) = None ->
      POST st (Some (JObject fields))
      = (st, BadRequest "Invalid network data format")) /\
  POST st None = (st, BadRequest "Invalid network data format").
Proof.
  split; [|split].
  - intros t p b c e Ht Hp Hb Hc He. apply POST_parsed.
    unfold NetworkDataSchema_parse. now rewrite Ht, Hp, Hb, Hc, He.
  - intros key Hkey Hnone. apply POST_rejected.
    unfold NetworkDataSchema_parse.
    simpl in Hkey.
    destruct Hkey as [<-|[<-|[<-|[<-|[<-|[]]]]]]; rewrite Hnone;
      repeat match goal with
             | |- context [match ?x with Some _ => _ | None => _ end] => destruct x
             end; reflexivity.
  - reflexivity.
Qed.

Lemma X1_body_validation_witness :
  POST initial
       (Some (JObject [("errorRate"%string, JString "high");
                       ("note"%string, JBool true);
                       ("timestamp"%string, JNumber 1);
                       ("packetsPerSecond"%string, JNumber 500);
                       ("bandwidth"%string, JNumber 50);
                       ("activeConnections"%string, JNumber 100);
                       ("errorRate"%string, JNumber 1)]))
  = POST initial (Some (to_json (mkNetworkData 1 500 50 100 1))) /\
  POST initial (Some (JObject [("timestamp"%string, JNumber 1);
                               ("packetsPerSecond"%string, JString "500")]))
  = (initial, BadRequest "Invalid network data format").
Proof.
  split.
  - apply (proj1 (X1_body_validation initial _)); reflexivity.
  - apply (proj1 (proj2 (X1_body_validation initial _)) "packetsPerSecond"%string).
    + simpl. auto.
    + reflexivity.
Defined.

Lemma length_keep_last {A : Type} (limit : nat) (l : list A) :
  (length (keep_last limit l) <= limit)%nat.
Proof.
  unfold keep_last. destruct (Nat.ltb_spec limit (length l)) as [H|H].
  - apply length_slice_last.
  - exact H.
Qed.

Lemma Forall_keep_last {A : Type} (P : A -> Prop) (limit : nat) (l : list A) :
  Forall P l -> Forall P (keep_last limit l).
Proof.
  intros H. unfold keep_last. destruct (limit <? length l)%nat; [|exact H].
  now apply Forall_skipn.
Qed.

(** What one request does to the stores, whatever its body. *)
Lemma POST_cases st body :
  fst (POST st body) = st \/
  exists d,
    networkDataHistory (fst (POST st body)) = historyAtDetection st d /\
    (detectedAnomalies (fst (POST st body)) = detectedAnomalies st \/
     detectedAnomalies (fst (POST st body))
     = keep_last 100 (detectedAnomalies st
                      ++ detectAnomalies (historyAtDetection st d) d)).
Proof.
  destruct body as [b|]; [|now left].
  destruct (NetworkDataSchema_parse b) as [d|] eqn:Hp.
  - right. exists d. rewrite (POST_parsed st b d Hp), POST_valid. simpl.
    split; [reflexivity|]. destruct (0 <? _)%nat; auto.
  - left. now rewrite POST_rejected.
Qed.

(** X2.  Both stores of the route are bounded: after any sequence of
    requests the sample store holds at most 1000 samples and the anomaly
    store at most 100 events. *)
Theorem X2_route_stores_bounded (bodies : list (option json)) :
  (length (networkDataHistory (serve initial bodies)) <= 1000)%nat /\
  (length (detectedAnomalies (serve initial bodies)) <= 100)%nat.
Proof.
  assert (H : forall st,
             (length (networkDataHistory st) <= 1000)%nat /\
             (length (detectedAnomalies st) <= 100)%nat ->
             (length (networkDataHistory (serve st bodies)) <= 1000)%nat /\
             (length (detectedAnomalies (serve st bodies)) <= 100)%nat).
  { induction bodies as [|body rest IH]; intros st Hst; [exact Hst|].
    cbn [serve]. apply IH.
    destruct (POST_cases st body) as [->|[d [Hh Hd]]]; [exact Hst|].
    rewrite Hh. split; [apply length_keep_last|].
    destruct Hd as [->| ->]; [apply Hst|apply length_keep_last]. }
  apply H. unfold initial. cbn [networkDataHistory detectedAnomalies length]. lia.
Qed.

(** X3.  No request ever stores an event of severity critical: the sample
    that is judged is part of the window it is judged against, so its
    z-score cannot exceed 6. *)
Theorem X3_route_never_stores_critical (bodies : list (option json)) :
  Forall (fun a => a_severity a <> critical)
         (detectedAnomalies (serve initial bodies)).
Proof.
  assert (H : forall st,
             Forall (fun a => a_severity a <> critical) (detectedAnomalies st) ->
             Forall (fun a => a_severity a <> critical)
                    (detectedAnomalies (serve st bodies))).
  { induction bodies as [|body rest IH]; intros st Hst; [exact Hst|].
    cbn [serve]. apply IH.
    destruct (POST_cases st body) as [->|[d [_ [->| ->]]]]; try exact Hst.
    apply Forall_keep_last, Forall_app. split; [exact Hst|].
    apply Forall_forall. intros a Ha. now apply (never_critical st d). }
  apply H. constructor.
Qed.

(** *** The sample store is a queue of the last thousand samples *)

Lemma keep_last_slice {A : Type} (limit : nat) (l : list A) :
  keep_last limit l = JS.slice_last limit l.
Proof.
  unfold keep_last, JS.slice_last.
  destruct (Nat.ltb_spec limit (length l)) as [H|H]; [reflexivity|].
  replace (length l - limit)%nat with 0%nat by lia. reflexivity.
Qed.

Lemma slice_last_absorb {A : Type} (limit : nat) (l rest : list A) :
  JS.slice_last limit (JS.slice_last limit l ++ rest) = JS.slice_last limit (l ++ rest).
Proof.
  unfold JS.slice_last. rewrite !length_app, length_skipn.
  set (k := (length l - limit)%nat).
  assert (Hk : (k <= length l)%nat) by (unfold k; lia).
  replace (length l + length rest - limit)%nat
    with ((length l - k + length rest - limit) + k)%nat by (unfold k; lia).
  rewrite <- skipn_skipn. f_equal.
  rewrite skipn_app. replace (k - length l)%nat with 0%nat by lia. reflexivity.
Qed.

Lemma feed_history_queue : forall samples st,
  (length (networkDataHistory st) <= 1000)%nat ->
  networkDataHistory (fst (feed st samples))
  = JS.slice_last 1000 (networkDataHistory st ++ samples).
Proof.
  induction samples as [|d rest IH]; intros st Hlen.
  - cbn [feed fst]. rewrite app_nil_r. unfold JS.slice_last.
    replace (length (networkDataHistory st) - 1000)%nat with 0%nat by lia.
    reflexivity.
  - cbn [feed]. rewrite POST_valid.
    match goal with |- context [feed ?s rest] =>
      specialize (IH s); destruct (feed s rest) as [st2 rs] end.
    cbn [fst networkDataHistory] in *.
    rewrite IH by (unfold historyAtDetection; apply length_keep_last).
    unfold historyAtDetection. rewrite keep_last_slice, slice_last_absorb.
    now rewrite <- app_assoc.
Qed.

(** X4.  The sample store of the route is a queue: after any sequence of
    valid samples it holds the last 1000 of them (all of them when there are
    fewer), oldest first. *)
Theorem X4_route_history_is_last_thousand (samples : list NetworkData) :
  networkDataHistory (fst (feed initial samples)) = JS.slice_last 1000 samples.
Proof.
  rewrite feed_history_queue; [reflexivity|].
  unfold initial. cbn [networkDataHistory length]. lia.
Qed.

(** *** Constant streams *)

Lemma slice_last_nonempty {A : Type} (n : nat) (l : list A) :
  (1 <= n)%nat -> l <> [] -> JS.slice_last n l <> [].
Proof.
  intros Hn Hl H. apply (f_equal (@length A)) in H.
  unfold JS.slice_last in H. rewrite length_skipn in H.
  assert (Hpos : (0 < length l)%nat) by (destruct l; [congruence|simpl; lia]).
  change (length (@nil A)) with 0%nat in H. lia.
Qed.

Lemma constant_history_is_quiet h d0 d :
  Forall (fun s => s = d0) h -> detectAnomalies h d = [].
Proof.
  intros Hall. unfold detectAnomalies.
  destruct (Nat.ltb_spec (length h) 10) as [_|Hlen]; [reflexivity|].
  assert (Hne : h <> []) by (destruct h; [simpl in Hlen; lia|discriminate]).
  assert (Hskip : forall m acc, detectMetric h d acc m = acc).
  { intros m acc. apply detectMetric_skip.
    rewrite (stdDev_constant (get m d0)); [lra| |].
    - unfold window. intros H. apply map_eq_nil in H.
      revert H. apply slice_last_nonempty; [lia|exact Hne].
    - unfold window. apply Forall_map, Forall_skipn.
      eapply Forall_impl; [|exact Hall]. intros s ->. reflexivity. }
  unfold metrics. cbn [fold_left]. now rewrite !Hskip.
Qed.

Lemma feed_constant d : forall n st,
  Forall (fun s => s = d) (networkDataHistory st) ->
  snd (feed st (repeat d n)) = repeat (Success 0) n /\
  detectedAnomalies (fst (feed st (repeat d n))) = detectedAnomalies st.
Proof.
  induction n as [|n IH]; intros st Hall; [split; reflexivity|].
  cbn [repeat feed]. rewrite POST_valid.
  assert (Hh : Forall (fun s => s = d) (historyAtDetection st d)).
  { unfold historyAtDetection. apply Forall_keep_last, Forall_app.
    split; [exact Hall|repeat constructor]. }
  rewrite (constant_history_is_quiet _ d d Hh).
  cbn [length Nat.ltb Nat.leb].
  specialize (IH (mkState (historyAtDetection st d) (detectedAnomalies st)) Hh).
  destruct (feed _ (repeat d n)) as [st2 rs]. cbn [fst snd] in *.
  destruct IH as [-> ->]. split; reflexivity.
Qed.

(** X5.  A stream that never changes is never flagged: however many copies
    of one sample are sent, every request is answered with zero anomalies
    and nothing is stored. *)
Theorem X5_constant_stream_is_quiet (d : NetworkData) (n : nat) :
  snd (feed initial (repeat d n)) = repeat (Success 0) n /\
  detectedAnomalies (fst (feed initial (repeat d n))) = [].
Proof. apply (feed_constant d n initial). constructor. Qed.

(** *** One event per metric *)

Lemma detectMetric_fired h d acc m :
  detectMetric h d acc m = acc ++ (if fired h d m then [eventFor h d m] else []).
Proof.
  unfold detectMetric, fired, eventFor.
  destruct (Rlt_dec (stdDev (window h m)) (1 / 10)); [now rewrite app_nil_r|].
  destruct (Rlt_dec ZSCORE_THRESHOLD _); [reflexivity|now rewrite app_nil_r].
Qed.

Lemma loop_filter h d ms : forall acc,
  fold_left (detectMetric h d) ms acc
  = acc ++ map (eventFor h d) (filter (fired h d) ms).
Proof.
  induction ms as [|m ms IH]; intros acc; simpl.
  - now rewrite app_nil_r.
  - rewrite IH, detectMetric_fired.
    destruct (fired h d m); simpl; now rewrite <- app_assoc.
Qed.

(** X6.  One request reports at most one event per metric: the events are
    those of the metrics that fire, in the order packetsPerSecond, bandwidth,
    activeConnections, errorRate, so there are at most four, their types
    differ pairwise, and the count in a successful answer is at most 4. *)
Theorem X6_at_most_one_event_per_metric :
  (forall h d,
      (10 <= length h)%nat ->
      detectAnomalies h d = map (eventFor h d) (filter (fired h d) metrics)) /\
  (forall h d,
      (length (detectAnomalies h d) <= 4)%nat /\
      NoDup (map a_type (detectAnomalies h d))) /\
  (forall st body n, snd (POST st body) = Success n -> (n <= 4)%nat).
Proof.
  assert (Hfilter : forall h d, (10 <= length h)%nat ->
            detectAnomalies h d = map (eventFor h d) (filter (fired h d) metrics)).
  { intros h d Hlen. rewrite detectAnomalies_loop by exact Hlen.
    now rewrite loop_filter. }
  assert (Hfour : forall h d, (length (detectAnomalies h d) <= 4)%nat /\
                              NoDup (map a_type (detectAnomalies h d))).
  { intros h d. destruct (Nat.lt_ge_cases (length h) 10) as [Hlt|Hge].
    - unfold detectAnomalies. apply Nat.ltb_lt in Hlt. rewrite Hlt.
      simpl. split; [lia|constructor].
    - rewrite (Hfilter h d Hge). unfold metrics. simpl filter.
      destruct (fired h d m_packetsPerSecond), (fired h d m_bandwidth),
               (fired h d m_activeConnections), (fired h d m_errorRate);
        simpl; (split; [lia|]);
        repeat constructor; simpl; intuition discriminate. }
  split; [exact Hfilter|]. split; [exact Hfour|].
  intros st body n Hn.
  destruct body as [b|]; [|discriminate Hn].
  destruct (NetworkDataSchema_parse b) as [d|] eqn:Hp.
  - rewrite (POST_parsed st b d Hp), POST_valid in Hn. cbn [snd] in Hn.
    injection Hn as <-. apply Hfour.
  - rewrite POST_rejected in Hn by exact Hp. discriminate Hn.
Qed.

Lemma X6_at_most_one_event_per_metric_witness :
  (10 <= length (quiet_history ++ [burst]))%nat /\
  detectAnomalies (quiet_history ++ [burst]) burst
  = map (eventFor (quiet_history ++ [burst]) burst)
        (filter (fired (quiet_history ++ [burst]) burst) metrics) /\
  (1 <= 4)%nat.
Proof.
  assert (Hlen : (10 <= length (quiet_history ++ [burst]))%nat) by (simpl; lia).
  split; [exact Hlen|]. split.
  - exact (proj1 X6_at_most_one_event_per_metric _ burst Hlen).
  - apply (proj2 (proj2 X6_at_most_one_event_per_metric)
             quiet_state (Some (to_json burst)) 1%nat).
    now rewrite POST_burst.
Defined.

(** *** A window whose mean is zero *)

Lemma zScore_zero mu sigma : zScore mu sigma mu = 0.
Proof.
  unfold zScore. replace ((mu - mu) / sigma) with 0 by (unfold Rdiv; ring).
  apply Rabs_R0.
Qed.

(** X7.  The percentage deviation divides by the window mean without a
    guard: an event reported for a metric whose window mean is 0 carries the
    threshold 0 and a deviation that is not a finite number, namely
    +Infinity. *)
Theorem X7_zero_mean_gives_infinite_deviation h d a m :
  In a (detectAnomalies h d) ->
  a_type a = typeOf m ->
  mean (window h m) = 0 ->
  a_metrics a = Some {| threshold := 0; actualValue := get m d;
                        deviation := JS.PosInf |}.
Proof.
  intros Ha Ht Hmean. apply detectAnomalies_In in Ha.
  destruct Ha as [_ [m' [[_ Hz] ->]]].
  simpl in Ht. apply typeOf_injective in Ht. subst m'.
  unfold eventFor, event. cbn [a_metrics]. rewrite Hmean in *.
  assert (Hv : get m d <> 0).
  { intros H0. rewrite H0, zScore_zero in Hz. unfold ZSCORE_THRESHOLD in Hz. lra. }
  assert (Hr : JS.Math_round 0 = 0) by (apply (Math_round_integer 0); lra).
  rewrite Hr. repeat f_equal.
  unfold JS.div. destruct (Req_dec_T 0 0) as [_|Hne]; [|now contradiction Hne].
  replace (get m d - 0) with (get m d) by ring.
  destruct (Rlt_dec 0 (get m d)) as [Hpos|Hnpos].
  - simpl. destruct (Rlt_dec 0 100); [reflexivity|lra].
  - destruct (Rlt_dec (get m d) 0) as [Hneg|Hnneg]; [|lra].
    simpl. destruct (Rlt_dec 0 100); [reflexivity|lra].
Qed.

Lemma balanced_window :
  window (balanced_history ++ [balanced_sample]) m_packetsPerSecond
  = [-1; -1; -1; -1; -1; -1; -1; -1; -1; -1; 10].
Proof. reflexivity. Qed.

Lemma balanced_mean :
  mean (window (balanced_history ++ [balanced_sample]) m_packetsPerSecond) = 0.
Proof. rewrite balanced_window, mean_sumf. simpl. lra. Qed.

Lemma balanced_fires :
  fires (balanced_history ++ [balanced_sample]) balanced_sample m_packetsPerSecond.
Proof.
  assert (Hv : variance (window (balanced_history ++ [balanced_sample])
                                m_packetsPerSecond) = 10).
  { unfold variance. rewrite balanced_mean, balanced_window. simpl. lra. }
  unfold fires. rewrite stdDev_variance, balanced_mean, Hv. split.
  - destruct (Rlt_dec (sqrt 10) (1 / 10)) as [H|H]; [|lra].
    apply sqrt_lt_tenth in H; lra.
  - unfold ZSCORE_THRESHOLD. simpl get. apply zScore_gt_iff; lra.
Qed.

Lemma X7_zero_mean_gives_infinite_deviation_witness :
  exists a,
    In a (detectAnomalies (balanced_history ++ [balanced_sample]) balanced_sample) /\
    a_type a = typeOf m_packetsPerSecond /\
    mean (window (balanced_history ++ [balanced_sample]) m_packetsPerSecond) = 0 /\
    a_metrics a = Some {| threshold := 0; actualValue := 10;
                          deviation := JS.PosInf |}.
Proof.
  exists (eventFor (balanced_history ++ [balanced_sample]) balanced_sample
                   m_packetsPerSecond).
  assert (Hin : In (eventFor (balanced_history ++ [balanced_sample]) balanced_sample
                             m_packetsPerSecond)
                   (detectAnomalies (balanced_history ++ [balanced_sample])
                                    balanced_sample)).
  { apply detectAnomalies_In. split; [simpl; lia|].
    exists m_packetsPerSecond. split; [exact balanced_fires|reflexivity]. }
  split; [exact Hin|]. split; [reflexivity|]. split; [exact balanced_mean|].
  exact (X7_zero_mean_gives_infinite_deviation _ _ _ m_packetsPerSecond
           Hin eq_refl balanced_mean).
Defined.

End DetectorFacts.

(** ** Facts about the data manager *)

Module CoordinatorFacts.
Import Coordinator.

(** *** The map *)

Lemma Map_has_In {V : Type} (key : string) (m : JsMap V) :
  Map_has key m = true <-> In key (Map_keys m).
Proof.
  unfold Map_has. induction m as [|[k v] m IH]; simpl.
  - split; [discriminate|tauto].
  - destruct (String.eqb_spec k key) as [->|Hne].
    + split; auto.
    + rewrite IH. split; [auto|]. intros [H|H]; [congruence|exact H].
Qed.

Lemma Map_get_In {V : Type} (key : string) (m : JsMap V) (v : V) :
  Map_get key m = Some v -> In key (Map_keys m).
Proof.
  intros H. apply Map_has_In. unfold Map_has. now rewrite H.
Qed.

Lemma Map_get_None {V : Type} (key : string) (m : JsMap V) :
  Map_has key m = false -> Map_get key m = None.
Proof. unfold Map_has. destruct (Map_get key m); [discriminate|reflexivity]. Qed.

Lemma Map_keys_set {V : Type} (key : string) (value : V) (m : JsMap V) :
  Map_keys (Map_set key value m)
  = if Map_has key m then Map_keys m else Map_keys m ++ [key].
Proof.
  unfold Map_has. induction m as [|[k v] m IH]; simpl; [reflexivity|].
  destruct (String.eqb_spec k key) as [->|Hne]; simpl; [reflexivity|].
  rewrite IH. now destruct (Map_get key m).
Qed.

Lemma Map_set_fresh {V : Type} (key : string) (value : V) (m : JsMap V) :
  Map_has key m = false -> Map_set key value m = m ++ [(key, value)].
Proof.
  unfold Map_has. induction m as [|[k v] m IH]; simpl; [reflexivity|].
  destruct (String.eqb_spec k key) as [->|Hne]; [discriminate|].
  intros H. now rewrite IH.
Qed.

Lemma Map_get_set_same {V : Type} (key : string) (value : V) (m : JsMap V) :
  Map_get key (Map_set key value m) = Some value.
Proof.
  induction m as [|[k v] m IH]; simpl.
  - now rewrite String.eqb_refl.
  - destruct (String.eqb_spec k key) as [->|Hne]; simpl.
    + now rewrite String.eqb_refl.
    + destruct (String.eqb_spec k key); [contradiction|exact IH].
Qed.

Lemma Map_get_set_other {V : Type} (key key' : string) (value : V) (m : JsMap V) :
  key <> key' -> Map_get key' (Map_set key value m) = Map_get key' m.
Proof.
  intros Hne. induction m as [|[k v] m IH]; simpl.
  - destruct (String.eqb_spec key key'); [contradiction|reflexivity].
  - destruct (String.eqb_spec k key) as [->|Hk]; simpl.
    + destruct (String.eqb_spec key key'); [contradiction|reflexivity].
    + now rewrite IH.
Qed.

Lemma Map_keys_delete_incl {V : Type} (key : string) (m : JsMap V) :
  incl (Map_keys (Map_delete key m)) (Map_keys m).
Proof.
  induction m as [|[k v] m IH]; simpl; [apply incl_refl|].
  destruct (String.eqb k key).
  - apply incl_tl, incl_refl.
  - intros x [<-|Hx]; [now left|right; now apply IH].
Qed.

Lemma Map_delete_NoDup {V : Type} (key : string) (m : JsMap V) :
  NoDup (Map_keys m) ->
  NoDup (Map_keys (Map_delete key m)) /\ ~ In key (Map_keys (Map_delete key m)).
Proof.
  induction m as [|[k v] m IH]; simpl; intros Hnd.
  - split; [constructor|tauto].
  - inversion Hnd as [|? ? Hk Hm]; subst.
    destruct (String.eqb_spec k key) as [->|Hne].
    + split; assumption.
    + destruct (IH Hm) as [IH1 IH2]. simpl. split.
      * constructor; [|exact IH1].
        intros Hin. apply Hk. now apply (Map_keys_delete_incl key m).
      * intros [H|H]; [congruence|contradiction].
Qed.

Lemma Map_set_NoDup {V : Type} (key : string) (value : V) (m : JsMap V) :
  NoDup (Map_keys m) -> NoDup (Map_keys (Map_set key value m)).
Proof.
  intros Hnd. rewrite Map_keys_set.
  destruct (Map_has key m) eqn:Hhas; [exact Hnd|].
  apply NoDup_app; [exact Hnd|repeat constructor; simpl; tauto|].
  intros x Hx [<-|[]]. apply Map_has_In in Hx. congruence.
Qed.

Lemma Map_keys_delete_other {V : Type} (key a : string) (m : JsMap V) :
  a <> key -> In a (Map_keys m) -> In a (Map_keys (Map_delete key m)).
Proof.
  intros Hne. induction m as [|[k v] m IH]; simpl; [tauto|].
  destruct (String.eqb_spec k key) as [->|Hk]; simpl.
  - intros [H|H]; [congruence|exact H].
  - intros [H|H]; [now left|right; auto].
Qed.

Lemma Map_keys_set_present {V : Type} (key : string) (value v0 : V) (m : JsMap V) :
  Map_get key m = Some v0 -> Map_keys (Map_set key value m) = Map_keys m.
Proof.
  intros H. rewrite Map_keys_set. unfold Map_has. now rewrite H.
Qed.

(** *** Bounded histories *)

Lemma pushLimited_below {A : Type} (limit : nat) (h : list A) (x : A) :
  (length h < limit)%nat -> pushLimited limit h x = h ++ [x].
Proof.
  intros H. unfold pushLimited.
  destruct (Nat.ltb_spec limit (length (h ++ [x]))) as [Hlt|_]; [|reflexivity].
  rewrite length_app in Hlt. simpl in Hlt. lia.
Qed.

Lemma pushLimited_full {A : Type} (limit : nat) (h : list A) (x : A) :
  length h = limit -> pushLimited limit h x = tl (h ++ [x]).
Proof.
  intros H. unfold pushLimited.
  destruct (Nat.ltb_spec limit (length (h ++ [x]))) as [_|Hge]; [reflexivity|].
  rewrite length_app in Hge. simpl in Hge. lia.
Qed.

Lemma pushLimited_length {A : Type} (limit : nat) (h : list A) (x : A) :
  (length h <= limit)%nat -> (length (pushLimited limit h x) <= limit)%nat.
Proof.
  intros H. unfold pushLimited.
  destruct (Nat.ltb_spec limit (length (h ++ [x]))) as [Hlt|Hge]; [|exact Hge].
  destruct h as [|a h]; simpl in *; [lia|].
  rewrite length_app in *. simpl in *. lia.
Qed.

(** *** What the handlers and the life cycle leave unchanged *)

Lemma frame_refl this : frame this this.
Proof. unfold frame. tauto. Qed.

Lemma frame_trans a b c : frame a b -> frame b c -> frame a c.
Proof. unfold frame. intuition congruence. Qed.

Lemma handleStatusChange_frame this id st :
  frame this (handleStatusChange this id st) /\
  dataSources (handleStatusChange this id st) = dataSources this.
Proof. unfold frame. simpl. tauto. Qed.

Lemma handleError_frame this id e :
  frame this (handleError this id e) /\
  dataSources (handleError this id e) = dataSources this.
Proof. unfold frame. simpl. tauto. Qed.

Lemma statuses_frame id sts : forall this,
  frame this (fold_left (fun this' st => handleStatusChange this' id st) sts this) /\
  dataSources (fold_left (fun this' st => handleStatusChange this' id st) sts this)
  = dataSources this.
Proof.
  induction sts as [|st sts IH]; intros this; simpl.
  - split; [apply frame_refl|reflexivity].
  - destruct (IH (handleStatusChange this id st)) as [Hf Hd].
    destruct (handleStatusChange_frame this id st) as [Hf0 Hd0].
    split; [eapply frame_trans; eauto|congruence].
Qed.

Lemma start_spec this id p :
  frame this (start this id p) /\
  dataSources (start this id p)
  = if running p then dataSources this
    else Map_set id (mkSource (kind p) true) (dataSources this).
Proof.
  unfold start. destruct (running p).
  - split; [apply frame_refl|reflexivity].
  - match goal with |- context [fold_left _ _ ?t] =>
      destruct (statuses_frame id (startStatuses (kind p)) t) as [Hf Hd] end.
    split; [|exact Hd]. eapply frame_trans; [|exact Hf]. unfold frame. simpl. tauto.
Qed.

Lemma stop_spec this id p :
  frame this (stop this id p) /\
  dataSources (stop this id p)
  = if running p then Map_set id (mkSource (kind p) false) (dataSources this)
    else dataSources this.
Proof.
  unfold stop. destruct (running p).
  - match goal with |- context [fold_left _ _ ?t] =>
      destruct (statuses_frame id (stopStatuses (kind p)) t) as [Hf Hd] end.
    split; [|exact Hd]. eapply frame_trans; [|exact Hf]. unfold frame. simpl. tauto.
  - split; [apply frame_refl|reflexivity].
Qed.

Lemma start_keys this id p :
  Map_get id (dataSources this) = Some p ->
  Map_keys (dataSources (start this id p)) = Map_keys (dataSources this).
Proof.
  intros H. rewrite (proj2 (start_spec this id p)).
  destruct (running p); [reflexivity|]. eapply Map_keys_set_present, H.
Qed.

Lemma stop_keys this id p :
  Map_get id (dataSources this) = Some p ->
  Map_keys (dataSources (stop this id p)) = Map_keys (dataSources this).
Proof.
  intros H. rewrite (proj2 (stop_spec this id p)).
  destruct (running p); [|reflexivity]. eapply Map_keys_set_present, H.
Qed.

Lemma invariant_frame this this' :
  invariant this -> frame this this' ->
  Map_keys (dataSources this') = Map_keys (dataSources this) ->
  invariant this'.
Proof.
  unfold invariant, frame.
  intros [Hnd [Hact [Hd Ha]]] [Fa [Fd [Fn _]]] Hk.
  rewrite Hk, Fa, Fd, Fn. tauto.
Qed.

Lemma start_invariant this id p :
  invariant this -> Map_get id (dataSources this) = Some p ->
  invariant (start this id p).
Proof.
  intros Hi Hg. eapply invariant_frame;
    [exact Hi|apply start_spec|now apply start_keys].
Qed.

Lemma stop_invariant this id p :
  invariant this -> Map_get id (dataSources this) = Some p ->
  invariant (stop this id p).
Proof.
  intros Hi Hg. eapply invariant_frame;
    [exact Hi|apply stop_spec|now apply stop_keys].
Qed.

Lemma handleError_invariant this id e :
  invariant this -> invariant (handleError this id e).
Proof. intros H. exact H. Qed.

(** *** The invariant along a run *)

Lemma addDataSource_invariant this id type config :
  invariant this -> invariant (fst (addDataSource this id type config)).
Proof.
  intros Hi. unfold addDataSource, addDataSource_begin.
  destruct (Map_has id (dataSources this)) eqn:Hhas; [exact Hi|].
  destruct (createDataSource type) as [p|]; [|exact Hi].
  unfold addDataSource_resume.
  destruct (initialize (kind p) config); simpl negb; cbv iota; [|exact Hi].
  destruct Hi as [Hnd [Hact [Hd Ha]]].
  assert (Hk : Map_keys (Map_set id p (dataSources this))
               = Map_keys (dataSources this) ++ [id]).
  { rewrite Map_keys_set, Hhas. reflexivity. }
  assert (Hnd' : NoDup (Map_keys (Map_set id p (dataSources this))))
    by now apply Map_set_NoDup.
  cbv zeta.
  destruct (Map_size _ =? 1)%nat; unfold invariant; simpl;
    rewrite Hk; (split; [now rewrite <- Hk|]); (split; [|tauto]).
  - intros a [= <-]. apply in_or_app. right. now left.
  - intros a Ha'. apply in_or_app. left. now apply Hact.
Qed.

Lemma removeDataSource_invariant this id :
  invariant this -> invariant (fst (removeDataSource this id)).
Proof.
  intros Hi. unfold removeDataSource.
  destruct (Map_get id (dataSources this)) as [p|] eqn:Hg; [|exact Hi].
  cbv zeta.
  set (this1 := if isRunning p then stop this id p else this).
  assert (Hi1 : invariant this1).
  { unfold this1. destruct (isRunning p); [now apply stop_invariant|exact Hi]. }
  destruct Hi1 as [Hnd [Hact [Hd Ha]]].
  destruct (Map_delete_NoDup id (dataSources this1) Hnd) as [Hnd' Hnot].
  set (this2 := with_dataSources this1 (Map_delete id (dataSources this1))).
  destruct (isActive this2 id) eqn:Hactive; unfold invariant; simpl.
  - split; [exact Hnd'|]. split; [|tauto].
    intros a. destruct (Map_delete id (dataSources this1)) as [|[k v] rest]; simpl.
    + discriminate.
    + intros [= <-]. now left.
  - split; [exact Hnd'|]. split; [|tauto].
    intros a Ha'. apply Map_keys_delete_other; [|now apply Hact].
    intros ->. unfold isActive in Hactive. simpl in Hactive.
    rewrite Ha', String.eqb_refl in Hactive. discriminate.
Qed.

Lemma setActiveDataSource_invariant this id :
  invariant this -> invariant (fst (setActiveDataSource this id)).
Proof.
  intros Hi. unfold setActiveDataSource.
  destruct (Map_has id (dataSources this)) eqn:Hhas; simpl negb; cbv iota;
    [|exact Hi].
  cbv zeta.
  match goal with |- context [with_activeSource ?t (Some id)] => set (this1 := t) end.
  assert (H1 : invariant this1 /\
               Map_keys (dataSources this1) = Map_keys (dataSources this)).
  { unfold this1. destruct (truthy (activeSource this)); [|now split].
    destruct (activeSource this) as [current|]; [|now split].
    destruct (Map_get current (dataSources this)) as [q|] eqn:Hq; [|now split].
    destruct (isRunning q); [|now split].
    split; [now apply stop_invariant|now apply stop_keys]. }
  destruct H1 as [[Hnd [Hact [Hd Ha]]] Hk].
  assert (Hi2 : invariant (with_activeSource this1 (Some id))).
  { unfold invariant. simpl. split; [exact Hnd|]. split; [|tauto].
    intros a [= <-]. rewrite Hk. now apply Map_has_In. }
  simpl fst.
  destruct (Map_get id (dataSources this1)) as [p|] eqn:Hp; [|exact Hi2].
  destruct (negb (isRunning p)); [|exact Hi2].
  now apply start_invariant.
Qed.

Lemma handleData_invariant this id d :
  invariant this -> invariant (handleData this id d).
Proof.
  intros Hi. unfold handleData. destruct (isActive this id); [|exact Hi].
  destruct Hi as [Hnd [Hact [Hd Ha]]]. unfold invariant. simpl.
  repeat split; auto. now apply pushLimited_length.
Qed.

Lemma handleAnomaly_invariant this id a :
  invariant this -> invariant (handleAnomaly this id a).
Proof.
  intros Hi. unfold handleAnomaly. destruct (isActive this id); [|exact Hi].
  destruct Hi as [Hnd [Hact [Hd Ha]]]. unfold invariant. simpl.
  repeat split; auto. now apply pushLimited_length.
Qed.

Lemma step_invariant this op :
  invariant this -> invariant (fst (step this op)).
Proof.
  intros Hi.
  destruct op as [id type config|id|id|id|id|id|cb|cb|cb|cb|id d|id a|id st|id e];
    simpl step.
  - now apply addDataSource_invariant.
  - now apply removeDataSource_invariant.
  - now apply setActiveDataSource_invariant.
  - unfold startDataSource.
    destruct (Map_get id (dataSources this)) as [p|] eqn:Hg; [|exact Hi].
    simpl. destruct (negb (isRunning p)); [now apply start_invariant|exact Hi].
  - unfold stopDataSource.
    destruct (Map_get id (dataSources this)) as [p|] eqn:Hg; [|exact Hi].
    simpl. destruct (isRunning p); [now apply stop_invariant|exact Hi].
  - unfold updateDataSourceConfig.
    destruct (Map_get id (dataSources this)) as [p|] eqn:Hg; [|exact Hi].
    simpl. unfold updateConfiguration. destruct (running p) eqn:Hr; [|exact Hi].
    apply start_invariant; [now apply stop_invariant|].
    rewrite (proj2 (stop_spec this id p)), Hr. apply Map_get_set_same.
  - exact Hi.
  - exact Hi.
  - exact Hi.
  - exact Hi.
  - now apply handleData_invariant.
  - now apply handleAnomaly_invariant.
  - exact Hi.
  - exact Hi.
Qed.

Lemma run_invariant ops : forall this, invariant this -> invariant (run this ops).
Proof.
  induction ops as [|op ops IH]; intros this Hi; [exact Hi|].
  apply IH. now apply step_invariant.
Qed.

Lemma blank_invariant : invariant blank.
Proof.
  unfold invariant, blank, maxDataHistorySize, maxAnomalyHistorySize. simpl.
  repeat split; try lia; [constructor|discriminate].
Qed.

Lemma reachable_invariant this : reachable this -> invariant this.
Proof. intros [ops ->]. apply run_invariant, blank_invariant. Qed.

Lemma run_app this ops1 ops2 : run this (ops1 ++ ops2) = run (run this ops1) ops2.
Proof. unfold run. apply fold_left_app. Qed.

Lemma reachable_step this op : reachable this -> reachable (fst (step this op)).
Proof.
  intros [ops ->]. exists (ops ++ [op]). now rewrite run_app.
Qed.

(** *** Filtering of producer events *)

Lemma isActive_iff this sourceId :
  isActive this sourceId = true <-> activeSource this = Some sourceId.
Proof.
  unfold isActive. destruct (activeSource this) as [a|].
  - destruct (String.eqb_spec sourceId a) as [->|Hne]; split; auto;
      try discriminate. intros [= ->]. contradiction.
  - split; discriminate.
Qed.

(** C6.  A data or anomaly event delivered under a producer's id is appended
    to the history and passed to every data or anomaly subscriber exactly
    when that id is the active source, and otherwise changes nothing; a
    status or an error event is passed to every status or error subscriber
    together with the producer's id, whatever the active source is. *)
Theorem C6_event_filtering (this : DataManager) (sourceId : string) :
  (forall data,
      (activeSource this = Some sourceId ->
       dataHistory (handleData this sourceId data)
       = pushLimited maxDataHistorySize (dataHistory this) data /\
       calls (handleData this sourceId data)
       = calls this ++ map (fun callback => DataCall callback data) (dataCallbacks this)) /\
      (activeSource this <> Some sourceId -> handleData this sourceId data = this)) /\
  (forall anomaly,
      (activeSource this = Some sourceId ->
       anomalyHistory (handleAnomaly this sourceId anomaly)
       = pushLimited maxAnomalyHistorySize (anomalyHistory this) anomaly /\
       calls (handleAnomaly this sourceId anomaly)
       = calls this
         ++ map (fun callback => AnomalyCall callback anomaly) (anomalyCallbacks this)) /\
      (activeSource this <> Some sourceId -> handleAnomaly this sourceId anomaly = this)) /\
  (forall status,
      calls (handleStatusChange this sourceId status)
      = calls this
        ++ map (fun callback => StatusCall callback sourceId status) (statusCallbacks this)) /\
  (forall error,
      calls (handleError this sourceId error)
      = calls this
        ++ map (fun callback => ErrorCall callback sourceId error) (errorCallbacks this)).
Proof.
  pose proof (isActive_iff this sourceId) as Hiff.
  repeat split; intros; unfold handleData, handleAnomaly;
    destruct (isActive this sourceId) eqn:Ha; try reflexivity.
  all: try (exfalso; assert (true = true) as Ht by reflexivity;
            apply Hiff in Ht; contradiction).
  all: match goal with H : activeSource _ = Some _ |- _ =>
         apply Hiff in H; discriminate end.
Qed.

Lemma C6_event_filtering_witness :
  activeSource subscribed = Some "simulated"%string /\
  dataHistory (handleData subscribed "simulated" point) = [point] /\
  calls (handleData subscribed "simulated" point) = [DataCall 1%nat point] /\
  handleData subscribed "pcap-1" point = subscribed.
Proof.
  destruct (C6_event_filtering subscribed "simulated") as [Hdata _].
  destruct (Hdata point) as [Hactive _].
  destruct (Hactive eq_refl) as [Hhist Hcalls].
  destruct (C6_event_filtering subscribed "pcap-1") as [Hother _].
  destruct (Hother point) as [_ Hinactive].
  split; [reflexivity|]. split; [exact Hhist|]. split; [exact Hcalls|].
  apply Hinactive. discriminate.
Defined.

(** *** One active source *)

Lemma filter_key_NoDup (a : string) (keys : list string) :
  NoDup keys ->
  (length (filter (fun k => String.eqb k a) keys) <= 1)%nat.
Proof.
  induction 1 as [|k keys Hk Hnd IH]; simpl; [lia|].
  destruct (String.eqb_spec k a) as [->|Hne]; [|exact IH].
  assert (Hnil : filter (fun k => String.eqb k a) keys = []).
  { clear -Hk. induction keys as [|x keys IH]; simpl; [reflexivity|].
    destruct (String.eqb_spec x a) as [->|_].
    - exfalso. apply Hk. now left.
    - apply IH. intros H. apply Hk. now right. }
  rewrite Hnil. simpl. lia.
Qed.

Lemma active_entries this :
  map entry_id (filter active (getDataSources this))
  = filter (isActive this) (Map_keys (dataSources this)).
Proof.
  unfold getDataSources, Map_keys.
  induction (dataSources this) as [|[k v] m IH]; simpl; [reflexivity|].
  destruct (isActive this k); simpl; now rewrite IH.
Qed.

(** In every reachable state at most one listed source is active. *)
Lemma at_most_one_active this :
  reachable this -> (length (filter active (getDataSources this)) <= 1)%nat.
Proof.
  intros Hr. destruct (reachable_invariant this Hr) as [Hnd _].
  rewrite <- (length_map entry_id), active_entries.
  unfold isActive. destruct (activeSource this) as [a|].
  - now apply filter_key_NoDup.
  - clear Hnd. generalize (Map_keys (dataSources this)) as keys.
    induction keys as [|k keys IH]; simpl; [lia|exact IH].
Qed.

(** *** Switching the active source *)

Lemma Map_In_get {V : Type} (key : string) (m : JsMap V) :
  In key (Map_keys m) -> exists v, Map_get key m = Some v.
Proof.
  intros H. apply Map_has_In in H. unfold Map_has in H.
  destruct (Map_get key m) as [v|]; [eauto|discriminate].
Qed.

(** A switch that succeeds makes [id] the active source and leaves its
    producer running; the producer that was active before is left stopped,
    provided its id is not the empty string. *)
Lemma setActiveDataSource_success this id after :
  invariant this ->
  setActiveDataSource this id = (after, true) ->
  activeSource after = Some id /\
  (exists p, Map_get id (dataSources after) = Some p /\ running p = true) /\
  (forall previous q,
      activeSource this = Some previous -> previous <> ""%string -> previous <> id ->
      Map_get previous (dataSources after) = Some q -> running q = false).
Proof.
  intros [Hnd [Hact _]] Hset. unfold setActiveDataSource in Hset.
  destruct (Map_has id (dataSources this)) eqn:Hhas; simpl negb in Hset;
    cbv iota in Hset; [|discriminate].
  cbv zeta in Hset.
  match type of Hset with context [with_activeSource ?t (Some id)] =>
    set (this1 := t) in * end.
  assert (H1 : Map_keys (dataSources this1) = Map_keys (dataSources this) /\
               forall previous q,
                 activeSource this = Some previous -> previous <> ""%string ->
                 Map_get previous (dataSources this1) = Some q -> running q = false).
  { unfold this1. destruct (activeSource this) as [current|] eqn:Hcur; simpl truthy.
    - destruct (String.eqb_spec current "") as [->|Hne]; simpl negb; cbv iota.
      + split; [reflexivity|]. intros previous q [= <-] Hp. contradiction.
      + destruct (Map_In_get current (dataSources this) (Hact _ eq_refl)) as [c Hc].
        rewrite Hc. destruct (isRunning c) eqn:Hrun.
        * split; [now apply stop_keys|].
          intros previous q [= <-] _. rewrite (proj2 (stop_spec this current c)).
          unfold isRunning in Hrun. rewrite Hrun, Map_get_set_same.
          now intros [= <-].
        * split; [reflexivity|]. intros previous q [= <-] _ Hq.
          rewrite Hc in Hq. injection Hq as <-. exact Hrun.
    - split; [reflexivity|]. discriminate. }
  destruct H1 as [Hk Hprev].
  assert (Hin : In id (Map_keys (dataSources this1)))
    by (rewrite Hk; now apply Map_has_In).
  destruct (Map_In_get id _ Hin) as [p Hp].
  simpl dataSources in Hset. rewrite Hp in Hset.
  injection Hset as <-.
  destruct (isRunning p) eqn:Hrun; simpl negb; cbv iota.
  - simpl. split; [reflexivity|]. split; [eauto|].
    intros previous q Ha Hne _ Hq. eapply Hprev; eauto.
  - destruct (start_spec (with_activeSource this1 (Some id)) id p)
      as [[Fa _] Hd].
    unfold isRunning in Hrun. rewrite Hrun in Hd. simpl dataSources in Hd.
    split; [exact Fa|]. rewrite Hd. split.
    + eexists. split; [apply Map_get_set_same|reflexivity].
    + intros previous q Ha Hne Hneq Hq.
      rewrite Map_get_set_other in Hq by congruence. eapply Hprev; eauto.
Qed.

(** *** First in, first out *)

Lemma tl_skipn {A : Type} (n : nat) (l : list A) : tl (skipn n l) = skipn (S n) l.
Proof.
  revert l; induction n as [|n IH]; intros [|a l]; simpl; try reflexivity.
  - apply IH.
Qed.

(** Pushing a whole sequence keeps its last [limit] items, in order. *)
Lemma pushLimited_sequence {A : Type} (limit : nat) (items : list A) :
  (1 <= limit)%nat ->
  fold_left (pushLimited limit) items [] = JS.slice_last limit items.
Proof.
  intros Hlimit. induction items as [|x items IH] using rev_ind; [reflexivity|].
  rewrite fold_left_app. simpl fold_left. rewrite IH.
  rewrite DetectorFacts.slice_last_snoc by exact Hlimit.
  unfold JS.slice_last.
  destruct (Nat.lt_ge_cases (length items) limit) as [Hlt|Hge].
  - replace (length items - limit)%nat with 0%nat by lia.
    replace (length items + 1 - limit)%nat with 0%nat by lia.
    simpl skipn. now apply pushLimited_below.
  - rewrite pushLimited_full by (rewrite length_skipn; lia).
    replace (length items + 1 - limit)%nat with (S (length items - limit)) by lia.
    rewrite <- tl_skipn.
    assert (Hlen : length (skipn (length items - limit) items) = limit)
      by (rewrite length_skipn; lia).
    destruct (skipn (length items - limit) items); [simpl in Hlen; lia|reflexivity].
Qed.

Lemma deliverData_active items : forall this sourceId,
  isActive this sourceId = true ->
  dataHistory (deliverData this sourceId items)
  = fold_left (pushLimited maxDataHistorySize) items (dataHistory this).
Proof.
  induction items as [|x items IH]; intros this sourceId Ha; [reflexivity|].
  unfold deliverData in *. simpl fold_left.
  rewrite IH.
  - unfold handleData. now rewrite Ha.
  - unfold handleData. rewrite Ha. exact Ha.
Qed.

Lemma deliverAnomalies_active items : forall this sourceId,
  isActive this sourceId = true ->
  anomalyHistory (deliverAnomalies this sourceId items)
  = fold_left (pushLimited maxAnomalyHistorySize) items (anomalyHistory this).
Proof.
  induction items as [|x items IH]; intros this sourceId Ha; [reflexivity|].
  unfold deliverAnomalies in *. simpl fold_left.
  rewrite IH.
  - unfold handleAnomaly. now rewrite Ha.
  - unfold handleAnomaly. rewrite Ha. exact Ha.
Qed.

Lemma slice_last_one_more {A : Type} (limit : nat) (first : A) (rest : list A) :
  length rest = limit -> JS.slice_last limit (first :: rest) = rest.
Proof.
  intros H. unfold JS.slice_last. simpl length. rewrite H.
  replace (S limit - limit)%nat with 1%nat by lia. reflexivity.
Qed.

(** C8.  Both histories are bounded queues.  In every reachable state the
    sample history holds at most 3600 entries and the anomaly history at most
    1000.  An accepted event that arrives when its history is full removes
    the oldest entry and is appended after the others.  Delivering a sequence
    of accepted events to an empty history leaves its last 3600 (or 1000)
    items in their order; with one item more than the capacity that is
    everything but the first. *)
Theorem C8_bounded_fifo_histories :
  (forall this, reachable this ->
      (length (dataHistory this) <= 3600)%nat /\
      (length (anomalyHistory this) <= 1000)%nat) /\
  (forall this sourceId data,
      activeSource this = Some sourceId ->
      length (dataHistory this) = 3600%nat ->
      dataHistory (handleData this sourceId data) = tl (dataHistory this) ++ [data]) /\
  (forall this sourceId anomaly,
      activeSource this = Some sourceId ->
      length (anomalyHistory this) = 1000%nat ->
      anomalyHistory (handleAnomaly this sourceId anomaly)
      = tl (anomalyHistory this) ++ [anomaly]) /\
  (forall this sourceId items,
      activeSource this = Some sourceId -> dataHistory this = [] ->
      dataHistory (deliverData this sourceId items) = JS.slice_last 3600 items /\
      forall first rest,
        items = first :: rest -> length rest = 3600%nat ->
        dataHistory (deliverData this sourceId items) = rest) /\
  (forall this sourceId items,
      activeSource this = Some sourceId -> anomalyHistory this = [] ->
      anomalyHistory (deliverAnomalies this sourceId items) = JS.slice_last 1000 items /\
      forall first rest,
        items = first :: rest -> length rest = 1000%nat ->
        anomalyHistory (deliverAnomalies this sourceId items) = rest).
Proof.
  split; [|split; [|split; [|split]]].
  - intros this Hr. destruct (reachable_invariant this Hr) as [_ [_ [Hd Ha]]].
    split; assumption.
  - intros this sourceId data Ha Hlen. apply isActive_iff in Ha.
    unfold handleData. rewrite Ha. simpl dataHistory.
    rewrite pushLimited_full by exact Hlen.
    destruct (dataHistory this); [discriminate Hlen|reflexivity].
  - intros this sourceId anomaly Ha Hlen. apply isActive_iff in Ha.
    unfold handleAnomaly. rewrite Ha. simpl anomalyHistory.
    rewrite pushLimited_full by exact Hlen.
    destruct (anomalyHistory this); [discriminate Hlen|reflexivity].
  - intros this sourceId items Ha Hempty. apply isActive_iff in Ha.
    assert (Hall : dataHistory (deliverData this sourceId items)
                   = JS.slice_last 3600 items).
    { rewrite deliverData_active, Hempty by exact Ha.
      apply pushLimited_sequence. unfold maxDataHistorySize. lia. }
    split; [exact Hall|]. intros first rest -> Hlen. rewrite Hall.
    now apply slice_last_one_more.
  - intros this sourceId items Ha Hempty. apply isActive_iff in Ha.
    assert (Hall : anomalyHistory (deliverAnomalies this sourceId items)
                   = JS.slice_last 1000 items).
    { rewrite deliverAnomalies_active, Hempty by exact Ha.
      apply pushLimited_sequence. unfold maxAnomalyHistorySize. lia. }
    split; [exact Hall|]. intros first rest -> Hlen. rewrite Hall.
    now apply slice_last_one_more.
Qed.

Lemma C8_bounded_fifo_histories_witness :
  reachable subscribed /\
  (length (dataHistory subscribed) <= 3600)%nat /\
  dataHistory (deliverData subscribed "simulated" (point :: repeat point 3600))
  = repeat point 3600 /\
  anomalyHistory (deliverAnomalies subscribed "simulated" (alert :: repeat alert 1000))
  = repeat alert 1000.
Proof.
  destruct C8_bounded_fifo_histories as [Hbound [_ [_ [Hdata Hanomaly]]]].
  assert (Hr : reachable subscribed) by (eexists; reflexivity).
  split; [exact Hr|]. split; [exact (proj1 (Hbound subscribed Hr))|]. split.
  - exact (proj2 (Hdata subscribed "simulated"%string (point :: repeat point 3600)
                   eq_refl eq_refl)
             point (repeat point 3600) eq_refl (repeat_length point 3600)).
  - exact (proj2 (Hanomaly subscribed "simulated"%string (alert :: repeat alert 1000)
                   eq_refl eq_refl)
             alert (repeat alert 1000) eq_refl (repeat_length alert 1000)).
Defined.

(** *** Registration *)

Lemma addDataSource_success this id type config after :
  addDataSource this id type config = (after, true) ->
  exists dataSource,
    Map_has id (dataSources this) = false /\
    createDataSource type = Some dataSource /\
    after = (if (Map_size (dataSources this ++ [(id, dataSource)]) =? 1)%nat
             then with_activeSource
                    (with_dataSources this (dataSources this ++ [(id, dataSource)]))
                    (Some id)
             else with_dataSources this (dataSources this ++ [(id, dataSource)])).
Proof.
  unfold addDataSource, addDataSource_begin.
  destruct (Map_has id (dataSources this)) eqn:Hhas; [discriminate|].
  destruct (createDataSource type) as [p|] eqn:Hc; [|discriminate].
  unfold addDataSource_resume.
  destruct (initialize (kind p) config); simpl negb; cbv iota; [|discriminate].
  cbv zeta. simpl dataSources. rewrite (Map_set_fresh id p _ Hhas).
  intros [= <-]. exists p. auto.
Qed.

Lemma createDataSource_stopped type p :
  createDataSource type = Some p -> running p = false.
Proof.
  unfold createDataSource.
  repeat match goal with |- context [String.eqb ?a ?b] => destruct (String.eqb a b) end;
    intros [= <-]; reflexivity.
Qed.

(** A run in which the built-in source is removed before another source is
    registered. *)
Lemma sole_entry_becomes_active :
  step (run blank [AddDataSource "simulated" "simulated" None;
                   RemoveDataSource "simulated"])
       (AddDataSource "b" "pcap" None)
  = (mkDataManager [("b"%string, mkSource pcap false)] (Some "b"%string)
       [] [] [] [] [] [] [], true) /\
  registrations blank [AddDataSource "simulated" "simulated" None;
                       RemoveDataSource "simulated"] = 1%nat.
Proof. split; reflexivity. Qed.

(** C9, as the specification states it, fails: after the built-in source has
    been registered and removed, the registration of another source makes
    that source active although it is not the first source ever
    registered. *)
Lemma C9_not_only_first_ever : ~ activates_only_first_ever.
Proof.
  intros H. destruct sole_entry_becomes_active as [Hstep Hcount].
  specialize (H _ _ _ _ _ Hstep eq_refl). rewrite Hcount in H. discriminate.
Qed.

(** C9, amended.  A registration that succeeds in a reachable state appends
    the new producer to the registry, stopped, and starts nothing (nothing is
    added to the log of calls); the new source becomes the active one exactly
    when the registry held no source before, whatever was registered
    earlier, and otherwise the active source stays what it was and the new
    entry is listed as not active. *)
Theorem C9_registration_activates_sole_entry this id type config after :
  reachable this ->
  addDataSource this id type config = (after, true) ->
  exists dataSource,
    createDataSource type = Some dataSource /\
    running dataSource = false /\
    dataSources after = dataSources this ++ [(id, dataSource)] /\
    calls after = calls this /\
    (dataSources this = [] -> activeSource after = Some id) /\
    (dataSources this <> [] ->
     activeSource after = activeSource this /\ isActive after id = false).
Proof.
  intros Hr Hadd. destruct (reachable_invariant this Hr) as [_ [Hact _]].
  destruct (addDataSource_success _ _ _ _ _ Hadd) as [p [Hhas [Hc ->]]].
  exists p. split; [exact Hc|]. split; [eapply createDataSource_stopped, Hc|].
  unfold Map_size. rewrite length_app. simpl length.
  destruct (dataSources this) as [|entry rest] eqn:Hds.
  - simpl. split; [reflexivity|]. split; [reflexivity|].
    split; [intros _; reflexivity|]. intros Hne. now contradiction Hne.
  - replace (length (entry :: rest) + 1 =? 1)%nat with false
      by (symmetry; apply Nat.eqb_neq; simpl; lia).
    simpl. repeat split; auto; try discriminate.
    destruct (isActive _ id) eqn:Ha; [|reflexivity].
    apply isActive_iff in Ha. simpl in Ha. apply Hact in Ha.
    apply Map_has_In in Ha. congruence.
Qed.

Lemma C9_registration_activates_sole_entry_witness :
  reachable constructed /\
  addDataSource constructed "b" "pcap" None
  = (fst (addDataSource constructed "b" "pcap" None), true) /\
  activeSource (fst (addDataSource constructed "b" "pcap" None))
  = Some "simulated"%string /\
  isActive (fst (addDataSource constructed "b" "pcap" None)) "b" = false.
Proof.
  assert (Hr : reachable constructed)
    by (exists [AddDataSource "simulated" "simulated" None]; reflexivity).
  assert (Hadd : addDataSource constructed "b" "pcap" None
                 = (fst (addDataSource constructed "b" "pcap" None), true))
    by reflexivity.
  destruct (C9_registration_activates_sole_entry _ _ _ _ _ Hr Hadd)
    as [p [_ [_ [_ [_ [_ Hother]]]]]].
  split; [exact Hr|]. split; [exact Hadd|].
  destruct Hother as [Hactive Hentry]; [discriminate|].
  split; [exact Hactive|exact Hentry].
Defined.

(** *** A registered source is always active *)

Lemma some_active_frame this this' :
  some_active this -> frame this this' ->
  Map_keys (dataSources this') = Map_keys (dataSources this) ->
  some_active this'.
Proof.
  unfold some_active. intros H [Fa _] Hk Hne. rewrite Fa. apply H.
  intros Hnil. rewrite Hnil in Hk. destruct (dataSources this'); [congruence|].
  discriminate Hk.
Qed.

Lemma addDataSource_failure this id type config after :
  addDataSource this id type config = (after, false) ->
  frame this after /\ dataSources after = dataSources this.
Proof.
  unfold addDataSource, addDataSource_begin.
  destruct (Map_has id (dataSources this)).
  - intros [= <-]. apply handleError_frame.
  - destruct (createDataSource type) as [p|].
    + unfold addDataSource_resume.
      destruct (initialize (kind p) config); simpl negb; cbv iota.
      * discriminate.
      * intros [= <-]. apply handleError_frame.
    + intros [= <-]. apply handleError_frame.
Qed.

Lemma step_some_active this op :
  invariant this -> some_active this -> some_active (fst (step this op)).
Proof.
  intros Hi Hs.
  destruct op as [id type config|id|id|id|id|id|cb|cb|cb|cb|id d|id a|id st|id e];
    simpl step; try exact Hs.
  - destruct (addDataSource this id type config) as [after [|]] eqn:Hadd.
    + destruct (addDataSource_success _ _ _ _ _ Hadd) as [p [_ [_ ->]]].
      unfold Map_size. rewrite length_app. simpl length. simpl fst.
      destruct (dataSources this) as [|entry rest] eqn:Hds.
      * simpl. unfold some_active. simpl. discriminate.
      * replace (length (entry :: rest) + 1 =? 1)%nat with false
          by (symmetry; apply Nat.eqb_neq; simpl; lia).
        unfold some_active in *. simpl. intros _. apply Hs.
        rewrite Hds. discriminate.
    + destruct (addDataSource_failure _ _ _ _ _ Hadd) as [Hf Hd]. simpl fst.
      eapply some_active_frame; [exact Hs|exact Hf|now rewrite Hd].
  - unfold removeDataSource.
    destruct (Map_get id (dataSources this)) as [p|] eqn:Hg; [|exact Hs].
    cbv zeta. simpl fst.
    set (this1 := if isRunning p then stop this id p else this).
    assert (H1 : frame this this1).
    { unfold this1. destruct (isRunning p); [apply stop_spec|apply frame_refl]. }
    destruct H1 as [Fa _].
    set (this2 := with_dataSources this1 (Map_delete id (dataSources this1))).
    destruct (isActive this2 id) eqn:Hactive; unfold some_active; simpl.
    + destruct (Map_delete id (dataSources this1)) as [|[k v] rest]; simpl;
        [congruence|discriminate].
    + intros _. rewrite Fa. intros Hnone.
      destruct (activeSource this) as [a|] eqn:Ha; [discriminate|].
      apply Hs; [|exact Ha]. intros Hnil. rewrite Hnil in Hg. discriminate.
  - destruct (setActiveDataSource this id) as [after [|]] eqn:Hset.
    + destruct (setActiveDataSource_success _ _ _ Hi Hset) as [Ha _].
      unfold some_active. simpl. rewrite Ha. discriminate.
    + unfold setActiveDataSource in Hset.
      destruct (negb (Map_has id (dataSources this))); [|discriminate].
      injection Hset as <-. exact Hs.
  - unfold startDataSource.
    destruct (Map_get id (dataSources this)) as [p|] eqn:Hg; [|exact Hs].
    simpl. destruct (negb (isRunning p)); [|exact Hs].
    eapply some_active_frame; [exact Hs|apply start_spec|now apply start_keys].
  - unfold stopDataSource.
    destruct (Map_get id (dataSources this)) as [p|] eqn:Hg; [|exact Hs].
    simpl. destruct (isRunning p); [|exact Hs].
    eapply some_active_frame; [exact Hs|apply stop_spec|now apply stop_keys].
  - unfold updateDataSourceConfig.
    destruct (Map_get id (dataSources this)) as [p|] eqn:Hg; [|exact Hs].
    simpl. unfold updateConfiguration. destruct (running p) eqn:Hr; [|exact Hs].
    assert (Hg' : Map_get id (dataSources (stop this id p))
                  = Some (mkSource (kind p) false)).
    { rewrite (proj2 (stop_spec this id p)), Hr. apply Map_get_set_same. }
    eapply some_active_frame; [|apply start_spec|now apply start_keys].
    eapply some_active_frame; [exact Hs|apply stop_spec|now apply stop_keys].
  - unfold handleData. destruct (isActive this id); exact Hs.
  - unfold handleAnomaly. destruct (isActive this id); exact Hs.
Qed.

(** In every reachable state with a registered source some source is the
    active one: registration and removal keep an active source whenever they
    can. *)
Lemma registered_source_is_active this : reachable this -> some_active this.
Proof.
  intros [ops ->].
  assert (H : forall this0, invariant this0 -> some_active this0 ->
                            some_active (run this0 ops)).
  { induction ops as [|op ops IH]; intros this0 Hi Hs; [exact Hs|].
    apply IH; [now apply step_invariant|now apply step_some_active]. }
  apply H; [apply blank_invariant|]. intros Hne. now contradiction Hne.
Qed.

(** *** The built-in source *)

(** C10.  The constructor starts the registration of a producer of the
    simulated type under the id "simulated"; its initialisation cannot fail,
    and once the registration has completed the registry holds exactly that
    source and it is the active one, also when subscribers were added or
    calls were logged while it was pending, as long as the registry is still
    empty when it completes.  The registration of the built-in source
    counts as the first: in every run that starts with it at least one
    registration has succeeded, so no source registered afterwards is the
    first ever. *)
Theorem C10_builtin_simulated_source :
  addDataSource_begin blank "simulated" "simulated"
  = (blank, Some (mkSource simulated false)) /\
  (forall config, initialize simulated config = true) /\
  getDataSources constructed
  = [mkEntry "simulated" (mkSource simulated false) true] /\
  activeSource constructed = Some "simulated"%string /\
  dataSources constructed <> [] /\
  (forall this,
      dataSources this = [] ->
      getDataSources
        (fst (addDataSource_resume this "simulated" (mkSource simulated false) true))
      = [mkEntry "simulated" (mkSource simulated false) true]) /\
  (forall ops,
      run blank (AddDataSource "simulated" "simulated" None :: ops)
      = run constructed ops /\
      (1 <= registrations blank (AddDataSource "simulated" "simulated" None :: ops))%nat).
Proof.
  split; [reflexivity|]. split; [intros [c|]; reflexivity|].
  split; [reflexivity|]. split; [reflexivity|]. split; [discriminate|].
  split; [intros this Hempty; unfold addDataSource_resume, getDataSources;
          simpl; rewrite Hempty; reflexivity|].
  intros ops. split; [reflexivity|].
  change (1 <= 1 + registrations constructed ops)%nat. lia.
Qed.

(** *** Further facts about the data manager *)

Lemma filter_key_once (a : string) (keys : list string) :
  NoDup keys -> In a keys ->
  length (filter (fun k => String.eqb k a) keys) = 1%nat.
Proof.
  induction 1 as [|k keys Hk Hnd IH]; simpl; [tauto|].
  destruct (String.eqb_spec k a) as [->|Hne].
  - intros _. simpl. f_equal.
    assert (Hnil : filter (fun k => String.eqb k a) keys = []).
    { clear -Hk. induction keys as [|x keys IH]; simpl; [reflexivity|].
      destruct (String.eqb_spec x a) as [->|_].
      - exfalso. apply Hk. now left.
      - apply IH. intros H. apply Hk. now right. }
    now rewrite Hnil.
  - intros [H|H]; [contradiction|now apply IH].
Qed.

(** X8.  In every reachable state the list of [getDataSources] has no
    active entry when no source is registered and exactly one otherwise. *)
Theorem X8_exactly_one_active this :
  reachable this ->
  length (filter active (getDataSources this))
  = (if (Map_size (dataSources this) =? 0)%nat then 0 else 1)%nat.
Proof.
  intros Hr. destruct (reachable_invariant this Hr) as [Hnd [Hact _]].
  pose proof (registered_source_is_active this Hr) as Hsome.
  rewrite <- (length_map entry_id), active_entries.
  unfold some_active, Map_size in *.
  destruct (dataSources this) as [|entry rest] eqn:Hds; [reflexivity|].
  change (length (entry :: rest) =? 0)%nat with false. cbv iota.
  destruct (activeSource this) as [a|] eqn:Ha.
  - unfold isActive. rewrite Ha. apply filter_key_once; [exact Hnd|now apply Hact].
  - exfalso. apply Hsome; [discriminate|reflexivity].
Qed.

Lemma X8_exactly_one_active_witness :
  reachable (run blank empty_id_run) /\
  length (filter active (getDataSources (run blank empty_id_run))) = 1%nat.
Proof.
  assert (Hr : reachable (run blank empty_id_run)) by (eexists; reflexivity).
  split; [exact Hr|]. exact (X8_exactly_one_active _ Hr).
Defined.

(** X9.  A call that resolves to [false] does nothing but notify: the state
    is either untouched or differs only by one call of each error subscriber;
    registry, active source and both histories are as before. *)
Theorem X9_failed_call_only_notifies this op after :
  step this op = (after, false) ->
  (after = this \/ exists id error, after = handleError this id error) /\
  dataSources after = dataSources this /\
  activeSource after = activeSource this /\
  dataHistory after = dataHistory this /\
  anomalyHistory after = anomalyHistory this.
Proof.
  intros Hstep.
  assert (H : after = this \/ exists id error, after = handleError this id error).
  { destruct op as [id type config|id|id|id|id|id|cb|cb|cb|cb|id d|id a|id st|id e];
      simpl step in Hstep; try discriminate Hstep.
    - unfold addDataSource, addDataSource_begin in Hstep.
      destruct (Map_has id (dataSources this)).
      + injection Hstep as <-. eauto.
      + destruct (createDataSource type) as [p|].
        * unfold addDataSource_resume in Hstep.
          destruct (initialize (kind p) config); simpl negb in Hstep;
            cbv iota in Hstep; [discriminate|].
          injection Hstep as <-. eauto.
        * injection Hstep as <-. eauto.
    - unfold removeDataSource in Hstep.
      destruct (Map_get id (dataSources this)); [discriminate|].
      injection Hstep as <-. now left.
    - unfold setActiveDataSource in Hstep.
      destruct (negb (Map_has id (dataSources this))); [|discriminate].
      injection Hstep as <-. eauto.
    - unfold startDataSource in Hstep.
      destruct (Map_get id (dataSources this)); [discriminate|].
      injection Hstep as <-. eauto.
    - unfold stopDataSource in Hstep.
      destruct (Map_get id (dataSources this)); [discriminate|].
      injection Hstep as <-. eauto.
    - unfold updateDataSourceConfig in Hstep.
      destruct (Map_get id (dataSources this)); [discriminate|].
      injection Hstep as <-. eauto. }
  split; [exact H|].
  destruct H as [->|[id [error ->]]]; repeat split; reflexivity.
Qed.

Lemma X9_failed_call_only_notifies_witness :
  step subscribed (AddDataSource "simulated" "pcap" None)
  = (handleError subscribed "simulated" (AlreadyExists "simulated"), false) /\
  calls (handleError subscribed "simulated" (AlreadyExists "simulated"))
  = [ErrorCall 4%nat "simulated" (AlreadyExists "simulated")] /\
  dataSources (handleError subscribed "simulated" (AlreadyExists "simulated"))
  = dataSources subscribed.
Proof.
  assert (Hstep : step subscribed (AddDataSource "simulated" "pcap" None)
                  = (handleError subscribed "simulated" (AlreadyExists "simulated"),
                     false)) by reflexivity.
  split; [exact Hstep|]. split; [reflexivity|].
  exact (proj1 (proj2 (X9_failed_call_only_notifies _ _ _ Hstep))).
Defined.

(** *** More on the map and on the log of calls *)

Lemma Map_get_delete_same {V : Type} (key : string) (m : JsMap V) :
  NoDup (Map_keys m) -> Map_get key (Map_delete key m) = None.
Proof.
  intros Hnd. destruct (Map_delete_NoDup key m Hnd) as [_ Hnot].
  destruct (Map_get key (Map_delete key m)) eqn:Hg; [|reflexivity].
  exfalso. apply Hnot. eapply Map_get_In, Hg.
Qed.

Lemma Map_get_delete_other {V : Type} (key other : string) (m : JsMap V) :
  other <> key -> Map_get other (Map_delete key m) = Map_get other m.
Proof.
  intros Hne. induction m as [|[k v] m IH]; simpl; [reflexivity|].
  destruct (String.eqb_spec k key) as [->|Hk]; simpl.
  - destruct (String.eqb_spec key other); [congruence|reflexivity].
  - now rewrite IH.
Qed.

Lemma Map_get_app_fresh {V : Type} (key : string) (value : V) (m : JsMap V) :
  Map_has key m = false -> Map_get key (m ++ [(key, value)]) = Some value.
Proof.
  intros H. rewrite <- (Map_set_fresh key value m H). apply Map_get_set_same.
Qed.

Lemma Map_delete_app_fresh {V : Type} (key : string) (value : V) (m : JsMap V) :
  Map_has key m = false -> Map_delete key (m ++ [(key, value)]) = m.
Proof.
  unfold Map_has. induction m as [|[k v] m IH]; simpl.
  - now rewrite String.eqb_refl.
  - destruct (String.eqb_spec k key) as [->|Hne]; [discriminate|].
    intros H. now rewrite IH.
Qed.

Lemma Map_set_same {V : Type} (key : string) (value : V) (m : JsMap V) :
  Map_get key m = Some value -> Map_set key value m = m.
Proof.
  induction m as [|[k v] m IH]; simpl; [discriminate|].
  destruct (String.eqb_spec k key) as [->|Hne].
  - now intros [= ->].
  - intros H. now rewrite IH.
Qed.

Lemma Map_set_set {V : Type} (key : string) (v w : V) (m : JsMap V) :
  Map_set key v (Map_set key w m) = Map_set key v m.
Proof.
  induction m as [|[k x] m IH]; simpl.
  - now rewrite String.eqb_refl.
  - destruct (String.eqb_spec k key) as [->|Hne]; simpl.
    + now rewrite String.eqb_refl.
    + destruct (String.eqb_spec k key); [contradiction|now rewrite IH].
Qed.

Lemma source_eta (p : NetworkDataSource) : mkSource (kind p) (running p) = p.
Proof. now destruct p. Qed.

Lemma statuses_calls id sts : forall this,
  calls (fold_left (fun this' st => handleStatusChange this' id st) sts this)
  = calls this ++ statusCalls this id sts.
Proof.
  unfold statusCalls.
  induction sts as [|st sts IH]; intros this; simpl.
  - now rewrite app_nil_r.
  - rewrite IH. simpl. now rewrite <- app_assoc.
Qed.

Lemma start_calls this id p :
  calls (start this id p)
  = calls this ++ (if running p then [] else statusCalls this id (startStatuses (kind p))).
Proof.
  unfold start. destruct (running p); [now rewrite app_nil_r|].
  now rewrite statuses_calls.
Qed.

Lemma stop_calls this id p :
  calls (stop this id p)
  = calls this ++ (if running p then statusCalls this id (stopStatuses (kind p)) else []).
Proof.
  unfold stop. destruct (running p); [|now rewrite app_nil_r].
  now rewrite statuses_calls.
Qed.

(** *** Removing a source *)

(** What [removeDataSource] does, case by case. *)
Lemma removeDataSource_spec this id :
  reachable this ->
  match getDataSource this id with
  | None => removeDataSource this id = (this, false)
  | Some p =>
      snd (removeDataSource this id) = true /\
      getDataSource (fst (removeDataSource this id)) id = None /\
      (forall other,
          other <> id ->
          getDataSource (fst (removeDataSource this id)) other
          = getDataSource this other) /\
      activeSource (fst (removeDataSource this id))
      = (if isActive this id
         then hd_error (Map_keys (dataSources (fst (removeDataSource this id))))
         else activeSource this) /\
      dataHistory (fst (removeDataSource this id)) = dataHistory this /\
      anomalyHistory (fst (removeDataSource this id)) = anomalyHistory this /\
      calls (fst (removeDataSource this id))
      = calls this
        ++ (if running p then statusCalls this id (stopStatuses (kind p)) else [])
  end.
Proof.
  intros Hr. destruct (reachable_invariant this Hr) as [Hnd _].
  unfold getDataSource, removeDataSource.
  destruct (Map_get id (dataSources this)) as [p|] eqn:Hg; [|reflexivity].
  cbv zeta. unfold isRunning.
  set (this1 := if running p then stop this id p else this).
  assert (H1 : frame this this1 /\
               Map_keys (dataSources this1) = Map_keys (dataSources this) /\
               (forall other, other <> id ->
                  Map_get other (dataSources this1) = Map_get other (dataSources this)) /\
               calls this1
               = calls this
                 ++ (if running p then statusCalls this id (stopStatuses (kind p))
                     else [])).
  { unfold this1. destruct (running p) eqn:Hrun.
    - split; [apply stop_spec|]. split; [now apply stop_keys|]. split.
      + intros other Hne. rewrite (proj2 (stop_spec this id p)), Hrun.
        now apply Map_get_set_other.
      + now rewrite stop_calls, Hrun.
    - split; [apply frame_refl|]. split; [reflexivity|]. split; [auto|].
      now rewrite app_nil_r. }
  destruct H1 as [[Fa [Fd [Fn _]]] [Hk [Hother Hcalls]]].
  assert (Hnd1 : NoDup (Map_keys (dataSources this1))) by now rewrite Hk.
  set (this2 := with_dataSources this1 (Map_delete id (dataSources this1))).
  assert (Hact : isActive this2 id = isActive this id)
    by (unfold isActive; simpl; now rewrite Fa).
  rewrite Hact.
  destruct (isActive this id); simpl.
  - rewrite Map_get_delete_same by exact Hnd1.
    repeat split; auto.
    + intros other Hne. rewrite Map_get_delete_other by exact Hne. now apply Hother.
    + destruct (Map_delete id (dataSources this1)); reflexivity.
  - rewrite Map_get_delete_same by exact Hnd1.
    repeat split; auto.
    intros other Hne. rewrite Map_get_delete_other by exact Hne. now apply Hother.
Qed.

(** X10.  Removing a source.  An id that is not registered gives [false] and
    changes nothing.  A registered source is stopped first if it runs, which
    notifies the status subscribers, and is then gone from the registry; the
    other producers, both histories and, unless the removed source was the
    active one, the active source are as they were; if it was the active one,
    the first remaining source takes its place, or none when the registry
    is now empty. *)
Theorem X10_remove_source this id :
  reachable this ->
  match getDataSource this id with
  | None => removeDataSource this id = (this, false)
  | Some p =>
      snd (removeDataSource this id) = true /\
      getDataSource (fst (removeDataSource this id)) id = None /\
      (forall other,
          other <> id ->
          getDataSource (fst (removeDataSource this id)) other
          = getDataSource this other) /\
      activeSource (fst (removeDataSource this id))
      = (if isActive this id
         then hd_error (Map_keys (dataSources (fst (removeDataSource this id))))
         else activeSource this) /\
      dataHistory (fst (removeDataSource this id)) = dataHistory this /\
      anomalyHistory (fst (removeDataSource this id)) = anomalyHistory this /\
      calls (fst (removeDataSource this id))
      = calls this
        ++ (if running p then statusCalls this id (stopStatuses (kind p)) else [])
  end.
Proof. apply removeDataSource_spec. Qed.

Lemma X10_remove_source_witness :
  reachable constructed /\
  removeDataSource constructed "pcap-1" = (constructed, false) /\
  getDataSources (fst (removeDataSource constructed "simulated")) = [] /\
  activeSource (fst (removeDataSource constructed "simulated")) = None.
Proof.
  assert (Hr : reachable constructed)
    by (exists [AddDataSource "simulated" "simulated" None]; reflexivity).
  pose proof (X10_remove_source constructed "pcap-1" Hr) as Hmissing.
  pose proof (X10_remove_source constructed "simulated" Hr) as Hsole.
  split; [exact Hr|]. split; [exact Hmissing|].
  destruct Hsole as [_ [_ [_ [Hactive _]]]].
  split; [reflexivity|exact Hactive].
Defined.

(** X11.  Registering a source and removing it again is a round trip: in a
    reachable state, after a registration that succeeded, removing the same
    id succeeds and gives back the state from before the registration. *)
Theorem X11_add_then_remove this id type config after :
  reachable this ->
  addDataSource this id type config = (after, true) ->
  removeDataSource after id = (this, true).
Proof.
  intros Hr Hadd. destruct (reachable_invariant this Hr) as [_ [Hact _]].
  destruct (addDataSource_success _ _ _ _ _ Hadd) as [p [Hhas [Hc ->]]].
  pose proof (createDataSource_stopped _ _ Hc) as Hstopped.
  unfold Map_size. rewrite length_app. simpl length.
  destruct this as [m a dc ac sc ec dh ah cs]. simpl in *.
  destruct m as [|entry rest].
  - destruct a as [a|]; [destruct (Hact a eq_refl)|].
    unfold removeDataSource. simpl. rewrite String.eqb_refl.
    unfold isRunning. rewrite Hstopped. cbv iota. simpl.
    rewrite String.eqb_refl. unfold isActive. simpl. rewrite String.eqb_refl.
    reflexivity.
  - replace (length (entry :: rest) + 1 =? 1)%nat with false
      by (symmetry; apply Nat.eqb_neq; simpl; lia).
    unfold removeDataSource. cbn [dataSources with_dataSources].
    rewrite (Map_get_app_fresh id p _ Hhas).
    unfold isRunning. rewrite Hstopped. cbv iota zeta.
    cbn [dataSources with_dataSources].
    rewrite (Map_delete_app_fresh id p _ Hhas).
    assert (Hna : isActive
                    (with_dataSources
                       (with_dataSources
                          (mkDataManager (entry :: rest) a dc ac sc ec dh ah cs)
                          ((entry :: rest) ++ [(id, p)])) (entry :: rest)) id = false).
    { unfold isActive. simpl. destruct a as [a|]; [|reflexivity].
      destruct (String.eqb_spec id a) as [->|Hne]; [|reflexivity].
      specialize (Hact a eq_refl). apply Map_has_In in Hact. congruence. }
    rewrite Hna. reflexivity.
Qed.

Lemma X11_add_then_remove_witness :
  reachable constructed /\
  addDataSource constructed "b" "pcap" None
  = (fst (addDataSource constructed "b" "pcap" None), true) /\
  removeDataSource (fst (addDataSource constructed "b" "pcap" None)) "b"
  = (constructed, true).
Proof.
  assert (Hr : reachable constructed)
    by (exists [AddDataSource "simulated" "simulated" None]; reflexivity).
  assert (Hadd : addDataSource constructed "b" "pcap" None
                 = (fst (addDataSource constructed "b" "pcap" None), true))
    by reflexivity.
  split; [exact Hr|]. split; [exact Hadd|].
  exact (X11_add_then_remove _ _ _ _ _ Hr Hadd).
Defined.

(** *** Starting, stopping and reconfiguring one source *)

Lemma statusCalls_frame this this' id sts :
  frame this this' -> statusCalls this' id sts = statusCalls this id sts.
Proof.
  intros [_ [_ [_ [_ [_ [Hs _]]]]]]. unfold statusCalls. now rewrite Hs.
Qed.

(** X12.  [startDataSource] and [stopDataSource] on a registered source are
    idempotent and touch nothing else: after a start the producer runs and a
    second start changes nothing, not even the log of calls; likewise for
    stop; neither changes the active source or any other producer. *)
Theorem X12_start_stop_idempotent this id p :
  getDataSource this id = Some p ->
  (getDataSource (fst (startDataSource this id)) id = Some (mkSource (kind p) true) /\
   startDataSource (fst (startDataSource this id)) id
   = (fst (startDataSource this id), true) /\
   activeSource (fst (startDataSource this id)) = activeSource this /\
   forall other, other <> id ->
     getDataSource (fst (startDataSource this id)) other = getDataSource this other) /\
  (getDataSource (fst (stopDataSource this id)) id = Some (mkSource (kind p) false) /\
   stopDataSource (fst (stopDataSource this id)) id
   = (fst (stopDataSource this id), true) /\
   activeSource (fst (stopDataSource this id)) = activeSource this /\
   forall other, other <> id ->
     getDataSource (fst (stopDataSource this id)) other = getDataSource this other).
Proof.
  unfold getDataSource. intros Hg.
  assert (Hstart : fst (startDataSource this id)
                   = if running p then this else start this id p).
  { unfold startDataSource, isRunning. rewrite Hg. now destruct (running p). }
  assert (Hstop : fst (stopDataSource this id)
                  = if running p then stop this id p else this).
  { unfold stopDataSource, isRunning. rewrite Hg. now destruct (running p). }
  rewrite Hstart, Hstop. split.
  - destruct (running p) eqn:Hrun.
    + split; [now rewrite Hg, <- Hrun, source_eta|].
      split; [|split; [reflexivity|auto]].
      unfold startDataSource, isRunning. now rewrite Hg, Hrun.
    + destruct (start_spec this id p) as [[Fa _] Hd]. rewrite Hrun in Hd.
      assert (Hg' : Map_get id (dataSources (start this id p))
                    = Some (mkSource (kind p) true))
        by (rewrite Hd; apply Map_get_set_same).
      split; [exact Hg'|]. split; [|split; [exact Fa|]].
      * unfold startDataSource. now rewrite Hg'.
      * intros other Hne. rewrite Hd. now apply Map_get_set_other.
  - destruct (running p) eqn:Hrun.
    + destruct (stop_spec this id p) as [[Fa _] Hd]. rewrite Hrun in Hd.
      assert (Hg' : Map_get id (dataSources (stop this id p))
                    = Some (mkSource (kind p) false))
        by (rewrite Hd; apply Map_get_set_same).
      split; [exact Hg'|]. split; [|split; [exact Fa|]].
      * unfold stopDataSource. now rewrite Hg'.
      * intros other Hne. rewrite Hd. now apply Map_get_set_other.
    + split; [now rewrite Hg, <- Hrun, source_eta|].
      split; [|split; [reflexivity|auto]].
      unfold stopDataSource, isRunning. now rewrite Hg, Hrun.
Qed.

Lemma X12_start_stop_idempotent_witness :
  getDataSource constructed "simulated" = Some (mkSource simulated false) /\
  getDataSource (fst (startDataSource constructed "simulated")) "simulated"
  = Some (mkSource simulated true) /\
  startDataSource (fst (startDataSource constructed "simulated")) "simulated"
  = (fst (startDataSource constructed "simulated"), true).
Proof.
  assert (Hg : getDataSource constructed "simulated"
               = Some (mkSource simulated false)) by reflexivity.
  destruct (X12_start_stop_idempotent constructed "simulated" _ Hg)
    as [[Hrun [Hagain _]] _].
  split; [exact Hg|]. split; [exact Hrun|exact Hagain].
Defined.

(** X13.  [updateDataSourceConfig] on a registered source resolves to [true]
    and leaves the registry, with every running flag, and the active source
    as they were; a producer that runs is stopped and started again, which
    the status subscribers see as its stop statuses followed by its start
    statuses, and a stopped producer causes no call at all. *)
Theorem X13_update_config_keeps_running_state this id p :
  getDataSource this id = Some p ->
  snd (updateDataSourceConfig this id) = true /\
  dataSources (fst (updateDataSourceConfig this id)) = dataSources this /\
  activeSource (fst (updateDataSourceConfig this id)) = activeSource this /\
  calls (fst (updateDataSourceConfig this id))
  = calls this
    ++ (if running p
        then statusCalls this id (stopStatuses (kind p))
             ++ statusCalls this id (startStatuses (kind p))
        else []).
Proof.
  unfold getDataSource, updateDataSourceConfig. intros Hg. rewrite Hg.
  cbn [fst snd]. split; [reflexivity|]. unfold updateConfiguration.
  destruct (running p) eqn:Hrun.
  - destruct (stop_spec this id p) as [Hf Hd]. rewrite Hrun in Hd.
    destruct (start_spec (stop this id p) id (mkSource (kind p) false))
      as [Hf' Hd'].
    cbn [running kind] in Hd'. split; [|split].
    + rewrite Hd', Hd, Map_set_set. apply Map_set_same.
      now rewrite <- Hrun, source_eta.
    + destruct Hf as [Fa _], Hf' as [Fa' _]. congruence.
    + rewrite start_calls, stop_calls, Hrun. cbn [running kind].
      rewrite (statusCalls_frame _ _ _ _ Hf). now rewrite <- app_assoc.
  - split; [reflexivity|]. split; [reflexivity|]. now rewrite app_nil_r.
Qed.

Lemma X13_update_config_keeps_running_state_witness :
  getDataSource (run blank empty_id_run) "" = Some (mkSource pcap true) /\
  dataSources (fst (updateDataSourceConfig (run blank empty_id_run) ""))
  = dataSources (run blank empty_id_run).
Proof.
  assert (Hg : getDataSource (run blank empty_id_run) ""
               = Some (mkSource pcap true)) by reflexivity.
  split; [exact Hg|].
  exact (proj1 (proj2 (X13_update_config_keeps_running_state _ _ _ Hg))).
Defined.

(** *** The producers after a switch *)

Lemma stopped_previous this :
  invariant this ->
  activeSource this <> Some ""%string ->
  let this1 :=
    if truthy (activeSource this) then
      match activeSource this with
      | Some current =>
          match Map_get current (dataSources this) with
          | Some currentActive =>
              if isRunning currentActive then stop this current currentActive else this
          | None => this
          end
      | None => this
      end
    else this in
  frame this this1 /\
  Map_keys (dataSources this1) = Map_keys (dataSources this) /\
  forall key,
    Map_get key (dataSources this1)
    = match Map_get key (dataSources this) with
      | Some q => Some (mkSource (kind q) (if isActive this key then false else running q))
      | None => None
      end.
Proof.
  intros [_ [Hact _]] Hne. cbv zeta. unfold isActive.
  destruct (activeSource this) as [current|] eqn:Hcur; simpl truthy.
  - destruct (String.eqb_spec current "") as [->|_]; [congruence|].
    simpl negb. cbv iota.
    destruct (Map_In_get current (dataSources this) (Hact _ eq_refl)) as [c Hc].
    rewrite Hc. unfold isRunning. destruct (running c) eqn:Hrun.
    + destruct (stop_spec this current c) as [Hf Hd]. rewrite Hrun in Hd.
      split; [exact Hf|]. split; [now apply stop_keys|].
      intros key. rewrite Hd.
      destruct (String.eqb_spec key current) as [->|Hk].
      * now rewrite Map_get_set_same, Hc.
      * rewrite Map_get_set_other by congruence.
        destruct (Map_get key (dataSources this)) as [q|]; [|reflexivity].
        now rewrite source_eta.
    + split; [apply frame_refl|]. split; [reflexivity|].
      intros key. destruct (String.eqb_spec key current) as [->|Hk].
      * now rewrite Hc, <- Hrun, source_eta.
      * destruct (Map_get key (dataSources this)) as [q|]; [|reflexivity].
        now rewrite source_eta.
  - split; [apply frame_refl|]. split; [reflexivity|].
    intros key. destruct (Map_get key (dataSources this)) as [q|]; [|reflexivity].
    now rewrite source_eta.
Qed.

(** X14.  A switch to a registered source, in a reachable state whose
    active source is not registered under the empty string, resolves to
    [true] and leaves exactly this: [id] is the active source and its
    producer runs, the producer that was active before is stopped, every
    other producer is as it was, and the order of the registry and both
    histories are unchanged. *)
Theorem X14_switch_active_source this id :
  reachable this ->
  Map_has id (dataSources this) = true ->
  activeSource this <> Some ""%string ->
  snd (setActiveDataSource this id) = true /\
  activeSource (fst (setActiveDataSource this id)) = Some id /\
  (forall key,
      getDataSource (fst (setActiveDataSource this id)) key = switched this id key) /\
  Map_keys (dataSources (fst (setActiveDataSource this id)))
  = Map_keys (dataSources this) /\
  dataHistory (fst (setActiveDataSource this id)) = dataHistory this /\
  anomalyHistory (fst (setActiveDataSource this id)) = anomalyHistory this.
Proof.
  intros Hr Hhas Hne. pose proof (reachable_invariant this Hr) as Hi.
  pose proof (stopped_previous this Hi Hne) as H1. cbv zeta in H1.
  unfold setActiveDataSource, getDataSource. rewrite Hhas. simpl negb. cbv iota zeta.
  match type of H1 with frame this ?t /\ _ => set (this1 := t) in * end.
  destruct H1 as [[Fa [Fd [Fn _]]] [Hk Hget]].
  destruct (Map_In_get id (dataSources this) (proj1 (Map_has_In id _) Hhas))
    as [p0 Hp0].
  pose proof (Hget id) as Hid. rewrite Hp0 in Hid.
  cbn [dataSources with_activeSource]. rewrite Hid. cbn [fst snd].
  split; [reflexivity|].
  set (p1 := mkSource (kind p0) (if isActive this id then false else running p0)).
  set (this2 := with_activeSource this1 (Some id)).
  assert (Hfinal : forall key,
            Map_get key (dataSources
                           (if negb (isRunning p1) then start this2 id p1 else this2))
            = switched this id key /\
            frame this2 (if negb (isRunning p1) then start this2 id p1 else this2) /\
            Map_keys (dataSources
                        (if negb (isRunning p1) then start this2 id p1 else this2))
            = Map_keys (dataSources this1)).
  { intros key. unfold switched, isRunning.
    destruct (running p1) eqn:Hrun; cbn [negb].
    - split; [|split; [apply frame_refl|reflexivity]].
      unfold this2; cbn [dataSources with_activeSource]. rewrite Hget.
      destruct (String.eqb_spec key id) as [->|Hkey].
      + rewrite Hp0. unfold p1 in Hrun. cbn [running] in Hrun. now rewrite Hrun.
      + reflexivity.
    - destruct (start_spec this2 id p1) as [Hf Hd]. rewrite Hrun in Hd.
      split; [|split; [exact Hf|]].
      + rewrite Hd. unfold this2; cbn [dataSources with_activeSource].
        destruct (String.eqb_spec key id) as [->|Hkey].
        * now rewrite Map_get_set_same, Hp0.
        * rewrite Map_get_set_other by congruence. apply Hget.
      + transitivity (Map_keys (dataSources this2)); [|reflexivity].
        apply start_keys. exact Hid. }
  destruct (Hfinal id) as [_ [[Fa2 [Fd2 [Fn2 _]]] Hk2]].
  split; [exact Fa2|]. split; [intros key; apply Hfinal|].
  split; [now rewrite Hk2|]. split.
  - rewrite Fd2. exact Fd.
  - rewrite Fn2. exact Fn.
Qed.

Lemma X14_switch_active_source_witness :
  reachable (fst (startDataSource constructed "simulated")) /\
  getDataSource
    (fst (setActiveDataSource
            (fst (addDataSource (fst (startDataSource constructed "simulated"))
                                "b" "pcap" None)) "b")) "simulated"
  = Some (mkSource simulated false) /\
  getDataSource
    (fst (setActiveDataSource
            (fst (addDataSource (fst (startDataSource constructed "simulated"))
                                "b" "pcap" None)) "b")) "b"
  = Some (mkSource pcap true).
Proof.
  assert (Hr0 : reachable (fst (startDataSource constructed "simulated")))
    by (exists [AddDataSource "simulated" "simulated" None;
                StartDataSource "simulated"]; reflexivity).
  assert (Hr : reachable
                 (fst (addDataSource (fst (startDataSource constructed "simulated"))
                                     "b" "pcap" None)))
    by (exists [AddDataSource "simulated" "simulated" None;
                StartDataSource "simulated"; AddDataSource "b" "pcap" None];
        reflexivity).
  destruct (X14_switch_active_source _ "b" Hr eq_refl ltac:(discriminate))
    as [_ [_ [Hget _]]].
  split; [exact Hr0|]. split.
  - rewrite Hget. reflexivity.
  - rewrite Hget. reflexivity.
Defined.

(** *** Switching in the runs the callers produce *)

Lemma setActiveDataSource_keys this id :
  Map_keys (dataSources (fst (setActiveDataSource this id)))
  = Map_keys (dataSources this).
Proof.
  unfold setActiveDataSource.
  destruct (negb (Map_has id (dataSources this))); [reflexivity|].
  cbv zeta. cbn [fst].
  match goal with |- context [with_activeSource ?t (Some id)] => set (this1 := t) end.
  assert (H1 : Map_keys (dataSources this1) = Map_keys (dataSources this)).
  { unfold this1. destruct (truthy (activeSource this)); [|reflexivity].
    destruct (activeSource this) as [current|]; [|reflexivity].
    destruct (Map_get current (dataSources this)) as [c|] eqn:Hc; [|reflexivity].
    destruct (isRunning c); [now apply stop_keys|reflexivity]. }
  cbn [dataSources with_activeSource].
  destruct (Map_get id (dataSources this1)) as [p|] eqn:Hp; [|exact H1].
  destruct (negb (isRunning p)); [|exact H1].
  rewrite start_keys; [exact H1|exact Hp].
Qed.

(** Only a registration adds a key to the registry. *)
Lemma step_keys this op key :
  In key (Map_keys (dataSources (fst (step this op)))) ->
  In key (Map_keys (dataSources this)) \/
  exists type config, op = AddDataSource key type config.
Proof.
  destruct op as [id type config|id|id|id|id|id|cb|cb|cb|cb|id d|id a|id st|id e];
    simpl step; cbn [fst]; intros H; try (left; exact H).
  - destruct (addDataSource this id type config) as [after [|]] eqn:Hadd.
    + destruct (addDataSource_success _ _ _ _ _ Hadd) as [p [_ [_ ->]]].
      cbn [fst] in H.
      assert (Hk : In key (Map_keys (dataSources this ++ [(id, p)])))
        by (destruct (Map_size _ =? 1)%nat; exact H).
      unfold Map_keys in Hk. rewrite map_app in Hk.
      apply in_app_or in Hk. destruct Hk as [Hk|[<-|[]]]; [now left|right; eauto].
    + destruct (addDataSource_failure _ _ _ _ _ Hadd) as [_ Hd].
      cbn [fst] in H. rewrite Hd in H. now left.
  - left. unfold removeDataSource in H.
    destruct (Map_get id (dataSources this)) as [p|] eqn:Hp; [|exact H].
    cbv zeta in H. cbn [fst] in H.
    assert (Hk : In key (Map_keys (Map_delete id
                   (dataSources (if isRunning p then stop this id p else this)))))
      by (destruct (isActive _ id); exact H).
    apply Map_keys_delete_incl in Hk.
    destruct (isRunning p); [|exact Hk]. now rewrite stop_keys in Hk.
  - left. now rewrite setActiveDataSource_keys in H.
  - left. unfold startDataSource in H.
    destruct (Map_get id (dataSources this)) as [p|] eqn:Hp; [|exact H].
    cbn [fst] in H. destruct (negb (isRunning p)); [|exact H].
    now rewrite start_keys in H.
  - left. unfold stopDataSource in H.
    destruct (Map_get id (dataSources this)) as [p|] eqn:Hp; [|exact H].
    cbn [fst] in H. destruct (isRunning p); [|exact H].
    now rewrite stop_keys in H.
  - left. unfold updateDataSourceConfig, updateConfiguration in H.
    destruct (Map_get id (dataSources this)) as [p|] eqn:Hp; [|exact H].
    cbn [fst] in H. destruct (running p) eqn:Hrun; [|exact H].
    rewrite start_keys with (p := mkSource (kind p) false) in H.
    + now rewrite stop_keys in H.
    + rewrite (proj2 (stop_spec this id p)), Hrun. apply Map_get_set_same.
  - left. unfold handleData in H. destruct (isActive this id); exact H.
  - left. unfold handleAnomaly in H. destruct (isActive this id); exact H.
Qed.

(** In a run that registers no source under the empty string, no source is
    registered under it and it is never the active source. *)
Lemma run_nonempty_keys ops : forall this,
  registers_nonempty_ids ops = true ->
  ~ In ""%string (Map_keys (dataSources this)) ->
  ~ In ""%string (Map_keys (dataSources (run this ops))).
Proof.
  induction ops as [|op ops IH]; intros this Hops Hthis; [exact Hthis|].
  change (run this (op :: ops)) with (run (fst (step this op)) ops).
  simpl in Hops. apply andb_true_iff in Hops. destruct Hops as [Hop Hops].
  apply IH; [exact Hops|]. intros Hin.
  destruct (step_keys _ _ _ Hin) as [Hk|[type [config ->]]]; [now apply Hthis|].
  discriminate.
Qed.

Lemma nonempty_active_source ops :
  registers_nonempty_ids ops = true ->
  activeSource (run blank ops) <> Some ""%string.
Proof.
  intros Hops Ha.
  apply (run_nonempty_keys ops blank Hops); [intros []|].
  assert (Hr : reachable (run blank ops)) by (eexists; reflexivity).
  destruct (reachable_invariant _ Hr) as [_ [Hact _]]. now apply Hact.
Qed.

(** The calls of the first half of a switch. *)
Lemma stopped_previous_calls this :
  activeSource this <> Some ""%string ->
  calls (if truthy (activeSource this) then
           match activeSource this with
           | Some current =>
               match Map_get current (dataSources this) with
               | Some currentActive =>
                   if isRunning currentActive
                   then stop this current currentActive else this
               | None => this
               end
           | None => this
           end
         else this)
  = calls this
    ++ match activeSource this with
       | Some previous =>
           match Map_get previous (dataSources this) with
           | Some q =>
               if running q
               then statusCalls this previous (stopStatuses (kind q)) else []
           | None => []
           end
       | None => []
       end.
Proof.
  intros Hne. destruct (activeSource this) as [current|]; simpl truthy.
  - destruct (String.eqb_spec current "") as [->|_]; [congruence|].
    simpl negb. cbv iota.
    destruct (Map_get current (dataSources this)) as [c|];
      [|now rewrite app_nil_r].
    unfold isRunning. destruct (running c) eqn:Hrun; [|now rewrite app_nil_r].
    now rewrite stop_calls, Hrun.
  - now rewrite app_nil_r.
Qed.

(** What a switch to a registered source leaves, when the active source is
    not registered under the empty string. *)
Lemma setActiveDataSource_spec this id :
  invariant this ->
  activeSource this <> Some ""%string ->
  Map_has id (dataSources this) = true ->
  snd (setActiveDataSource this id) = true /\
  activeSource (fst (setActiveDataSource this id)) = Some id /\
  (forall key,
      Map_get key (dataSources (fst (setActiveDataSource this id)))
      = switched this id key) /\
  calls (fst (setActiveDataSource this id)) = calls this ++ switchCalls this id.
Proof.
  intros Hi Hne Hhas.
  pose proof (stopped_previous this Hi Hne) as H1. cbv zeta in H1.
  pose proof (stopped_previous_calls this Hne) as Hc1.
  unfold setActiveDataSource. rewrite Hhas. simpl negb. cbv iota zeta.
  match type of H1 with frame this ?t /\ _ => set (this1 := t) in * end.
  destruct H1 as [Hf1 [Hk Hget]].
  destruct (Map_In_get id (dataSources this) (proj1 (Map_has_In id _) Hhas))
    as [p0 Hp0].
  pose proof (Hget id) as Hid. rewrite Hp0 in Hid.
  cbn [dataSources with_activeSource]. rewrite Hid. cbn [fst snd].
  split; [reflexivity|].
  set (p1 := mkSource (kind p0) (if isActive this id then false else running p0)).
  set (this2 := with_activeSource this1 (Some id)).
  assert (Hs2 : forall sts, statusCalls this2 id sts = statusCalls this id sts).
  { intros sts. unfold statusCalls, this2. cbn [statusCallbacks with_activeSource].
    destruct Hf1 as [_ [_ [_ [_ [_ [Hs _]]]]]]. now rewrite Hs. }
  assert (Hc2 : calls this2 = calls this ++
            match activeSource this with
            | Some previous =>
                match Map_get previous (dataSources this) with
                | Some q =>
                    if running q
                    then statusCalls this previous (stopStatuses (kind q)) else []
                | None => []
                end
            | None => []
            end) by exact Hc1.
  assert (Hsw : switchCalls this id
                = match activeSource this with
                  | Some previous =>
                      match Map_get previous (dataSources this) with
                      | Some q =>
                          if running q
                          then statusCalls this previous (stopStatuses (kind q))
                          else []
                      | None => []
                      end
                  | None => []
                  end
                  ++ (if running p1 then []
                      else statusCalls this id (startStatuses (kind p0)))).
  { unfold switchCalls. rewrite Hp0. f_equal. unfold p1. cbn [running].
    destruct (isActive this id), (running p0); reflexivity. }
  rewrite Hsw. clear Hsw Hc1.
  unfold isRunning. destruct (running p1) eqn:Hrun; cbn [negb].
  - split; [reflexivity|]. split; [|now rewrite Hc2, app_nil_r].
    intros key. unfold this2, switched. cbn [dataSources with_activeSource].
    rewrite Hget. destruct (String.eqb_spec key id) as [->|Hkey]; [|reflexivity].
    rewrite Hp0. unfold p1 in Hrun. cbn [running] in Hrun. now rewrite Hrun.
  - destruct (start_spec this2 id p1) as [[Fa _] Hd]. rewrite Hrun in Hd.
    split; [exact Fa|]. split.
    + intros key. rewrite Hd. unfold this2, switched.
      cbn [dataSources with_activeSource].
      destruct (String.eqb_spec key id) as [->|Hkey].
      * now rewrite Map_get_set_same, Hp0.
      * rewrite Map_get_set_other by congruence. apply Hget.
    + rewrite start_calls, Hrun, Hs2, Hc2, <- app_assoc. reflexivity.
Qed.

(** C7.  In every reachable state at most one entry of [getDataSources] is
    active.  In a run whose registrations all carry a non-empty id, which is
    what every caller of [addDataSource] passes, [setActiveDataSource(id)]
    with [id] registered resolves to [true], and afterwards the active source
    is exactly [id]: the entry of [id] is the one listed active; the producer
    under [id] runs; the producer that was active before, when it is another
    one, is stopped; every other producer is as it was; and the status
    subscribers have received the statuses of the [stop()] of the previously
    active producer if it was running, followed by those of the [start()] of
    the producer under [id] if it was not running at that point. *)
Theorem C7_one_active_source_and_switch :
  (forall this,
      reachable this ->
      (length (filter active (getDataSources this)) <= 1)%nat) /\
  (forall ops id,
      registers_nonempty_ids ops = true ->
      Map_has id (dataSources (run blank ops)) = true ->
      snd (setActiveDataSource (run blank ops) id) = true /\
      activeSource (fst (setActiveDataSource (run blank ops) id)) = Some id /\
      (forall entry,
          In entry (getDataSources (fst (setActiveDataSource (run blank ops) id))) ->
          active entry = String.eqb (entry_id entry) id) /\
      (exists p,
          getDataSource (fst (setActiveDataSource (run blank ops) id)) id = Some p /\
          running p = true) /\
      (forall previous q,
          activeSource (run blank ops) = Some previous ->
          previous <> id ->
          getDataSource (fst (setActiveDataSource (run blank ops) id)) previous
          = Some q ->
          running q = false) /\
      (forall key,
          getDataSource (fst (setActiveDataSource (run blank ops) id)) key
          = switched (run blank ops) id key) /\
      calls (fst (setActiveDataSource (run blank ops) id))
      = calls (run blank ops) ++ switchCalls (run blank ops) id).
Proof.
  split; [exact at_most_one_active|].
  intros ops id Hops Hhas.
  assert (Hr : reachable (run blank ops)) by (eexists; reflexivity).
  destruct (setActiveDataSource_spec (run blank ops) id
              (reachable_invariant _ Hr) (nonempty_active_source ops Hops) Hhas)
    as [Hok [Hactive [Hget Hcalls]]].
  destruct (Map_In_get id _ (proj1 (Map_has_In id _) Hhas)) as [p0 Hp0].
  split; [exact Hok|]. split; [exact Hactive|]. split; [|split; [|split; [|split]]].
  - intros entry Hin. unfold getDataSources in Hin. apply in_map_iff in Hin.
    destruct Hin as [[k v] [<- _]]. cbn [active entry_id fst].
    unfold isActive. now rewrite Hactive.
  - unfold getDataSource. rewrite Hget. unfold switched.
    rewrite Hp0, String.eqb_refl. eauto.
  - intros previous q Hprev Hneq. unfold getDataSource. rewrite Hget.
    unfold switched, isActive. rewrite Hprev.
    destruct (Map_get previous (dataSources (run blank ops))) as [q0|];
      [|discriminate].
    destruct (String.eqb_spec previous id) as [->|_]; [congruence|].
    rewrite String.eqb_refl. now intros [= <-].
  - exact Hget.
  - exact Hcalls.
Qed.

Lemma C7_one_active_source_and_switch_witness :
  reachable constructed /\
  (length (filter active (getDataSources constructed)) <= 1)%nat /\
  registers_nonempty_ids
    [AddDataSource "simulated" "simulated" None; OnStatus 3%nat;
     StartDataSource "simulated"; AddDataSource "b" "pcap" None] = true /\
  Map_has "b"
    (dataSources
       (run blank [AddDataSource "simulated" "simulated" None; OnStatus 3%nat;
                   StartDataSource "simulated"; AddDataSource "b" "pcap" None]))
  = true /\
  getDataSource
    (fst (setActiveDataSource
            (run blank [AddDataSource "simulated" "simulated" None; OnStatus 3%nat;
                        StartDataSource "simulated"; AddDataSource "b" "pcap" None])
            "b")) "simulated"
  = Some (mkSource simulated false) /\
  getDataSource
    (fst (setActiveDataSource
            (run blank [AddDataSource "simulated" "simulated" None; OnStatus 3%nat;
                        StartDataSource "simulated"; AddDataSource "b" "pcap" None])
            "b")) "b"
  = Some (mkSource pcap true) /\
  calls
    (fst (setActiveDataSource
            (run blank [AddDataSource "simulated" "simulated" None; OnStatus 3%nat;
                        StartDataSource "simulated"; AddDataSource "b" "pcap" None])
            "b"))
  = [StatusCall 3%nat "simulated" (mkStatus st_running None);
     StatusCall 3%nat "simulated" (mkStatus st_stopped None);
     StatusCall 3%nat "b"
       (mkStatus st_initializing (Some "Starting pcap capture...")) ;
     StatusCall 3%nat "b" (mkStatus st_running (Some "Pcap capture running"))]%string.
Proof.
  destruct (proj2 C7_one_active_source_and_switch
              [AddDataSource "simulated" "simulated" None; OnStatus 3%nat;
               StartDataSource "simulated"; AddDataSource "b" "pcap" None]
              "b"%string eq_refl eq_refl)
    as [_ [_ [_ [_ [_ [Hget Hcalls]]]]]].
  assert (Hr : reachable constructed)
    by (exists [AddDataSource "simulated" "simulated" None]; reflexivity).
  split; [exact Hr|].
  split; [exact (proj1 C7_one_active_source_and_switch constructed Hr)|].
  split; [reflexivity|]. split; [reflexivity|]. split; [|split].
  - rewrite Hget. reflexivity.
  - rewrite Hget. reflexivity.
  - rewrite Hcalls. reflexivity.
Defined.

(** The condition on the ids cannot be dropped.  [addDataSource] itself
    accepts the empty string, and in a state whose active source is
    registered under it the guard [if (this.activeSource)] takes the active
    source for absent: a switch to another source succeeds and starts it,
    while the producer that was active keeps running. *)
Remark empty_id_source_left_running :
  registers_nonempty_ids empty_id_run = false /\
  reachable (run blank empty_id_run) /\
  activeSource (run blank empty_id_run) = Some ""%string /\
  Map_get "" (dataSources (run blank empty_id_run)) = Some (mkSource pcap true) /\
  snd (setActiveDataSource (run blank empty_id_run) "simulated") = true /\
  activeSource (fst (setActiveDataSource (run blank empty_id_run) "simulated"))
  = Some "simulated"%string /\
  Map_get "simulated"
          (dataSources (fst (setActiveDataSource (run blank empty_id_run) "simulated")))
  = Some (mkSource simulated true) /\
  Map_get ""
          (dataSources (fst (setActiveDataSource (run blank empty_id_run) "simulated")))
  = Some (mkSource pcap true).
Proof.
  split; [reflexivity|].
  split; [now exists empty_id_run|]. repeat split; reflexivity.
Qed.

(** *** The catalogue and the factory *)

(** X20.  The factory accepts exactly the types that the catalogue of
    [getAvailableDataSources] lists, and for each listed type it builds a
    stopped producer whose name is the one the catalogue shows. *)
Theorem X20_catalogue_matches_factory :
  (forall type,
      createDataSource type <> None <->
      In type (map available_type getAvailableDataSources)) /\
  (forall entry,
      In entry getAvailableDataSources ->
      exists p,
        createDataSource (available_type entry) = Some p /\
        running p = false /\
        sourceName (kind p) = available_name entry).
Proof.
  split.
  - intros type. unfold createDataSource. simpl.
    destruct (String.eqb_spec type "pcap") as [->|H1]; [split; [auto|discriminate]|].
    destruct (String.eqb_spec type "snmp") as [->|H2];
      [split; [auto|discriminate]|].
    destruct (String.eqb_spec type "netflow") as [->|H3];
      [split; [auto 6|discriminate]|].
    destruct (String.eqb_spec type "syslog") as [->|H4];
      [split; [auto 6|discriminate]|].
    destruct (String.eqb_spec type "simulated") as [->|H5];
      [split; [auto 7|discriminate]|].
    split; [congruence|]. intros [H|[H|[H|[H|[H|[]]]]]]; congruence.
  - intros entry. simpl.
    intros [<-|[<-|[<-|[<-|[<-|[]]]]]]; eexists; repeat split; reflexivity.
Qed.

Lemma X20_catalogue_matches_factory_witness :
  In (mkAvailable "netflow" "NetFlow/IPFIX"
        "Process NetFlow or IPFIX data from network devices")
     getAvailableDataSources /\
  createDataSource "netflow" <> None /\
  ~ In "kafka"%string (map available_type getAvailableDataSources).
Proof.
  split; [simpl; auto|]. split.
  - apply (proj1 X20_catalogue_matches_factory). simpl. auto.
  - intros H. apply (proj1 X20_catalogue_matches_factory) in H. now apply H.
Defined.

(** *** The histories along a run *)

Lemma setActiveDataSource_histories this id :
  dataHistory (fst (setActiveDataSource this id)) = dataHistory this /\
  anomalyHistory (fst (setActiveDataSource this id)) = anomalyHistory this.
Proof.
  unfold setActiveDataSource.
  destruct (negb (Map_has id (dataSources this))); [split; reflexivity|].
  cbv zeta. cbn [fst].
  match goal with |- context [with_activeSource ?t (Some id)] => set (this1 := t) end.
  assert (H1 : frame this this1).
  { unfold this1. destruct (truthy (activeSource this)); [|apply frame_refl].
    destruct (activeSource this) as [current|]; [|apply frame_refl].
    destruct (Map_get current (dataSources this)) as [c|]; [|apply frame_refl].
    destruct (isRunning c); [apply stop_spec|apply frame_refl]. }
  destruct H1 as [_ [Fd [Fn _]]].
  cbn [dataSources with_activeSource].
  destruct (Map_get id (dataSources this1)) as [p|]; [|now split].
  destruct (negb (isRunning p)); [|now split].
  destruct (start_spec (with_activeSource this1 (Some id)) id p)
    as [[_ [Fd2 [Fn2 _]]] _].
  rewrite Fd2, Fn2. now split.
Qed.

Lemma step_histories this op :
  dataHistory (fst (step this op))
  = match op with
    | EmitData sourceId data =>
        if isActive this sourceId
        then pushLimited maxDataHistorySize (dataHistory this) data
        else dataHistory this
    | _ => dataHistory this
    end /\
  anomalyHistory (fst (step this op))
  = match op with
    | EmitAnomaly sourceId anomaly =>
        if isActive this sourceId
        then pushLimited maxAnomalyHistorySize (anomalyHistory this) anomaly
        else anomalyHistory this
    | _ => anomalyHistory this
    end.
Proof.
  destruct op as [id type config|id|id|id|id|id|cb|cb|cb|cb|id d|id a|id st|id e];
    simpl step; cbn [fst]; try (split; reflexivity).
  - destruct (addDataSource this id type config) as [after [|]] eqn:Hadd.
    + destruct (addDataSource_success _ _ _ _ _ Hadd) as [p [_ [_ ->]]].
      cbn [fst]. destruct (Map_size _ =? 1)%nat; split; reflexivity.
    + destruct (addDataSource_failure _ _ _ _ _ Hadd) as [[_ [Fd [Fn _]]] _].
      cbn [fst]. now split.
  - unfold removeDataSource.
    destruct (Map_get id (dataSources this)) as [p|]; [|split; reflexivity].
    cbv zeta. cbn [fst].
    set (this1 := if isRunning p then stop this id p else this).
    assert (H1 : frame this this1).
    { unfold this1. destruct (isRunning p); [apply stop_spec|apply frame_refl]. }
    destruct H1 as [_ [Fd [Fn _]]].
    destruct (isActive _ id); simpl; now split.
  - apply setActiveDataSource_histories.
  - unfold startDataSource.
    destruct (Map_get id (dataSources this)) as [p|]; [|split; reflexivity].
    cbn [fst]. destruct (negb (isRunning p)); [|split; reflexivity].
    destruct (start_spec this id p) as [[_ [Fd [Fn _]]] _]. now split.
  - unfold stopDataSource.
    destruct (Map_get id (dataSources this)) as [p|]; [|split; reflexivity].
    cbn [fst]. destruct (isRunning p); [|split; reflexivity].
    destruct (stop_spec this id p) as [[_ [Fd [Fn _]]] _]. now split.
  - unfold updateDataSourceConfig.
    destruct (Map_get id (dataSources this)) as [p|]; [|split; reflexivity].
    cbn [fst]. unfold updateConfiguration.
    destruct (running p); [|split; reflexivity].
    destruct (stop_spec this id p) as [[_ [Fd [Fn _]]] _].
    destruct (start_spec (stop this id p) id (mkSource (kind p) false))
      as [[_ [Fd2 [Fn2 _]]] _].
    rewrite Fd2, Fn2. now split.
  - unfold handleData. destruct (isActive this id); split; reflexivity.
  - unfold handleAnomaly. destruct (isActive this id); split; reflexivity.
Qed.

Lemma run_histories ops : forall this,
  dataHistory (run this ops)
  = fold_left (pushLimited maxDataHistorySize) (acceptedData this ops)
              (dataHistory this) /\
  anomalyHistory (run this ops)
  = fold_left (pushLimited maxAnomalyHistorySize) (acceptedAnomalies this ops)
              (anomalyHistory this).
Proof.
  induction ops as [|op ops IH]; intros this; [split; reflexivity|].
  change (run this (op :: ops)) with (run (fst (step this op)) ops).
  destruct (IH (fst (step this op))) as [IHd IHa].
  destruct (step_histories this op) as [Hd Ha].
  rewrite IHd, IHa, Hd, Ha. cbn [acceptedData acceptedAnomalies].
  rewrite !fold_left_app. split.
  - destruct op; try reflexivity. destruct (isActive this sourceId); reflexivity.
  - destruct op; try reflexivity. destruct (isActive this sourceId); reflexivity.
Qed.

(** X15.  Along any run from a new data manager the sample history is the
    last 3600 of the samples that were delivered under the id active at
    their delivery, in the order of delivery, and the anomaly history the
    last 1000 of the anomalies so delivered.  Nothing else writes to the
    histories: registering, removing, switching, starting or stopping a
    source never clears or reorders them. *)
Theorem X15_histories_hold_accepted_events (ops : list Op) :
  dataHistory (run blank ops) = JS.slice_last 3600 (acceptedData blank ops) /\
  anomalyHistory (run blank ops) = JS.slice_last 1000 (acceptedAnomalies blank ops).
Proof.
  destruct (run_histories ops blank) as [Hd Ha]. rewrite Hd, Ha. split.
  - apply pushLimited_sequence. unfold maxDataHistorySize. lia.
  - apply pushLimited_sequence. unfold maxAnomalyHistorySize. lia.
Qed.

End CoordinatorFacts.

(** ** Facts about the hook *)

Module HookFacts.
Import Coordinator Hook CoordinatorFacts.

Lemma getDataSources_ids this :
  map entry_id (getDataSources this) = Map_keys (dataSources this).
Proof.
  unfold getDataSources, Map_keys. rewrite map_map. reflexivity.
Qed.

Lemma active_filter_head this a :
  activeSource this = Some a ->
  In a (Map_keys (dataSources this)) ->
  exists first rest,
    filter active (getDataSources this) = first :: rest /\ entry_id first = a.
Proof.
  intros Ha. unfold getDataSources, Map_keys, isActive. rewrite Ha.
  induction (dataSources this) as [|[k v] m IH]; simpl; [tauto|].
  destruct (String.eqb_spec k a) as [->|Hne].
  - intros _. eexists. eexists. split; reflexivity.
  - intros [H|H]; [contradiction|now apply IH].
Qed.

Lemma started_active this a :
  activeSource this = Some a ->
  In a (Map_keys (dataSources this)) ->
  exists p,
    activeSource (fst (startDataSource this a)) = Some a /\
    Map_get a (dataSources (fst (startDataSource this a))) = Some p /\
    running p = true /\
    Map_keys (dataSources (fst (startDataSource this a)))
    = Map_keys (dataSources this).
Proof.
  intros Ha Hin. destruct (Map_In_get a _ Hin) as [q Hq].
  unfold startDataSource. rewrite Hq. cbn [fst]. unfold isRunning.
  destruct (running q) eqn:Hrun; cbn [negb].
  - exists q. auto.
  - destruct (start_spec this a q) as [[Fa _] Hd]. rewrite Hrun in Hd.
    exists (mkSource (kind q) true). split; [congruence|].
    split; [rewrite Hd; apply Map_get_set_same|]. split; [reflexivity|].
    now apply start_keys.
Qed.

(** X16.  After [connect], whatever was asked for, the data manager has an
    active source and its producer runs.  Without a source id (or with the
    empty string) the active source is the first of the registry; with the
    id of a registered source it is that source. *)
Theorem X16_connect_leaves_active_source_running this sourceId :
  reachable this ->
  exists a p,
    activeSource (connect this sourceId) = Some a /\
    getDataSource (connect this sourceId) a = Some p /\
    running p = true /\
    (truthy sourceId = false ->
     hd_error (Map_keys (dataSources (connect this sourceId))) = Some a) /\
    (forall given,
        sourceId = Some given -> given <> ""%string ->
        Map_has given (dataSources this) = true -> a = given).
Proof.
  intros Hr. unfold connect, getDataSource. cbv zeta.
  set (this1 := if (length (getDataSources this) =? 0)%nat
                then fst (addDataSource this "simulated" "simulated" None)
                else this).
  assert (H1 : reachable this1 /\ dataSources this1 <> [] /\
               (dataSources this <> [] -> this1 = this)).
  { unfold this1, getDataSources. rewrite length_map.
    destruct (dataSources this) as [|entry rest] eqn:Hds.
    - cbn [length Nat.eqb]. split; [|split].
      + apply (reachable_step this (AddDataSource "simulated" "simulated" None) Hr).
      + unfold addDataSource, addDataSource_begin. rewrite Hds. simpl.
        rewrite !Hds. simpl. discriminate.
      + intros H. now contradiction H.
    - cbn [length Nat.eqb]. split; [exact Hr|]. split; [now rewrite Hds|auto]. }
  destruct H1 as [Hr1 [Hne1 Hsame]].
  match goal with |- context [filter active (getDataSources ?t)] =>
    set (this2 := t) end.
  assert (H2 : reachable this2 /\
               Map_keys (dataSources this2) = Map_keys (dataSources this1)).
  { unfold this2. destruct (truthy sourceId).
    - destruct sourceId as [given|]; [|now split].
      split; [apply (reachable_step this1 (SetActiveDataSource given) Hr1)|].
      apply setActiveDataSource_keys.
    - destruct (hd_error (getDataSources this1)) as [firstSource|]; [|now split].
      split; [apply (reachable_step this1 (SetActiveDataSource _) Hr1)|].
      apply setActiveDataSource_keys. }
  destruct H2 as [Hr2 Hk2].
  destruct (reachable_invariant this2 Hr2) as [_ [Hact2 _]].
  assert (Hne2 : dataSources this2 <> []).
  { intros H. rewrite H in Hk2. destruct (dataSources this1); [congruence|].
    discriminate Hk2. }
  pose proof (registered_source_is_active this2 Hr2 Hne2) as Hsome.
  destruct (activeSource this2) as [a|] eqn:Ha; [|congruence].
  pose proof (Hact2 a eq_refl) as Hin.
  destruct (active_filter_head this2 a Ha Hin) as [first [rest [Hfilter Hfirst]]].
  rewrite Hfilter, Hfirst.
  destruct (started_active this2 a Ha Hin) as [p [Hfa [Hfg [Hfr Hfk]]]].
  exists a, p. split; [exact Hfa|]. split; [exact Hfg|]. split; [exact Hfr|].
  pose proof (reachable_invariant this1 Hr1) as Hi1.
  split.
  - intros Hfalsy. rewrite Hfk, Hk2.
    unfold this2 in Ha. rewrite Hfalsy in Ha.
    rewrite <- (getDataSources_ids this1).
    destruct (getDataSources this1) as [|firstSource others] eqn:Hgs.
    + exfalso. apply (f_equal (map entry_id)) in Hgs.
      rewrite getDataSources_ids in Hgs. destruct (dataSources this1); [congruence|].
      discriminate Hgs.
    + cbn [hd_error map] in *.
      assert (Hhas : Map_has (entry_id firstSource) (dataSources this1) = true).
      { apply Map_has_In. rewrite <- getDataSources_ids, Hgs. now left. }
      destruct (setActiveDataSource this1 (entry_id firstSource))
        as [after ok] eqn:Hset.
      assert (ok = true).
      { unfold setActiveDataSource in Hset. rewrite Hhas in Hset.
        simpl negb in Hset. cbv iota in Hset. now injection Hset as _ <-. }
      subst ok. destruct (setActiveDataSource_success _ _ _ Hi1 Hset) as [Hnew _].
      cbn [fst] in Ha. congruence.
  - intros given -> Hgiven Hhas.
    assert (Hnonempty : dataSources this <> []).
    { intros H. rewrite H in Hhas. discriminate Hhas. }
    unfold this2 in Ha. rewrite (Hsame Hnonempty) in *. simpl truthy in Ha.
    destruct (String.eqb_spec given "") as [->|_]; [congruence|].
    simpl negb in Ha. cbv iota in Ha.
    destruct (setActiveDataSource this given) as [after ok] eqn:Hset.
    assert (ok = true).
    { unfold setActiveDataSource in Hset. rewrite Hhas in Hset.
      simpl negb in Hset. cbv iota in Hset. now injection Hset as _ <-. }
    subst ok. destruct (setActiveDataSource_success _ _ _ Hi1 Hset) as [Hnew _].
    cbn [fst] in Ha. congruence.
Qed.

Lemma X16_connect_leaves_active_source_running_witness :
  reachable blank /\
  activeSource (connect blank None) = Some "simulated"%string /\
  getDataSource (connect blank None) "simulated" = Some (mkSource simulated true).
Proof.
  assert (Hr : reachable blank) by (exists []; reflexivity).
  destruct (X16_connect_leaves_active_source_running blank None Hr)
    as [a [p [Ha [Hg [Hrun _]]]]].
  split; [exact Hr|]. split; reflexivity.
Defined.

(** *** Disconnecting *)

(** One turn of the loop of [disconnect]. *)
Lemma disconnect_turn this id :
  let after :=
    match Map_get id (dataSources this) with
    | Some producer =>
        if isRunning producer then fst (stopDataSource this id) else this
    | None => this
    end in
  frame this after /\
  Map_keys (dataSources after) = Map_keys (dataSources this) /\
  (forall q, Map_get id (dataSources after) = Some q -> running q = false) /\
  (forall key, key <> id ->
     Map_get key (dataSources after) = Map_get key (dataSources this)).
Proof.
  cbv zeta. destruct (Map_get id (dataSources this)) as [p|] eqn:Hg.
  - unfold isRunning, stopDataSource. rewrite Hg. unfold isRunning.
    destruct (running p) eqn:Hrun; cbn [fst].
    + destruct (stop_spec this id p) as [Hf Hd]. rewrite Hrun in Hd.
      split; [exact Hf|]. split; [now apply stop_keys|]. split.
      * intros q. rewrite Hd, Map_get_set_same. now intros [= <-].
      * intros key Hne. rewrite Hd. apply Map_get_set_other. congruence.
    + split; [apply frame_refl|]. split; [reflexivity|]. split; [|auto].
      intros q. rewrite Hg. now intros [= <-].
  - split; [apply frame_refl|]. split; [reflexivity|]. split; [|auto].
    intros q. rewrite Hg. discriminate.
Qed.

Lemma disconnect_loop entries : forall this,
  let after :=
    fold_left
      (fun this' source =>
         match Map_get (entry_id source) (dataSources this') with
         | Some producer =>
             if isRunning producer
             then fst (stopDataSource this' (entry_id source))
             else this'
         | None => this'
         end)
      entries this in
  frame this after /\
  Map_keys (dataSources after) = Map_keys (dataSources this) /\
  forall key q,
    Map_get key (dataSources after) = Some q ->
    In key (map entry_id entries) \/
    (forall q0, Map_get key (dataSources this) = Some q0 -> running q0 = false) ->
    running q = false.
Proof.
  induction entries as [|entry entries IH]; intros this; cbv zeta.
  - cbn [fold_left map]. split; [apply frame_refl|]. split; [reflexivity|].
    intros key q Hq [[]|H]. now apply H.
  - cbn [fold_left map].
    destruct (disconnect_turn this (entry_id entry)) as [Hf [Hk [Hstopped Hother]]].
    cbv zeta in Hf, Hk, Hstopped, Hother.
    match goal with |- context [fold_left _ entries ?t] => set (this1 := t) in * end.
    destruct (IH this1) as [Hf' [Hk' Hall]]. cbv zeta in Hf', Hk', Hall.
    split; [eapply frame_trans; eauto|]. split; [congruence|].
    intros key q Hq Hcase. apply (Hall key q Hq).
    destruct (String.eqb_spec key (entry_id entry)) as [->|Hne].
    + right. exact Hstopped.
    + destruct Hcase as [[Heq|Hin]|Hwas]; [congruence|now left|].
      right. intros q0. rewrite Hother by exact Hne. apply Hwas.
Qed.

(** X17.  After [disconnect] no registered producer runs, whichever of them
    ran before, active or not; the registry keeps its order, and the active
    source and both histories are as they were. *)
Theorem X17_disconnect_stops_every_producer this :
  (forall key p, getDataSource (disconnect this) key = Some p -> running p = false) /\
  Map_keys (dataSources (disconnect this)) = Map_keys (dataSources this) /\
  activeSource (disconnect this) = activeSource this /\
  dataHistory (disconnect this) = dataHistory this /\
  anomalyHistory (disconnect this) = anomalyHistory this.
Proof.
  destruct (disconnect_loop (getDataSources this) this) as [Hf [Hk Hall]].
  cbv zeta in Hf, Hk, Hall. fold (disconnect this) in Hf, Hk, Hall.
  destruct Hf as [Fa [Fd [Fn _]]].
  split; [|repeat split; assumption].
  intros key p Hg. apply (Hall key p Hg). left.
  rewrite getDataSources_ids, <- Hk. eapply Map_get_In, Hg.
Qed.

Lemma X17_disconnect_stops_every_producer_witness :
  getDataSource (run blank (empty_id_run ++ [SetActiveDataSource "simulated"]))
                "simulated" = Some (mkSource simulated true) /\
  getDataSource (run blank (empty_id_run ++ [SetActiveDataSource "simulated"]))
                "" = Some (mkSource pcap true) /\
  getDataSource
    (disconnect (run blank (empty_id_run ++ [SetActiveDataSource "simulated"])))
    "simulated" = Some (mkSource simulated false) /\
  running (mkSource pcap false) = false.
Proof.
  split; [reflexivity|]. split; [reflexivity|]. split; [reflexivity|].
  apply (proj1 (X17_disconnect_stops_every_producer
                  (run blank (empty_id_run ++ [SetActiveDataSource "simulated"])))
               ""%string).
  reflexivity.
Defined.

End HookFacts.

(** ** Facts about the HTTP handlers *)

Module RoutesFacts.
Import Coordinator Routes CoordinatorFacts.

Lemma nth_error_last {A : Type} (l : list A) (x : A) :
  nth_error (l ++ [x]) (length (l ++ [x]) - 1) = Some x.
Proof.
  rewrite length_app. simpl length.
  replace (length l + 1 - 1)%nat with (length l) by lia.
  rewrite nth_error_app2 by lia. now rewrite Nat.sub_diag.
Qed.

Lemma slice_last_slice_last {A : Type} (n m : nat) (l : list A) :
  (n <= m)%nat -> JS.slice_last n (JS.slice_last m l) = JS.slice_last n l.
Proof.
  intros Hnm. unfold JS.slice_last. rewrite length_skipn, skipn_skipn.
  f_equal. lia.
Qed.

(** X18.  The answer of [GET /api/network-data].  [history] holds the
    newest samples of the data manager's sample history in their order:
    exactly 60 of them, or all when there are fewer.  [current] is the newest
    sample, and it is [null] exactly when the history is empty.  [anomalies]
    is the whole anomaly history, at most 1000 events in a reachable state.
    After a run of the data manager the answer therefore shows the last 60
    samples and the last 1000 anomalies delivered under the id that was
    active at their delivery. *)
Theorem X18_network_data_view dataManager :
  length (history (GET dataManager)) = Nat.min 60 (length (dataHistory dataManager)) /\
  (exists older, dataHistory dataManager = older ++ history (GET dataManager)) /\
  (dataHistory dataManager = [] ->
   current (GET dataManager) = None /\ history (GET dataManager) = []) /\
  (forall earlier newest,
      dataHistory dataManager = earlier ++ [newest] ->
      current (GET dataManager) = Some newest /\
      exists shown, history (GET dataManager) = shown ++ [newest]) /\
  anomalies (GET dataManager) = anomalyHistory dataManager /\
  (reachable dataManager ->
   (length (anomalies (GET dataManager)) <= 1000)%nat) /\
  (forall ops,
      dataManager = run blank ops ->
      history (GET dataManager) = JS.slice_last 60 (acceptedData blank ops) /\
      anomalies (GET dataManager) = JS.slice_last 1000 (acceptedAnomalies blank ops)).
Proof.
  unfold GET. cbn [current history anomalies].
  split; [|split; [|split; [|split; [|split; [|split]]]]].
  - unfold JS.slice_last. rewrite length_skipn. lia.
  - exists (firstn (length (dataHistory dataManager) - 60) (dataHistory dataManager)).
    unfold JS.slice_last. now rewrite firstn_skipn.
  - intros ->. split; reflexivity.
  - intros earlier newest ->. split.
    + rewrite nth_error_last.
      destruct (Nat.ltb_spec 0 (length (earlier ++ [newest]))) as [_|H];
        [reflexivity|].
      rewrite length_app in H. simpl in H. lia.
    + rewrite DetectorFacts.slice_last_snoc by lia. eauto.
  - reflexivity.
  - intros Hr. destruct (reachable_invariant _ Hr) as [_ [_ [_ Ha]]]. exact Ha.
  - intros ops ->. destruct (run_histories ops blank) as [Hd Ha].
    rewrite Hd, Ha. cbn [dataHistory anomalyHistory blank].
    rewrite !pushLimited_sequence
      by (unfold maxDataHistorySize, maxAnomalyHistorySize; lia).
    split; [|reflexivity].
    apply slice_last_slice_last. unfold maxDataHistorySize. lia.
Qed.

Lemma X18_network_data_view_witness :
  dataHistory (handleData subscribed "simulated" point) = [] ++ [point] /\
  current (GET (handleData subscribed "simulated" point)) = Some point /\
  reachable (handleData subscribed "simulated" point) /\
  (length (anomalies (GET (handleData subscribed "simulated" point))) <= 1000)%nat /\
  history (GET (handleData subscribed "simulated" point)) = [point] /\
  anomalies (GET (handleData subscribed "simulated" point)) = [].
Proof.
  assert (Hh : dataHistory (handleData subscribed "simulated" point) = [] ++ [point])
    by reflexivity.
  assert (Hr : reachable (handleData subscribed "simulated" point)).
  { exists [AddDataSource "simulated" "simulated" None;
            OnData 1%nat; OnAnomaly 2%nat; OnStatus 3%nat; OnError 4%nat;
            EmitData "simulated" point]. reflexivity. }
  destruct (X18_network_data_view (handleData subscribed "simulated" point))
    as [_ [_ [_ [Hnew [_ [Hbound Hrun]]]]]].
  destruct (Hrun [AddDataSource "simulated" "simulated" None;
                  OnData 1%nat; OnAnomaly 2%nat; OnStatus 3%nat; OnError 4%nat;
                  EmitData "simulated" point] eq_refl) as [Hshown Hanomalies].
  split; [exact Hh|]. split; [exact (proj1 (Hnew _ _ Hh))|].
  split; [exact Hr|]. split; [exact (Hbound Hr)|].
  split; [rewrite Hshown; reflexivity|rewrite Hanomalies; reflexivity].
Defined.

(** X19.  [DELETE /api/data-sources].  Without an id, or with the empty
    string, the answer is 400 and nothing changes, so a source registered
    under the empty string cannot be removed through this route; an id that
    is not registered gives 500 and changes nothing; a registered id gives
    success, after which the id is no longer registered. *)
Theorem X19_delete_route dataManager :
  reachable dataManager ->
  (forall id,
      truthy id = false ->
      DELETE dataManager id = (dataManager, Failure 400 "Missing data source ID")) /\
  (forall id,
      id <> ""%string -> getDataSource dataManager id = None ->
      DELETE dataManager (Some id)
      = (dataManager, Failure 500 "Failed to remove data source")) /\
  (forall id p,
      id <> ""%string -> getDataSource dataManager id = Some p ->
      snd (DELETE dataManager (Some id)) = Ok /\
      getDataSource (fst (DELETE dataManager (Some id))) id = None).
Proof.
  intros Hr. split; [|split].
  - intros id Hfalsy. unfold DELETE. now rewrite Hfalsy.
  - intros id Hne Hnone. unfold DELETE. simpl truthy.
    destruct (String.eqb_spec id "") as [->|_]; [congruence|]. simpl negb. cbv iota.
    unfold getDataSource in Hnone. unfold removeDataSource. now rewrite Hnone.
  - intros id p Hne Hsome. unfold DELETE. simpl truthy.
    destruct (String.eqb_spec id "") as [->|_]; [congruence|]. simpl negb. cbv iota.
    pose proof (removeDataSource_spec dataManager id Hr) as Hremove.
    rewrite Hsome in Hremove. destruct Hremove as [Hok [Hgone _]].
    destruct (removeDataSource dataManager id) as [after result].
    cbn [fst snd] in *. subst result. split; [reflexivity|exact Hgone].
Qed.

Lemma X19_delete_route_witness :
  reachable (run blank empty_id_run) /\
  DELETE (run blank empty_id_run) (Some ""%string)
  = (run blank empty_id_run, Failure 400 "Missing data source ID") /\
  snd (DELETE (run blank empty_id_run) (Some "simulated"%string)) = Ok.
Proof.
  assert (Hr : reachable (run blank empty_id_run)) by (eexists; reflexivity).
  destruct (X19_delete_route _ Hr) as [Hmissing [_ Hknown]].
  split; [exact Hr|]. split; [apply Hmissing; reflexivity|].
  apply (Hknown "simulated"%string (mkSource simulated false));
    [discriminate|reflexivity].
Defined.

End RoutesFacts.

(** ** Facts about the simulated samples *)

Module SimulateFacts.
Import Simulate.

(** Rounding stays inside a band whose ends are multiples of the step. *)
Lemma toFixed_band (decimals : nat) (a b : Z) (x : R) :
  (0 <= a)%Z ->
  IZR a / 10 ^ decimals <= x <= IZR b / 10 ^ decimals ->
  IZR a / 10 ^ decimals <= toFixed decimals x <= IZR b / 10 ^ decimals.
Proof.
  intros Ha [Hlo Hhi].
  assert (Hs : 0 < 10 ^ decimals) by (apply pow_lt; lra).
  set (s := 10 ^ decimals) in *.
  assert (Ha' : 0 <= IZR a) by (apply IZR_le in Ha; exact Ha).
  assert (Hx : 0 <= x).
  { apply Rle_trans with (IZR a / s); [|exact Hlo].
    apply Rmult_le_pos; [exact Ha'|]. left. now apply Rinv_0_lt_compat. }
  assert (Hlo' : IZR a <= x * s).
  { apply (Rmult_le_compat_r s) in Hlo; [|lra].
    unfold Rdiv in Hlo. rewrite Rmult_assoc, Rinv_l in Hlo by lra. lra. }
  assert (Hhi' : x * s <= IZR b).
  { apply (Rmult_le_compat_r s) in Hhi; [|lra].
    unfold Rdiv in Hhi. rewrite Rmult_assoc, Rinv_l in Hhi by lra. lra. }
  unfold toFixed. fold s. destruct (Rlt_dec x 0) as [Hneg|_]; [lra|].
  pose proof (Zfloor_bound (x * s + 1 / 2)) as [Hf1 Hf2].
  assert (Hza : (a <= Zfloor (x * s + 1 / 2))%Z) by (apply Zfloor_lub; lra).
  assert (Hzb : (Zfloor (x * s + 1 / 2) <= b)%Z).
  { assert (H : (Zfloor (x * s + 1 / 2) < b + 1)%Z);
      [apply lt_IZR; rewrite plus_IZR; lra|lia]. }
  apply IZR_le in Hza, Hzb.
  split; apply Rmult_le_compat_r; try exact Hza; try exact Hzb;
    left; now apply Rinv_0_lt_compat.
Qed.

Lemma generateValue_band (base variance : R) (decimals : nat) (a b : Z) (random : R) :
  (0 <= a)%Z -> 0 <= base -> 0 <= variance ->
  IZR a / 10 ^ decimals = base * (1 - variance) ->
  IZR b / 10 ^ decimals = base * (1 + variance) ->
  0 <= random < 1 ->
  IZR a / 10 ^ decimals <= generateValue base variance decimals random
                        <= IZR b / 10 ^ decimals.
Proof.
  intros Ha Hbase Hvar Hlo Hhi Hr. unfold generateValue.
  apply toFixed_band; [exact Ha|]. rewrite Hlo, Hhi. split.
  - apply Rmult_le_compat_l; [exact Hbase|]. nra.
  - apply Rmult_le_compat_l; [exact Hbase|]. nra.
Qed.

(** X21.  The samples of [GET /api/simulate], for draws that
    [Math.random()] can give.  Without an injected anomaly every metric lies
    in the band base * (1 +- variance): 400..600 packets per second, 40..60
    Mbps, 70..130 connections and an error rate of 0.5..1.5.  With one, no
    metric falls below its band or exceeds five times its upper end, so the
    error rate stays at or below 7.5 and the cap at 100 never applies. *)
Theorem X21_simulated_sample_bands (timestamp : R) (r : Randoms) :
  drawn r ->
  (snd (GET timestamp r) = false ->
   400 <= Detector.packetsPerSecond (fst (GET timestamp r)) <= 600 /\
   40 <= Detector.bandwidth (fst (GET timestamp r)) <= 60 /\
   70 <= Detector.activeConnections (fst (GET timestamp r)) <= 130 /\
   1 / 2 <= Detector.errorRate (fst (GET timestamp r)) <= 3 / 2) /\
  (400 <= Detector.packetsPerSecond (fst (GET timestamp r)) <= 3000 /\
   40 <= Detector.bandwidth (fst (GET timestamp r)) <= 300 /\
   70 <= Detector.activeConnections (fst (GET timestamp r)) <= 650 /\
   1 / 2 <= Detector.errorRate (fst (GET timestamp r)) <= 15 / 2) /\
  (snd (GET timestamp r) = true <-> r_inject r < 5 / 100).
Proof.
  intros [Hp [Hb [Hc [He [Hi [Hm Hf]]]]]].
  pose proof (generateValue_band BASE_PACKETS_PER_SECOND PACKETS_VARIANCE 0
                400 600 (r_packets r)) as Bp.
  pose proof (generateValue_band BASE_BANDWIDTH BANDWIDTH_VARIANCE 0
                40 60 (r_bandwidth r)) as Bb.
  pose proof (generateValue_band BASE_ACTIVE_CONNECTIONS CONNECTIONS_VARIANCE 0
                70 130 (r_connections r)) as Bc.
  pose proof (generateValue_band BASE_ERROR_RATE ERROR_RATE_VARIANCE 2
                50 150 (r_errorRate r)) as Be.
  unfold BASE_PACKETS_PER_SECOND, PACKETS_VARIANCE, BASE_BANDWIDTH,
    BANDWIDTH_VARIANCE, BASE_ACTIVE_CONNECTIONS, CONNECTIONS_VARIANCE,
    BASE_ERROR_RATE, ERROR_RATE_VARIANCE in *.
  specialize (Bp ltac:(lia) ltac:(lra) ltac:(lra) ltac:(simpl; lra)
                 ltac:(simpl; lra) Hp).
  specialize (Bb ltac:(lia) ltac:(lra) ltac:(lra) ltac:(simpl; lra)
                 ltac:(simpl; lra) Hb).
  specialize (Bc ltac:(lia) ltac:(lra) ltac:(lra) ltac:(simpl; lra)
                 ltac:(simpl; lra) Hc).
  specialize (Be ltac:(lia) ltac:(lra) ltac:(lra) ltac:(simpl; lra)
                 ltac:(simpl; lra) He).
  simpl pow in Bp, Bb, Bc, Be.
  unfold GET, ANOMALY_PROBABILITY, BASE_PACKETS_PER_SECOND, PACKETS_VARIANCE,
    BASE_BANDWIDTH, BANDWIDTH_VARIANCE, BASE_ACTIVE_CONNECTIONS,
    CONNECTIONS_VARIANCE, BASE_ERROR_RATE, ERROR_RATE_VARIANCE.
  cbv zeta.
  set (vp := generateValue 500 (2 / 10) 0 (r_packets r)) in *.
  set (vb := generateValue 50 (2 / 10) 0 (r_bandwidth r)) in *.
  set (vc := generateValue 100 (3 / 10) 0 (r_connections r)) in *.
  set (ve := generateValue 1 (5 / 10) 2 (r_errorRate r)) in *.
  destruct (Rlt_dec (r_inject r) (5 / 100)) as [Hinj|Hinj].
  - split; [discriminate|]. split; [|split; [auto|reflexivity]].
    set (f := 2 + r_factor r * 3).
    assert (Hfac : 2 <= f < 5) by (unfold f; lra).
    destruct (Zfloor (r_metric r * 4)) as [|[[|[]|]|[]|]|]; cbn -[Rlt_dec];
      try (repeat split; nra).
    destruct (Rlt_dec 100 (ve * f)) as [Hcap|_]; cbn; repeat split; nra.
  - split; [intros _; cbn; repeat split; lra|].
    split; [cbn; repeat split; lra|]. split; [discriminate|intros H; lra].
Qed.

Lemma X21_simulated_sample_bands_witness :
  drawn (mkRandoms (1 / 2) (1 / 2) (1 / 2) (1 / 2) (1 / 100) (9 / 10) (1 / 2)) /\
  snd (GET 0 (mkRandoms (1 / 2) (1 / 2) (1 / 2) (1 / 2) (1 / 100) (9 / 10) (1 / 2)))
  = true /\
  Detector.errorRate
    (fst (GET 0 (mkRandoms (1 / 2) (1 / 2) (1 / 2) (1 / 2) (1 / 100) (9 / 10) (1 / 2))))
  <= 15 / 2.
Proof.
  assert (Hd : drawn (mkRandoms (1 / 2) (1 / 2) (1 / 2) (1 / 2)
                                (1 / 100) (9 / 10) (1 / 2)))
    by (unfold drawn; simpl; lra).
  destruct (X21_simulated_sample_bands 0 _ Hd) as [_ [Hall Hflag]].
  split; [exact Hd|]. split.
  - apply Hflag. simpl. lra.
  - apply Hall.
Defined.

End SimulateFacts.
